(** * setup_flutter.py: a shallow embedding of the Flutter SDK installer

    The script is a single sequential pipeline (platform detection,
    release resolution, local version probe, decision gate, download,
    replacement of the installation directory, PATH guidance).  Every
    interaction with the outside world goes through a library call.  The
    embedding keeps the control flow of the script (early [return],
    [try]/[except]/[finally], the loops) and makes the answers of the
    outside world an explicit argument, the [World] record; a run yields
    the ordered list of the external calls it made (its trace) and the
    way the function was left.  The run is the call [install_flutter()]
    of the script's last line; the module-level statements before it (the
    two tables, and [os.system('')] on Windows to enable ANSI colours) are
    not part of it.

    Text is modelled by [string]; a character stands for a code point
    below 256.  Asynchronous interrupts (KeyboardInterrupt, SystemExit)
    are outside the model: every exception of the model is an instance of
    Python's [Exception]. *)

From Stdlib Require Import Bool Ascii String List ZArith QArith Lia Sorted.
Import ListNotations.
Local Open Scope list_scope.
Local Open Scope string_scope.

(** ** Text helpers (Python [str] methods used by the script) *)

Module Text.

Definition char (c : ascii) : string := String c EmptyString.

Definition ESC : string := char "027".
Definition LF : string := char "010".
Definition DQUOTE : string := char "034".
Definition BACKSLASH : string := char "092".

Definition is_empty (s : string) : bool :=
  match s with EmptyString => true | String _ _ => false end.

(** [s.startswith(p)] *)
Fixpoint startswith (p s : string) : bool :=
  match p, s with
  | EmptyString, _ => true
  | String a p', String b s' => Ascii.eqb a b && startswith p' s'
  | String _ _, EmptyString => false
  end.

(** Removes the literal prefix [p], when [s] starts with it. *)
Fixpoint strip_prefix (p s : string) : option string :=
  match p, s with
  | EmptyString, _ => Some s
  | String a p', String b s' =>
      if Ascii.eqb a b then strip_prefix p' s' else None
  | String _ _, EmptyString => None
  end.

(** [sub in s], the substring test of Python's [in] on [str]. *)
Fixpoint contains (sub s : string) : bool :=
  startswith sub s ||
  match s with
  | EmptyString => false
  | String _ s' => contains sub s'
  end.

(** [s.endswith(suffix)] *)
Definition endswith (suffix s : string) : bool :=
  let n := String.length s in
  let m := String.length suffix in
  (m <=? n)%nat && String.eqb (substring (n - m) m s) suffix.

(** [str.lower] on one character: A-Z, and the upper-case letters of the
    Latin-1 block (192-222 without the multiplication sign 215). *)
Definition lower_char (c : ascii) : ascii :=
  let n := nat_of_ascii c in
  if ((65 <=? n) && (n <=? 90))%nat then ascii_of_nat (n + 32)
  else if ((192 <=? n) && (n <=? 222) && negb (n =? 215))%nat
       then ascii_of_nat (n + 32)
  else c.

Fixpoint lower (s : string) : string :=
  match s with
  | EmptyString => EmptyString
  | String c s' => String (lower_char c) (lower s')
  end.

(** Longest prefix of [s] whose characters satisfy [p], and the rest. *)
Fixpoint span (p : ascii -> bool) (s : string) : string * string :=
  match s with
  | EmptyString => (EmptyString, EmptyString)
  | String c s' =>
      if p c then let (a, b) := span p s' in (String c a, b)
      else (EmptyString, s)
  end.

Fixpoint all (p : ascii -> bool) (s : string) : bool :=
  match s with
  | EmptyString => true
  | String c s' => p c && all p s'
  end.

(** [c * n] for a one-piece string [c]; a negative count gives [''] . *)
Definition repeat (piece : string) (n : Z) : string :=
  String.concat "" (List.repeat piece (Z.to_nat n)).

End Text.

(** ** Exceptions *)

(** The classes the script distinguishes in its [except] clauses, and the
    ones it can meet. *)
Inductive exn_class : Type :=
| Exception_
| OSError
| FileNotFoundError
| PermissionError
| URLError
| ContentTooShortError
| CalledProcessError
| KeyError
| TypeError
| ValueError
| ZeroDivisionError
| OverflowError
| OtherError (name : string).

Record exn : Type := Exn { exn_cls : exn_class; exn_msg : string }.

(** [isinstance(e, OSError)] *)
Definition is_OSError (e : exn) : bool :=
  match exn_cls e with
  | OSError | FileNotFoundError | PermissionError
  | URLError | ContentTooShortError => true
  | _ => false
  end.

Definition is_FileNotFoundError (e : exn) : bool :=
  match exn_cls e with FileNotFoundError => true | _ => false end.

Definition is_CalledProcessError (e : exn) : bool :=
  match exn_cls e with CalledProcessError => true | _ => false end.

(** The errors of the [os] functions: always instances of [OSError]. *)
Inductive os_kind : Type := EACCES | ENOENT | EOTHER.

Record os_error : Type := OsError { os_errno : os_kind; os_text : string }.

Definition exn_of_os (e : os_error) : exn :=
  Exn (match os_errno e with
       | EACCES => PermissionError
       | ENOENT => FileNotFoundError
       | EOTHER => OSError
       end) (os_text e).

(** [str(e)], as the f-strings of the error messages render it. *)
Definition str_exn (e : exn) : string := exn_msg e.

(** ** External calls and the control-flow monad *)

(** What [draw_progress_bar] writes: [\r{prefix} |{bar}| {percent}% {suffix}].
    The script renders the percentage through binary floating point with
    one decimal; the model keeps the exact ratio [100 * current / total]. *)
Record progress : Type := Progress {
  bar_prefix : string;
  bar_text : string;
  bar_filled : Z;
  bar_percent : Q;
  bar_suffix : string
}.

Inductive archive_kind : Type := Zip | TarXz.

(** One external call of the run, in the order the script makes them. *)
Inductive event : Type :=
| EPrint (line : string)                       (* print(line) *)
| EProgress (p : progress)                     (* sys.stdout.write of a bar; flush *)
| EWrite (s : string)                          (* sys.stdout.write(s) *)
| EUrlopen (url : string)                      (* urllib.request.urlopen(url) *)
| ERun (argv : list string) (shell : bool)     (* subprocess.run *)
| EUrlretrieve (url filename : string)         (* urllib.request.urlretrieve *)
| EExists (path : string)                      (* os.path.exists *)
| EUnlink (path : string) (ok : bool)          (* os.unlink, and whether it succeeded *)
| ERmdir (path : string) (ok : bool)           (* os.rmdir, and whether it succeeded *)
| EAccess (path : string)                      (* os.access(path, os.W_OK) *)
| EChmod (path : string) (mode : Z)            (* os.chmod *)
| EMakedirs (path : string)                    (* os.makedirs *)
| EOpenArchive (k : archive_kind) (filename : string)
| EExtract (member dest : string)              (* zip_ref.extract / tar.extract *)
| ERemove (path : string)                      (* os.remove *)
| EGetenv (name : string).                     (* os.environ.get *)

(** Calls that change the file system. *)
Definition fs_mutation (e : event) : bool :=
  match e with
  | EUrlretrieve _ _ | EUnlink _ _ | ERmdir _ _ | EChmod _ _
  | EMakedirs _ | EExtract _ _ | ERemove _ => true
  | _ => false
  end.

(** Calls that touch the file system at all, reads included. *)
Definition fs_access (e : event) : bool :=
  match e with
  | EExists _ | EAccess _ | EOpenArchive _ _ => true
  | _ => fs_mutation e
  end.

(** Calls that go to the network. *)
Definition network (e : event) : bool :=
  match e with
  | EUrlopen _ | EUrlretrieve _ _ => true
  | _ => false
  end.

(** Removal of (a part of) the installation directory. *)
Definition deletion (e : event) : bool :=
  match e with
  | EUnlink _ _ | ERmdir _ _ => true
  | _ => false
  end.

Definition extraction (e : event) : bool :=
  match e with
  | EExtract _ _ => true
  | _ => false
  end.

Definition download (e : event) : bool :=
  match e with
  | EUrlretrieve _ _ => true
  | _ => false
  end.

(** How a block of statements is left; [R] is the type of the value the
    enclosing function returns. *)
Inductive outcome (R A : Type) : Type :=
| Normal (a : A)        (* control falls through to the next statement *)
| Returned (r : R)      (* a [return] statement was executed *)
| Raised (e : exn).     (* an exception propagates *)

Arguments Normal {R A} a.
Arguments Returned {R A} r.
Arguments Raised {R A} e.

(** A block of statements: the calls it makes, and how it is left. *)
Definition M (R A : Type) : Type := (list event * outcome R A)%type.

Definition ret {R A : Type} (a : A) : M R A := ([], Normal a).

Definition bind {R A B : Type} (m : M R A) (k : A -> M R B) : M R B :=
  match m with
  | (t, Normal a) => let (t', o) := k a in ((t ++ t')%list, o)
  | (t, Returned r) => (t, Returned r)
  | (t, Raised e) => (t, Raised e)
  end.

Definition emit {R : Type} (e : event) : M R unit := ([e], Normal tt).
Definition raise {R A : Type} (e : exn) : M R A := ([], Raised e).
Definition return_ {R A : Type} (r : R) : M R A := ([], Returned r).

Declare Scope py_scope.
Delimit Scope py_scope with py.
Notation "x <- c ;; k" := (bind c (fun x => k))
  (at level 61, c at next level, right associativity) : py_scope.
Notation "c ;; k" := (bind c (fun _ => k))
  (at level 61, right associativity) : py_scope.
Local Open Scope py_scope.

(** One [except <class> as e: handler] clause: the [isinstance] test and
    the handler. *)
Definition clause (R A : Type) : Type := ((exn -> bool) * (exn -> M R A))%type.

Fixpoint select {R A : Type} (clauses : list (clause R A)) (e : exn)
    : option (M R A) :=
  match clauses with
  | [] => None
  | (handles, handler) :: rest =>
      if handles e then Some (handler e) else select rest e
  end.

(** [try: body except ...: ...]: the first clause whose class matches
    handles the exception; without one it propagates. *)
Definition try_except {R A : Type} (body : M R A)
    (clauses : list (clause R A)) : M R A :=
  match body with
  | (t, Raised e) =>
      match select clauses e with
      | Some (t', o) => ((t ++ t')%list, o)
      | None => (t, Raised e)
      end
  | _ => body
  end.

(** [try: body finally: cleanup]: the cleanup runs however the body is
    left, and the body's way of leaving is kept unless the cleanup itself
    returns or raises. *)
Definition try_finally {R A : Type} (body : M R A) (cleanup : M R unit)
    : M R A :=
  let (t, o) := body in
  let (t', o') := cleanup in
  ((t ++ t')%list,
   match o' with
   | Normal _ => o
   | Returned r => Returned r
   | Raised e => Raised e
   end).

(** A function call: the callee's [return] ends the callee only; a body
    that runs off its end returns [None]. *)
Definition call {R R' : Type} (none : R) (body : M R unit) : M R' R :=
  match body with
  | (t, Normal _) => (t, Normal none)
  | (t, Returned r) => (t, Normal r)
  | (t, Raised e) => (t, Raised e)
  end.

(** [except Exception] and the bare [except:]. *)
Definition any_exception (_ : exn) : bool := true.

Definition trace {R A : Type} (m : M R A) : list event := fst m.
Definition result {R A : Type} (m : M R A) : outcome R A := snd m.

(** ** Visual utilities *)

Module Colors.
Import Text.
Definition HEADER : string := ESC ++ "[95m".
Definition BLUE : string := ESC ++ "[94m".
Definition CYAN : string := ESC ++ "[96m".
Definition GREEN : string := ESC ++ "[92m".
Definition YELLOW : string := ESC ++ "[93m".
Definition RED : string := ESC ++ "[91m".
Definition RESET : string := ESC ++ "[0m".
Definition BOLD : string := ESC ++ "[1m".
End Colors.

Definition print {R : Type} (line : string) : M R unit := emit (EPrint line).

Definition print_step {R : Type} (emoji text : string) : M R unit :=
  print (Text.LF ++ Colors.BOLD ++ Colors.CYAN ++ emoji ++ "  " ++ text
         ++ Colors.RESET).

Definition print_success {R : Type} (text : string) : M R unit :=
  print (Colors.BOLD ++ Colors.GREEN ++ "✓ " ++ text ++ Colors.RESET).

Definition print_warning {R : Type} (text : string) : M R unit :=
  print (Colors.YELLOW ++ "⚠ " ++ text ++ Colors.RESET).

Definition print_error {R : Type} (text : string) : M R unit :=
  print (Colors.BOLD ++ Colors.RED ++ "✖ " ++ text ++ Colors.RESET).

Definition FILL : string := "█".

(** [float(n)] of an [int] raises [OverflowError] from this magnitude on. *)
Definition FLOAT_LIMIT : Z := (2 ^ 1024 - 2 ^ 970)%Z.

Definition float_overflows (n : Z) : bool := (FLOAT_LIMIT <=? Z.abs n)%Z.

(** [draw_progress_bar(current, total, prefix, suffix, length=...)], with
    the defaults [decimals=1] and [fill] of the source.  The quotient
    [current / float(total)] raises [OverflowError] for an [int] beyond the
    range of [float] and [ZeroDivisionError] when [total] is zero. *)
Definition draw_progress_bar {R : Type} (current total : Z)
    (prefix suffix : string) (length : Z) : M R unit :=
  if float_overflows total || float_overflows current
  then raise (Exn OverflowError "int too large to convert to float")
  else if (total =? 0)%Z
  then raise (Exn ZeroDivisionError "float division by zero")
  else
    let percent := (100 * (inject_Z current / inject_Z total))%Q in
    let filled_length := (length * current / total)%Z in
    let bar := Text.repeat FILL filled_length
               ++ Text.repeat "-" (length - filled_length) in
    emit (EProgress (Progress prefix bar filled_length percent suffix)) ;;
    if (current =? total)%Z then emit (EWrite Text.LF) else ret tt.

(** ** JSON values, as [json.loads] returns them *)

(** A Python [float]: the model keeps the exact value of a finite one. *)
Inductive pyfloat : Type :=
| FNan
| FInf (negative : bool)
| FFinite (q : Q).

(** [JDict] lists the items of a [dict] in insertion order, each key once. *)
#[warnings="-register-all"]
Inductive json : Type :=
| JNone
| JBool (b : bool)
| JInt (n : Z)
| JFloat (f : pyfloat)
| JStr (s : string)
| JList (items : list json)
| JDict (entries : list (string * json)).

Definition type_name (v : json) : string :=
  match v with
  | JNone => "NoneType"
  | JBool _ => "bool"
  | JInt _ => "int"
  | JFloat _ => "float"
  | JStr _ => "str"
  | JList _ => "list"
  | JDict _ => "dict"
  end.

Fixpoint dict_get {V : Type} (d : list (string * V)) (key : string) : option V :=
  match d with
  | [] => None
  | (k, v) :: d' => if String.eqb k key then Some v else dict_get d' key
  end.

(** [d[key]] on a [dict]. *)
Definition lookup {R V : Type} (d : list (string * V)) (key : string)
    : M R V :=
  match dict_get d key with
  | Some v => ret v
  | None => raise (Exn KeyError ("'" ++ key ++ "'"))
  end.

(** [v[key]] for a string key (messages as CPython 3.12 words them). *)
Definition getitem {R : Type} (v : json) (key : string) : M R json :=
  match v with
  | JDict d => lookup d key
  | JList _ =>
      raise (Exn TypeError "list indices must be integers or slices, not str")
  | JStr _ =>
      raise (Exn TypeError "string indices must be integers, not 'str'")
  | _ =>
      raise (Exn TypeError ("'" ++ type_name v ++ "' object is not subscriptable"))
  end.

Fixpoint chars (s : string) : list json :=
  match s with
  | EmptyString => []
  | String c s' => JStr (Text.char c) :: chars s'
  end.

(** [iter(v)], run to its end: the items a [for] over [v] visits. *)
Definition iterate {R : Type} (v : json) : M R (list json) :=
  match v with
  | JList items => ret items
  | JDict d => ret (map (fun kv => JStr (fst kv)) d)
  | JStr s => ret (chars s)
  | _ => raise (Exn TypeError ("'" ++ type_name v ++ "' object is not iterable"))
  end.

(** Numbers, with [bool] as the subclass of [int] it is. *)
Inductive number : Type := NInt (n : Z) | NFloat (f : pyfloat).

Definition as_number (v : json) : option number :=
  match v with
  | JBool b => Some (NInt (if b then 1 else 0))
  | JInt n => Some (NInt n)
  | JFloat f => Some (NFloat f)
  | _ => None
  end.

Definition float_eqb (f g : pyfloat) : bool :=
  match f, g with
  | FFinite p, FFinite q => Qeq_bool p q
  | FInf a, FInf b => Bool.eqb a b
  | _, _ => false
  end.

Definition number_eqb (x y : number) : bool :=
  match x, y with
  | NInt a, NInt b => (a =? b)%Z
  | NInt a, NFloat f | NFloat f, NInt a => float_eqb (FFinite (inject_Z a)) f
  | NFloat f, NFloat g => float_eqb f g
  end.

Definition is_nan (v : json) : bool :=
  match v with JFloat FNan => true | _ => false end.

(** [a == b].  Containers compare their items with the identity shortcut
    ([x is y or x == y]); among decoded values it only matters for NaN,
    which [json] decodes to one shared object. *)
Fixpoint py_eq (a b : json) {struct a} : bool :=
  match as_number a, as_number b with
  | Some x, Some y => number_eqb x y
  | Some _, None | None, Some _ => false
  | None, None =>
      match a, b with
      | JNone, JNone => true
      | JStr s, JStr t => String.eqb s t
      | JList l, JList m =>
          (fix items (l m : list json) {struct l} : bool :=
             match l, m with
             | [], [] => true
             | x :: l', y :: m' =>
                 ((is_nan x && is_nan y) || py_eq x y) && items l' m'
             | _, _ => false
             end) l m
      | JDict d, JDict e =>
          Nat.eqb (List.length d) (List.length e) &&
          (fix entries (d : list (string * json)) {struct d} : bool :=
             match d with
             | [] => true
             | (k, x) :: d' =>
                 match dict_get e k with
                 | Some y => ((is_nan x && is_nan y) || py_eq x y) && entries d'
                 | None => false
                 end
             end) d
      | _, _ => false
      end
  end.

(** [bool(v)] *)
Definition truthy (v : json) : bool :=
  match v with
  | JNone => false
  | JBool b => b
  | JInt n => negb (n =? 0)%Z
  | JFloat (FFinite q) => negb (Qeq_bool q 0)
  | JFloat _ => true
  | JStr s => negb (Text.is_empty s)
  | JList l => match l with [] => false | _ => true end
  | JDict d => match d with [] => false | _ => true end
  end.

(** [next((item for item in items if item['hash'] == current_hash), None)] *)
Fixpoint first_match {R : Type} (current_hash : json) (items : list json)
    : M R (option json) :=
  match items with
  | [] => ret None
  | item :: rest =>
      h <- getitem item "hash" ;;
      if py_eq h current_hash then ret (Some item)
      else first_match current_hash rest
  end.

(** ** The pattern of the version probe *)

(** [\s] and [\d] of a [str] pattern, on the code points below 256. *)
Definition is_space (c : ascii) : bool :=
  let n := nat_of_ascii c in
  (((9 <=? n) && (n <=? 13)) || ((28 <=? n) && (n <=? 32))
   || (n =? 133) || (n =? 160))%nat.

Definition is_digit (c : ascii) : bool :=
  let n := nat_of_ascii c in ((48 <=? n) && (n <=? 57))%nat.

(** [c+] at the start of [s], for a character class [c]: the longest
    run, which must not be empty, and what follows it. *)
Definition plus (class : ascii -> bool) (s : string) : option (string * string) :=
  match Text.span class s with
  | (String c run, rest) => Some (String c run, rest)
  | (EmptyString, _) => None
  end.

(** [\d+\.\d+\.\d+] at the start of [s]: the text of the match. *)
Definition match_version (s : string) : option string :=
  match plus is_digit s with
  | Some (major, r1) =>
      match Text.strip_prefix "." r1 with
      | Some r2 =>
          match plus is_digit r2 with
          | Some (minor, r3) =>
              match Text.strip_prefix "." r3 with
              | Some r4 =>
                  match plus is_digit r4 with
                  | Some (patch, _) => Some (major ++ "." ++ minor ++ "." ++ patch)
                  | None => None
                  end
              | None => None
              end
          | None => None
          end
      | None => None
      end
  | None => None
  end.

(** [Flutter\s+(\d+\.\d+\.\d+)] at the start of [s]: group 1. *)
Definition match_here (s : string) : option string :=
  match Text.strip_prefix "Flutter" s with
  | Some r =>
      match plus is_space r with
      | Some (_, r') => match_version r'
      | None => None
      end
  | None => None
  end.

(** [re.search(r"Flutter\s+(\d+\.\d+\.\d+)", s)]: group 1 of the leftmost
    match, if there is one.  Each repetition is followed by a character
    outside its class, so the greedy choice is the only one. *)
Fixpoint re_search (s : string) : option string :=
  match match_here s with
  | Some v => Some v
  | None =>
      match s with
      | EmptyString => None
      | String _ s' => re_search s'
      end
  end.

(** The pattern, stated on the text: [s] holds the word, some white
    space and three dot-separated runs of digits. *)
Definition matches_pattern (s : string) : Prop :=
  exists before ws major minor patch rest,
    s = before ++ "Flutter" ++ ws ++ major ++ "." ++ minor ++ "." ++ patch ++ rest
    /\ ws <> "" /\ Text.all is_space ws = true
    /\ major <> "" /\ Text.all is_digit major = true
    /\ minor <> "" /\ Text.all is_digit minor = true
    /\ patch <> "" /\ Text.all is_digit patch = true.

(** The shape of a version token. *)
Definition version_token (v : string) : Prop :=
  exists major minor patch,
    v = major ++ "." ++ minor ++ "." ++ patch
    /\ major <> "" /\ Text.all is_digit major = true
    /\ minor <> "" /\ Text.all is_digit minor = true
    /\ patch <> "" /\ Text.all is_digit patch = true.

(** ** The answers of the outside world *)

(** [urlopen(url)], [read().decode()] and [json.loads] on the metadata. *)
Inductive metadata_reply : Type :=
| FetchFails (e : exn)      (* the request or the read raises *)
| Malformed (e : exn)       (* the body does not decode or parse *)
| Document (data : json).

(** [subprocess.run(["flutter", "--version"], capture_output=True,
    text=True, ...)] before its [check]. *)
Inductive process_reply : Type :=
| SpawnFails (e : exn)      (* no such executable, or any other failure *)
| Exited (returncode : Z) (stdout : string).

(** The transfer behind [urlretrieve]: the declared size (-1 without a
    Content-Length header), the lengths of the blocks [fp.read(bs)]
    returned, and the failure that ended the reading, if any. *)
Inductive download_reply : Type :=
| StartFails (e : exn)      (* the request, or opening the local file *)
| Stream (size : Z) (blocks : list Z) (failure : option exn).

(** What the world answers when a path is deleted: the first attempt, and,
    for the handler, [os.access(path, os.W_OK)], [os.chmod] and the
    second attempt. *)
Record attempt : Type := Attempt {
  first_try : option os_error;
  writable : bool;
  chmod_reply : option os_error;
  second_try : option os_error
}.

(** The content of the installation directory. *)
#[warnings="-register-all"]
Inductive tree : Type :=
| File (name : string) (a : attempt)
| Dir (name : string) (children : list tree) (a : attempt).

Record member : Type := Member {
  member_name : string;
  extract_reply : option exn
}.

Inductive archive_reply : Type :=
| OpenFails (e : exn)       (* opening or listing the archive raises *)
| Members (ms : list member).

(** The calls by which [rmtree] enters a directory, before it deletes
    anything in it.  [os.lstat] and [os.open] belong to the traversal
    that works on file descriptors. *)
Inductive traversal_call : Type :=
| Lstat        (* os.lstat(path), entry.stat(follow_symlinks=False) *)
| Open         (* os.open(path, os.O_RDONLY) *)
| Scandir.     (* os.scandir *)

(** What the world answers the handler on a directory that could not be
    entered: [os.access(path, os.W_OK)], [os.chmod], and the call the
    handler then makes again ([os.lstat] or [os.scandir]). *)
Record handling : Type := Handling {
  can_write : bool;
  chmod_answer : option os_error;
  retry : option os_error
}.

(** What happens when [rmtree] enters a directory. *)
Inductive listing : Type :=
| Listed                            (* its entries are read *)
| Symlink (h : handling)            (* it is, or has become, a symbolic link *)
| Failing (call : traversal_call) (e : os_error) (h : handling).

Record World : Type := {
  platform_system : string;                      (* platform.system() *)
  os_name : string;                              (* os.name *)
  expanduser : string -> string;                 (* os.path.expanduser *)
  str_value : json -> string;                    (* str(v), v not a str *)
  metadata : string -> metadata_reply;           (* by URL *)
  flutter_version : process_reply;
  transfer : string -> string -> download_reply; (* by URL and file name *)
  install_dir : option (list tree * attempt);    (* None: no such path *)
  use_fd_functions : bool;                       (* shutil._use_fd_functions *)
  traversal : string -> listing;                 (* by directory *)
  parent_exists : bool;                          (* os.path.exists(parent_dir) *)
  makedirs_reply : option os_error;
  archive : archive_reply;
  archive_exists : bool;                         (* os.path.exists(filename), at cleanup *)
  remove_reply : option os_error;                (* os.remove(filename) *)
  environ_PATH : option string                   (* os.environ.get('PATH') *)
}.

(** [f"{v}"] *)
Definition py_str (w : World) (v : json) : string :=
  match v with
  | JStr s => s
  | _ => str_value w v
  end.

(** ** Configuration *)

Definition INSTALL_DIR_NAME : string := "flutter".

Definition BASE_URL : string :=
  "https://storage.googleapis.com/flutter_infra_release/releases".

Definition PATHS (w : World) : list (string * string) :=
  [ ("Windows", "C:" ++ Text.BACKSLASH ++ "flutter");
    ("Darwin", expanduser w "~/development/flutter");
    ("Linux", expanduser w "~/development/flutter") ].

Definition METADATA_URLS : list (string * string) :=
  [ ("Windows",
     "https://storage.googleapis.com/flutter_infra_release/releases/releases_windows.json");
    ("Darwin",
     "https://storage.googleapis.com/flutter_infra_release/releases/releases_macos.json");
    ("Linux",
     "https://storage.googleapis.com/flutter_infra_release/releases/releases_linux.json") ].

(** ** [os.path] on the paths of the script

    [os.path] is [ntpath] where [platform.system()] is "Windows" and
    [posixpath] on the two other supported systems.  The second argument
    of [join] is always a relative name here. *)

Definition is_slash (c : ascii) : bool := Ascii.eqb c "/".

Definition is_nt_sep (c : ascii) : bool :=
  Ascii.eqb c "/" || Ascii.eqb c "092".

Fixpoint last_char (s : string) : option ascii :=
  match s with
  | EmptyString => None
  | String c EmptyString => Some c
  | String _ s' => last_char s'
  end.

Fixpoint has_char (p : ascii -> bool) (s : string) : bool :=
  match s with
  | EmptyString => false
  | String c s' => p c || has_char p s'
  end.

(** [s[:i]], [i] just after the last separator; [''] without one. *)
Fixpoint upto_last (p : ascii -> bool) (s : string) : string :=
  match s with
  | EmptyString => EmptyString
  | String c s' => if has_char p s then String c (upto_last p s') else EmptyString
  end.

(** [s.rstrip(seps)] *)
Fixpoint rstrip (p : ascii -> bool) (s : string) : string :=
  match s with
  | EmptyString => EmptyString
  | String c s' =>
      match rstrip p s' with
      | EmptyString => if p c then EmptyString else String c EmptyString
      | r => String c r
      end
  end.

Definition posix_join (a b : string) : string :=
  match last_char a with
  | None => b
  | Some c => if is_slash c then a ++ b else a ++ "/" ++ b
  end.

Definition posix_dirname (p : string) : string :=
  let head := upto_last is_slash p in
  if negb (Text.is_empty head) && negb (Text.all is_slash head)
  then rstrip is_slash head else head.

(** Drive letter and the rest, for a path that starts with [X:]. *)
Definition splitdrive (p : string) : string * string :=
  match p with
  | String d (String ":" rest) => (String d (String ":" EmptyString), rest)
  | _ => (EmptyString, p)
  end.

Definition nt_join (a b : string) : string :=
  match last_char a with
  | None => b
  | Some c =>
      if is_nt_sep c || Ascii.eqb c ":" then a ++ b
      else a ++ Text.BACKSLASH ++ b
  end.

Definition nt_dirname (p : string) : string :=
  let (drive, rest) := splitdrive p in
  let (root, tail) :=
    match rest with
    | String c rest' => if is_nt_sep c then (Text.char c, rest') else (EmptyString, rest)
    | EmptyString => (EmptyString, EmptyString)
    end in
  drive ++ root ++ rstrip is_nt_sep (upto_last is_nt_sep tail).

Definition path_join (current_os a b : string) : string :=
  if String.eqb current_os "Windows" then nt_join a b else posix_join a b.

Definition dirname (current_os p : string) : string :=
  if String.eqb current_os "Windows" then nt_dirname p else posix_dirname p.

(** ** Logic *)

Definition get_os (w : World) : string := platform_system w.

Definition W_OK : Z := 2.
Definition S_IWRITE : Z := 128.

Definition failed (r : option os_error) : bool :=
  match r with None => false | Some _ => true end.

Definition os_result {R : Type} (r : option os_error) : M R unit :=
  match r with
  | None => ret tt
  | Some e => raise (exn_of_os e)
  end.

Definition os_unlink {R : Type} (reply : option os_error) (path : string)
    : M R unit :=
  emit (EUnlink path (negb (failed reply))) ;; os_result reply.

Definition os_rmdir {R : Type} (reply : option os_error) (path : string)
    : M R unit :=
  emit (ERmdir path (negb (failed reply))) ;; os_result reply.

Definition os_access {R : Type} (reply : bool) (path : string) (mode : Z)
    : M R bool :=
  emit (EAccess path) ;; ret reply.

Definition os_chmod {R : Type} (reply : option os_error) (path : string)
    (mode : Z) : M R unit :=
  emit (EChmod path mode) ;; os_result reply.

(** [on_rm_error(func, path, exc_info)]: the error handler given to
    [shutil.rmtree].  [a] holds the world's answers for [path]; the bare
    [raise] re-raises the error [rmtree] is handling. *)
Definition on_rm_error {R : Type} (a : attempt)
    (func : string -> M R unit) (path : string) (exc_info : exn) : M R unit :=
  can_write <- os_access (writable a) path W_OK ;;
  if negb can_write then
    os_chmod (chmod_reply a) path S_IWRITE ;;
    func path
  else
    raise exc_info.

(** The calls [on_rm_error] makes again when the failed call was not a
    deletion.  [os.lstat(path)] and [os.scandir(path)] succeed or raise an
    [OSError]; [os.path.islink(path)] returns; [os.open(path)] lacks the
    required argument [flags].  None of them changes the file system, and
    the trace does not record them. *)
Definition os_lstat {R : Type} (reply : option os_error) (path : string)
    : M R unit :=
  os_result reply.

Definition os_scandir {R : Type} (reply : option os_error) (path : string)
    : M R unit :=
  os_result reply.

Definition os_path_islink {R : Type} (path : string) : M R unit := ret tt.

Definition MISSING_FLAGS : exn :=
  Exn TypeError "open() missing required argument 'flags' (pos 2)".

Definition os_open {R : Type} (path : string) : M R unit := raise MISSING_FLAGS.

Definition SYMLINK_REFUSED : exn :=
  Exn OSError "Cannot call rmtree on a symbolic link".

(** The answers of the world for the handler, as those of a deletion. *)
Definition answers (e : option os_error) (h : handling) : attempt :=
  Attempt e (can_write h) (chmod_answer h) (retry h).

(** A directory [rmtree] does not enter: the failed call goes to
    [onerror] with the path and the error. *)
Definition not_entered {R : Type}
    (onerror : attempt -> (string -> M R unit) -> string -> exn -> M R unit)
    (path : string) (l : listing) : M R unit :=
  match l with
  | Listed => ret tt
  | Symlink h =>
      onerror (answers None h) os_path_islink path SYMLINK_REFUSED
  | Failing Lstat e h =>
      onerror (answers (Some e) h) (os_lstat (retry h)) path (exn_of_os e)
  | Failing Open e h =>
      onerror (answers (Some e) h) os_open path (exn_of_os e)
  | Failing Scandir e h =>
      onerror (answers (Some e) h) (os_scandir (retry h)) path (exn_of_os e)
  end.

(** [shutil.rmtree(path, onerror=onerror)] on a directory, as CPython
    3.11 writes it.  A directory is entered first: the traversal on file
    descriptors ([_rmtree_safe_fd]) calls [os.lstat], [os.open] and
    compares the two, then [os.scandir]; the other one ([_rmtree_unsafe])
    tests for a symbolic link, then [os.scandir].  A failure there goes
    to [onerror]; when the handler comes back, the directory is left as
    it is, except after a failed [os.scandir], where [os.rmdir] is still
    tried.  An entered directory loses its entries first (files by
    [os.unlink], directories by a recursive call), then [os.rmdir]
    removes it.  An [OSError] of a deletion goes to [onerror]; when the
    handler comes back the traversal goes on, and what the handler raises
    leaves [rmtree].  [enter] gives, for a directory, the answer of the
    calls of the traversal in use. *)
Fixpoint rmtree_entry {R : Type}
    (onerror : attempt -> (string -> M R unit) -> string -> exn -> M R unit)
    (join : string -> string -> string) (enter : string -> listing)
    (parent : string) (t : tree) {struct t} : M R unit :=
  match t with
  | File name a =>
      let fullname := join parent name in
      try_except (os_unlink (first_try a) fullname)
        [ (is_OSError, onerror a (os_unlink (second_try a)) fullname) ]
  | Dir name children a =>
      let fullname := join parent name in
      match enter fullname with
      | Listed =>
          (fix entries (ts : list tree) : M R unit :=
             match ts with
             | [] => ret tt
             | t' :: ts' =>
                 rmtree_entry onerror join enter fullname t' ;; entries ts'
             end) children ;;
          try_except (os_rmdir (first_try a) fullname)
            [ (is_OSError, onerror a (os_rmdir (second_try a)) fullname) ]
      | Failing Scandir e h =>
          not_entered onerror fullname (Failing Scandir e h) ;;
          try_except (os_rmdir (first_try a) fullname)
            [ (is_OSError, onerror a (os_rmdir (second_try a)) fullname) ]
      | l => not_entered onerror fullname l
      end
  end.

Fixpoint rmtree_entries {R : Type}
    (onerror : attempt -> (string -> M R unit) -> string -> exn -> M R unit)
    (join : string -> string -> string) (enter : string -> listing)
    (parent : string) (ts : list tree) : M R unit :=
  match ts with
  | [] => ret tt
  | t :: ts' =>
      rmtree_entry onerror join enter parent t ;;
      rmtree_entries onerror join enter parent ts'
  end.

Definition rmtree {R : Type}
    (onerror : attempt -> (string -> M R unit) -> string -> exn -> M R unit)
    (join : string -> string -> string) (enter : string -> listing)
    (path : string) (content : list tree * attempt) : M R unit :=
  let (children, a) := content in
  match enter path with
  | Listed =>
      rmtree_entries onerror join enter path children ;;
      try_except (os_rmdir (first_try a) path)
        [ (is_OSError, onerror a (os_rmdir (second_try a)) path) ]
  | Failing Scandir e h =>
      not_entered onerror path (Failing Scandir e h) ;;
      try_except (os_rmdir (first_try a) path)
        [ (is_OSError, onerror a (os_rmdir (second_try a)) path) ]
  | l => not_entered onerror path l
  end.

(** The answer of the traversal in use on this platform: without the
    functions on file descriptors, [os.lstat] and [os.open] are not
    called. *)
Definition entering (w : World) (path : string) : listing :=
  match traversal w path with
  | Failing Lstat _ _ | Failing Open _ _ =>
      if use_fd_functions w then traversal w path else Listed
  | l => l
  end.

(** [subprocess.run(argv, ..., check=check, shell=shell)] *)
Definition subprocess_run {R : Type} (w : World) (argv : list string)
    (check shell : bool) : M R string :=
  emit (ERun argv shell) ;;
  match flutter_version w with
  | SpawnFails e => raise e
  | Exited returncode stdout =>
      if check && negb (returncode =? 0)%Z
      then raise (Exn CalledProcessError "Command returned non-zero exit status")
      else ret stdout
  end.

(** [get_installed_version()] *)
Definition get_installed_version {R : Type} (w : World) : M R (option string) :=
  call None
    (try_except
       (let use_shell := String.eqb (os_name w) "nt" in
        stdout <- subprocess_run w ["flutter"; "--version"] true use_shell ;;
        match re_search stdout with
        | Some group1 => return_ (Some group1)
        | None => ret tt
        end)
       [ (is_FileNotFoundError, fun _ => return_ None);
         (is_CalledProcessError, fun _ => return_ None);
         (any_exception, fun _ => return_ None) ] ;;
     return_ None).

(** [download_reporthook(block_num, block_size, total_size)] *)
Definition download_reporthook {R : Type} (block_num block_size total_size : Z)
    : M R unit :=
  let downloaded := (block_num * block_size)%Z in
  if (downloaded <? total_size)%Z then
    draw_progress_bar downloaded total_size "Downloading:" "" 30
  else
    draw_progress_bar total_size total_size "Downloading:" "Complete" 30.

(** [urllib.request.urlretrieve(url, filename, reporthook)], as CPython
    writes it: one call of the hook before the first read and one after
    each block, then the check of the received length. *)
Definition BLOCK_SIZE : Z := 8192.

Fixpoint read_blocks {R : Type} (reporthook : Z -> Z -> Z -> M R unit)
    (size read blocknum : Z) (blocks : list Z) : M R Z :=
  match blocks with
  | [] => ret read
  | block :: rest =>
      reporthook (blocknum + 1)%Z BLOCK_SIZE size ;;
      read_blocks reporthook size (read + block)%Z (blocknum + 1)%Z rest
  end.

Definition retrieve {R : Type} (reply : download_reply)
    (reporthook : Z -> Z -> Z -> M R unit) : M R unit :=
  match reply with
  | StartFails e => raise e
  | Stream size blocks failure =>
      reporthook 0%Z BLOCK_SIZE size ;;
      read <- read_blocks reporthook size 0%Z 0%Z blocks ;;
      match failure with
      | Some e => raise e
      | None =>
          if (size >=? 0)%Z && (read <? size)%Z
          then raise (Exn ContentTooShortError "retrieval incomplete")
          else ret tt
      end
  end.

Definition urlretrieve {R : Type} (w : World) (url filename : string)
    (reporthook : Z -> Z -> Z -> M R unit) : M R unit :=
  emit (EUrlretrieve url filename) ;;
  retrieve (transfer w url filename) reporthook.

(** Step 1 of [install_flutter], the body of its first [try]: resolves
    the current stable release to its download URL and version. *)
Definition fetch_metadata {R : Type} (w : World) (current_os : string)
    : M R (string * json) :=
  url <- lookup METADATA_URLS current_os ;;
  emit (EUrlopen url) ;;
  data <- match metadata w url with
          | FetchFails e => raise e
          | Malformed e => raise e
          | Document data => ret data
          end ;;
  current_release <- getitem data "current_release" ;;
  current_hash <- getitem current_release "stable" ;;
  releases <- getitem data "releases" ;;
  items <- iterate releases ;;
  release <- first_match current_hash items ;;
  match release with
  | Some release' =>
      if negb (truthy release')
      then raise (Exn Exception_ "Could not match hash to release.")
      else
        archive_path <- getitem release' "archive" ;;
        let download_url := BASE_URL ++ "/" ++ py_str w archive_path in
        latest_version <- getitem release' "version" ;;
        print_success ("Latest Stable Version: " ++ Colors.BOLD
                       ++ py_str w latest_version ++ Colors.RESET) ;;
        ret (download_url, latest_version)
  | None => raise (Exn Exception_ "Could not match hash to release.")
  end.

(** The two extraction loops of step 4 (one per archive format, the same
    statements): every member is extracted, and the bar is redrawn on
    every hundredth member and on the last one. *)
Fixpoint extract_members {R : Type} (parent_dir : string) (total_files i : Z)
    (ms : list member) : M R unit :=
  match ms with
  | [] => ret tt
  | m :: rest =>
      emit (EExtract (member_name m) parent_dir) ;;
      match extract_reply m with Some e => raise e | None => ret tt end ;;
      (if ((i mod 100 =? 0) || (i =? total_files - 1))%Z
       then draw_progress_bar (i + 1)%Z total_files "Extracting: " "" 30
       else ret tt) ;;
      extract_members parent_dir total_files (i + 1)%Z rest
  end.

Definition extract_archive {R : Type} (w : World) (k : archive_kind)
    (filename parent_dir : string) : M R unit :=
  emit (EOpenArchive k filename) ;;
  match archive w with
  | OpenFails e => raise e
  | Members file_list =>
      let total_files := Z.of_nat (List.length file_list) in
      extract_members parent_dir total_files 0%Z file_list
  end.

(** The [finally] clause of step 4. *)
Definition remove_archive {R : Type} (w : World) (filename : string) : M R unit :=
  emit (EExists filename) ;;
  if archive_exists w then
    try_except
      (emit (ERemove filename) ;; os_result (remove_reply w))
      [ (any_exception, fun _ => ret tt) ]
  else ret tt.

Definition bin_path_of (current_os install_path : string) : string :=
  path_join current_os install_path "bin".

(** Step 5, PATH handling, and the closing banner. *)
Definition path_handling {R : Type} (w : World) (current_os install_path : string)
    : M R unit :=
  let bin_path := bin_path_of current_os install_path in
  print_step "⚙️" "Final Configuration" ;;
  (if String.eqb current_os "Windows" then
     emit (EGetenv "PATH") ;;
     let user_path := match environ_PATH w with Some p => p | None => "" end in
     if Text.contains (Text.lower bin_path) (Text.lower user_path) then
       print_success "Flutter is already in your PATH."
     else
       print_warning "Action Required: Update your PATH." ;;
       print "Run this in PowerShell (Admin) to finish:" ;;
       print ("  [Environment]::SetEnvironmentVariable('Path', $env:Path + ';"
              ++ bin_path ++ "', 'User')")
   else
     print_success "Installation done." ;;
     print ("Add this to your .zshrc/.bashrc: export PATH=" ++ Text.DQUOTE
            ++ "$PATH:" ++ bin_path ++ Text.DQUOTE)) ;;
  print (Text.LF ++ Colors.HEADER ++ "========================================"
         ++ Colors.RESET) ;;
  print (Colors.BOLD ++ Colors.GREEN ++ "   READY TO CODE! 🚀" ++ Colors.RESET) ;;
  print ("   Run '" ++ Colors.CYAN ++ "flutter doctor" ++ Colors.RESET
         ++ "' to verify setup.") ;;
  print (Colors.HEADER ++ "========================================" ++ Colors.RESET).

Definition banner {R : Type} : M R unit :=
  print (Colors.HEADER ++ "========================================" ++ Colors.RESET) ;;
  print (Colors.HEADER ++ "    FLUTTER ENVIRONMENT SETUP           " ++ Colors.RESET) ;;
  print (Colors.HEADER ++ "========================================" ++ Colors.RESET).

(** [installed_version == latest_version], a [str] against a decoded value. *)
Definition version_eq (installed_version : string) (latest_version : json) : bool :=
  py_eq (JStr installed_version) latest_version.

(** [if installed_version:] on an optional [str]: [None] and [''] are
    false. *)
Definition present (installed_version : option string) : bool :=
  match installed_version with
  | Some v => negb (Text.is_empty v)
  | None => false
  end.

Definition text_of (installed_version : option string) : string :=
  match installed_version with
  | Some v => v
  | None => "None"
  end.

(** Step 3, the download. *)
Definition download_step (w : World) (download_url filename : string)
    : M unit unit :=
  print_step "⬇️" "Downloading Flutter SDK..." ;;
  try_except
    (urlretrieve w download_url filename download_reporthook ;;
     print_success "Download finished.")
    [ (any_exception, fun e =>
         print_error ("Download failed: " ++ str_exn e) ;; return_ tt) ].

(** Step 4, "Clean old install". *)
Definition clean_old_install (w : World) (current_os install_path : string)
    : M unit unit :=
  emit (EExists install_path) ;;
  match install_dir w with
  | Some content =>
      print_warning "Removing old installation directory..." ;;
      try_except
        (* Use the custom error handler for Read-Only Git files *)
        (rmtree on_rm_error (path_join current_os) (entering w) install_path
           content)
        [ (is_OSError, fun e =>
             print_error ("Could not remove old directory: " ++ str_exn e) ;;
             print "Check if any Flutter files are open or locked." ;;
             return_ tt) ]
  | None => ret tt
  end.

(** Step 4, "Extraction": the parent directory, the extraction with its
    [except] and [finally] clauses. *)
Definition extraction_step (w : World) (current_os install_path filename : string)
    : M unit unit :=
  let parent_dir := dirname current_os install_path in
  emit (EExists parent_dir) ;;
  (if negb (parent_exists w)
   then emit (EMakedirs parent_dir) ;; os_result (makedirs_reply w)
   else ret tt) ;;
  try_finally
    (try_except
       ((if Text.endswith ".zip" filename
         then extract_archive w Zip filename parent_dir
         else extract_archive w TarXz filename parent_dir) ;;
        print_success "Extraction complete.")
       [ (any_exception, fun e =>
            print_error ("Extraction failed: " ++ str_exn e) ;; return_ tt) ])
    (remove_archive w filename).

(** Steps 3 to 5: what follows the decision gate. *)
Definition install_steps (w : World)
    (current_os install_path download_url : string) (latest_version : json)
    : M unit unit :=
  (* 3. Download *)
  let filename := "flutter_" ++ py_str w latest_version ++ "_archive"
                  ++ (if String.eqb current_os "Windows" then ".zip" else ".tar.xz") in
  download_step w download_url filename ;;
  (* 4. Extract *)
  print_step "📦" ("Extracting to " ++ install_path ++ "...") ;;
  clean_old_install w current_os install_path ;;
  extraction_step w current_os install_path filename ;;
  (* 5. PATH Handling *)
  path_handling w current_os install_path.

(** [install_flutter()] *)
Definition install_flutter (w : World) : M unit unit :=
  let current_os := get_os w in
  banner ;;
  match dict_get (PATHS w) current_os with
  | None =>
      print_error ("Unsupported OS: " ++ current_os) ;;
      return_ tt
  | Some install_path =>
      print ("Detected System: " ++ Colors.BOLD ++ current_os ++ Colors.RESET) ;;
      (* 1. Fetch Metadata *)
      print_step "🔍" "Checking for latest stable release..." ;;
      resolved <- try_except (fetch_metadata w current_os)
        [ (any_exception, fun e =>
             print_error ("Failed to fetch metadata: " ++ str_exn e) ;;
             return_ tt) ] ;;
      let (download_url, latest_version) := resolved in
      (* 2. Check Installed Version *)
      installed_version <- get_installed_version w ;;
      (if present installed_version then
         let v := text_of installed_version in
         print ("   Local Version:         " ++ Colors.BOLD ++ v ++ Colors.RESET) ;;
         if version_eq v latest_version then
           print (Text.LF ++ Colors.GREEN
                  ++ "Great news! You are already on the latest version."
                  ++ Colors.RESET) ;;
           print "Skipping installation to save time." ;;
           return_ tt
         else
           print_warning ("Version mismatch. Upgrading " ++ v ++ " -> "
                          ++ py_str w latest_version ++ "...")
       else
         print_warning "Flutter not found in PATH. Proceeding with fresh install...") ;;
      install_steps w current_os install_path download_url latest_version
  end.

(** ** Vocabulary of the properties *)

(** No call of the trace has the given kind. *)
Definition never (p : event -> bool) (t : list event) : Prop :=
  Forall (fun e => p e = false) t.

(** The steps that destroy or replace files: everything that changes the
    file system except writing the downloaded archive. *)
Definition destructive (e : event) : bool :=
  fs_mutation e && negb (download e).

(** The line [print_error(text)] prints. *)
Definition error_line (text : string) : string :=
  Colors.BOLD ++ Colors.RED ++ "✖ " ++ text ++ Colors.RESET.

Definition warning_line (text : string) : string :=
  Colors.YELLOW ++ "⚠ " ++ text ++ Colors.RESET.

Definition success_line (text : string) : string :=
  Colors.BOLD ++ Colors.GREEN ++ "✓ " ++ text ++ Colors.RESET.

Definition step_line (emoji text : string) : string :=
  Text.LF ++ Colors.BOLD ++ Colors.CYAN ++ emoji ++ "  " ++ text ++ Colors.RESET.

Definition banner_lines : list event :=
  [ EPrint (Colors.HEADER ++ "========================================" ++ Colors.RESET);
    EPrint (Colors.HEADER ++ "    FLUTTER ENVIRONMENT SETUP           " ++ Colors.RESET);
    EPrint (Colors.HEADER ++ "========================================" ++ Colors.RESET) ].

(** A world whose system is none of the three supported ones. *)
Definition bare_world (system : string) : World := {|
  platform_system := system;
  os_name := "posix";
  expanduser := fun p => p;
  str_value := fun _ => "";
  metadata := fun _ => FetchFails (Exn URLError "unreachable");
  flutter_version := SpawnFails (Exn FileNotFoundError "flutter");
  transfer := fun _ _ => StartFails (Exn URLError "unreachable");
  install_dir := None;
  use_fd_functions := true;
  traversal := fun _ => Listed;
  parent_exists := true;
  makedirs_reply := None;
  archive := Members [];
  archive_exists := false;
  remove_reply := None;
  environ_PATH := None
|}.

(** The ways the local version probe can fail to find a version. *)
Inductive probe_failure (w : World) : Prop :=
| executable_not_found (e : exn) :
    flutter_version w = SpawnFails e -> is_FileNotFoundError e = true ->
    probe_failure w
| nonzero_exit (returncode : Z) (stdout : string) :
    flutter_version w = Exited returncode stdout -> returncode <> 0%Z ->
    probe_failure w
| output_without_version (stdout : string) :
    flutter_version w = Exited 0 stdout -> ~ matches_pattern stdout ->
    probe_failure w
| unexpected_exception (e : exn) :
    flutter_version w = SpawnFails e -> probe_failure w.

(** The call of the probe, as it shows in a trace. *)
Definition probe_call (w : World) : event :=
  ERun ["flutter"; "--version"] (String.eqb (os_name w) "nt").

(** The trace of a run up to the decision gate, given the trace [tf] of
    the release resolver. *)
Definition preamble (w : World) (tf : list event) : list event :=
  (banner_lines
   ++ [ EPrint ("Detected System: " ++ Colors.BOLD ++ get_os w ++ Colors.RESET);
        EPrint (step_line "🔍" "Checking for latest stable release...") ]
   ++ tf ++ [ probe_call w ])%list.

Definition archive_name (w : World) (latest_version : json) : string :=
  "flutter_" ++ py_str w latest_version ++ "_archive"
  ++ (if String.eqb (get_os w) "Windows" then ".zip" else ".tar.xz").

Definition fresh_install_line : string :=
  warning_line "Flutter not found in PATH. Proceeding with fresh install...".

Definition already_latest_lines : list event :=
  [ EPrint (Text.LF ++ Colors.GREEN
            ++ "Great news! You are already on the latest version."
            ++ Colors.RESET);
    EPrint "Skipping installation to save time." ].

(** What follows a maximal run of a character class does not start in
    the class. *)
Definition stops (p : ascii -> bool) (s : string) : Prop :=
  match s with
  | EmptyString => True
  | String c _ => p c = false
  end.

(** ** Reading the metadata document *)

(** The value under [key] of a JSON object. *)
Definition field (v : json) (key : string) : option json :=
  match v with
  | JDict d => dict_get d key
  | _ => None
  end.

(** The release [item] carries the hash [h]. *)
Definition hash_is (h item : json) : Prop :=
  exists x, field item "hash" = Some x /\ py_eq x h = true.

(** The release [item] carries a hash, and it is not [h]. *)
Definition other_hash (h item : json) : Prop :=
  exists x, field item "hash" = Some x /\ py_eq x h = false.

(** The release [item] carries the text [h] as its hash. *)
Definition has_hash (h : string) (item : json) : Prop :=
  field item "hash" = Some (JStr h).

(** The release [item] carries a hash that is not the text [h]. *)
Definition has_other_hash (h : string) (item : json) : Prop :=
  exists x, field item "hash" = Some x /\ x <> JStr h.

(** [current_release.stable] of the document. *)
Definition stable_hash (data : json) : option json :=
  match field data "current_release" with
  | Some current_release => field current_release "stable"
  | None => None
  end.

(** The [releases] list of the document. *)
Definition releases (data : json) : option (list json) :=
  match field data "releases" with
  | Some (JList items) => Some items
  | _ => None
  end.

(** The three failures of the release resolver the specification names. *)
Inductive unresolvable (w : World) (url : string) : Prop :=
| network_failure (e : exn) :
    metadata w url = FetchFails e -> unresolvable w url
| malformed_json (e : exn) :
    metadata w url = Malformed e -> unresolvable w url
| no_matching_release (data h : json) (items : list json) :
    metadata w url = Document data ->
    stable_hash data = Some h ->
    releases data = Some items ->
    (forall item, In item items -> ~ hash_is h item) ->
    unresolvable w url.

(** What a successful resolution returns, read off the document: the
    first release of the list that carries the stable hash, its archive
    path turned into the download URL, and its version. *)
Definition resolves_to (w : World) (data : json) (download_url : string)
    (latest_version : json) : Prop :=
  exists stable items before release after archive_path,
    stable_hash data = Some stable
    /\ releases data = Some items
    /\ items = (before ++ release :: after)%list
    /\ hash_is stable release
    /\ (forall item, In item before -> other_hash stable item)
    /\ field release "archive" = Some archive_path
    /\ field release "version" = Some latest_version
    /\ download_url = BASE_URL ++ "/" ++ py_str w archive_path.

Definition latest_version_line (w : World) (latest_version : json) : string :=
  success_line ("Latest Stable Version: " ++ Colors.BOLD
                ++ py_str w latest_version ++ Colors.RESET).

(** ** Sample worlds *)

(** A metadata document with stable hash "abc123" and one release with
    that hash, version "3.38.5"; with the archive path
    "stable/sdk_3.38.5.tar.xz" it is the document of the specification's
    scenarios. *)
Definition release_document (archive_path : string) : json :=
  JDict [ ("current_release", JDict [ ("stable", JStr "abc123") ]);
          ("releases",
           JList [ JDict [ ("hash", JStr "abc123");
                           ("version", JStr "3.38.5");
                           ("archive", JStr archive_path) ] ]) ].

Definition scenario_document : json :=
  release_document "stable/sdk_3.38.5.tar.xz".

Definition WINDOWS_ARCHIVE : string :=
  "stable/windows/flutter_windows_3.38.5-stable.zip".

Definition deleted_at_once : attempt := Attempt None true None None.

(** A Linux host on which everything succeeds; [reply] is what running
    [flutter --version] gives and [old] the installation directory. *)
Definition linux_world (reply : process_reply)
    (old : option (list tree * attempt)) : World := {|
  platform_system := "Linux";
  os_name := "posix";
  expanduser := fun _ => "/home/dev/development/flutter";
  str_value := fun _ => "";
  metadata := fun _ => Document scenario_document;
  flutter_version := reply;
  transfer := fun _ _ => Stream 20000 [8192; 8192; 3616]%Z None;
  install_dir := old;
  use_fd_functions := true;
  traversal := fun _ => Listed;
  parent_exists := true;
  makedirs_reply := None;
  archive := Members [ Member "flutter/" None; Member "flutter/bin/flutter" None ];
  archive_exists := true;
  remove_reply := None;
  environ_PATH := Some "/usr/bin:/bin"
|}.

(** A Windows host on which everything succeeds. *)
Definition windows_world (reply : process_reply)
    (old : option (list tree * attempt)) : World := {|
  platform_system := "Windows";
  os_name := "nt";
  expanduser := fun _ => "C:\Users\dev/development/flutter";
  str_value := fun _ => "";
  metadata := fun _ => Document (release_document WINDOWS_ARCHIVE);
  flutter_version := reply;
  transfer := fun _ _ => Stream 20000 [8192; 8192; 3616]%Z None;
  install_dir := old;
  use_fd_functions := false;
  traversal := fun _ => Listed;
  parent_exists := true;
  makedirs_reply := None;
  archive := Members [ Member "flutter/" None;
                       Member "flutter/bin/flutter.bat" None ];
  archive_exists := true;
  remove_reply := None;
  environ_PATH := Some "C:\Windows\system32;C:\Windows"
|}.


Definition up_to_date_world : World :=
  linux_world (Exited 0 "Flutter 3.38.5 • channel stable") None.

(** The trace of [m] begins with the calls [t]. *)
Definition starts_with {R A : Type} (t : list event) (m : M R A) : Prop :=
  exists rest, trace m = (t ++ rest)%list.

Definition downloading_line : string :=
  step_line "⬇️" "Downloading Flutter SDK...".

Definition fresh_world : World :=
  linux_world (SpawnFails (Exn FileNotFoundError "flutter")) None.

(** The two writes of [draw_progress_bar]. *)
Definition bar_output (e : event) : bool :=
  match e with
  | EProgress _ | EWrite _ => true
  | _ => false
  end.

Definition other_than (q : event -> bool) (e : event) : bool := negb (q e).

(** The transfer ends in an exception, whatever its cause: the request,
    the local file, the stream, a short body, or the progress hook. *)
Definition download_fails (reply : download_reply) : Prop :=
  exists e, result (retrieve (R := unit) reply download_reporthook) = Raised e.

Definition download_error_line (e : exn) : string :=
  error_line ("Download failed: " ++ str_exn e).

(** A host whose installation exists and whose download cannot start. *)
Definition offline_world : World := {|
  platform_system := "Linux";
  os_name := "posix";
  expanduser := fun _ => "/home/dev/development/flutter";
  str_value := fun _ => "";
  metadata := fun _ => Document scenario_document;
  flutter_version := Exited 0 "Flutter 3.30.0 • channel stable";
  transfer := fun _ _ => StartFails (Exn URLError "connection reset");
  install_dir := Some ([ File "version" deleted_at_once ], deleted_at_once);
  use_fd_functions := true;
  traversal := fun _ => Listed;
  parent_exists := true;
  makedirs_reply := None;
  archive := Members [];
  archive_exists := false;
  remove_reply := None;
  environ_PATH := None
|}.

(** The calls made before the installation steps: printing, the metadata
    request and the version probe. *)
Definition early_call (e : event) : bool :=
  match e with
  | EPrint _ | EUrlopen _ | ERun _ _ => true
  | _ => false
  end.

(** ** PATH guidance *)

(** [os.environ.get('PATH', '')] *)
Definition user_path (w : World) : string :=
  match environ_PATH w with
  | Some p => p
  | None => ""
  end.











(** The line to add to the shell profile. *)
Definition export_line (bin_path : string) : string :=
  "Add this to your .zshrc/.bashrc: export PATH=" ++ Text.DQUOTE
  ++ "$PATH:" ++ bin_path ++ Text.DQUOTE.

(** ** Removal of the old installation *)

(** One path [rmtree] has to delete, with the answers of the world. *)
Record target : Type := Target {
  target_path : string;
  target_is_dir : bool;
  target_attempt : attempt
}.

(** The paths below [parent], in the order [rmtree] deletes them: the
    content of a directory before the directory itself. *)
Fixpoint targets_of (join : string -> string -> string) (parent : string)
    (t : tree) {struct t} : list target :=
  match t with
  | File name a => [Target (join parent name) false a]
  | Dir name children a =>
      let fullname := join parent name in
      ((fix each (ts : list tree) : list target :=
          match ts with
          | [] => []
          | t' :: ts' => targets_of join fullname t' ++ each ts'
          end) children ++ [Target fullname true a])%list
  end.

Fixpoint targets_of_all (join : string -> string -> string) (parent : string)
    (ts : list tree) : list target :=
  match ts with
  | [] => []
  | t :: ts' => (targets_of join parent t ++ targets_of_all join parent ts')%list
  end.

Definition targets (join : string -> string -> string) (path : string)
    (content : list tree * attempt) : list target :=
  (targets_of_all join path (fst content) ++ [Target path true (snd content)])%list.

(** The deletion call for a target: [os.rmdir] or [os.unlink]. *)
Definition delete_call {R : Type} (x : target) (reply : option os_error)
    (path : string) : M R unit :=
  if target_is_dir x then os_rmdir reply path else os_unlink reply path.

(** What [rmtree] does for one target. *)
Definition delete_target {R : Type}
    (onerror : attempt -> (string -> M R unit) -> string -> exn -> M R unit)
    (x : target) : M R unit :=
  let a := target_attempt x in
  try_except (delete_call x (first_try a) (target_path x))
    [ (is_OSError, onerror a (delete_call x (second_try a)) (target_path x)) ].

Fixpoint delete_all {R : Type}
    (onerror : attempt -> (string -> M R unit) -> string -> exn -> M R unit)
    (xs : list target) : M R unit :=
  match xs with
  | [] => ret tt
  | x :: xs' => delete_target onerror x ;; delete_all onerror xs'
  end.

(** The call that deleted the target. *)
Definition removed (x : target) : event :=
  if target_is_dir x then ERmdir (target_path x) true
  else EUnlink (target_path x) true.

(** The deletion is refused only because the path is read-only: clearing
    the attribute succeeds and the second attempt goes through. *)
Definition read_only (a : attempt) : Prop :=
  first_try a <> None /\ writable a = false
  /\ chmod_reply a = None /\ second_try a = None.

(** Every path of the directory is deleted at once or is read-only. *)
Definition only_read_only_obstacles (xs : list target) : Prop :=
  Forall (fun x => first_try (target_attempt x) = None
                   \/ read_only (target_attempt x)) xs.

(** A deletion error on a path that is not read-only. *)
Definition other_deletion_error (a : attempt) : Prop :=
  first_try a <> None /\ writable a = true.

(** A deletion attempt on the target, as it shows in a trace. *)
Definition attempted (x : target) (ok : bool) : event :=
  if target_is_dir x then ERmdir (target_path x) ok
  else EUnlink (target_path x) ok.

(** The error the deletion of one path ends with, if any: the first
    error when the path is writable (the handler re-raises it), otherwise
    the error of [os.chmod] or of the second attempt. *)
Definition handler_error (a : attempt) : option os_error :=
  match first_try a with
  | None => None
  | Some e =>
      if writable a then Some e
      else match chmod_reply a with
           | Some c => Some c
           | None => second_try a
           end
  end.


(** One step of the removal: the deletion of a path, or a directory that
    is not entered. *)
Inductive step : Type :=
| Remove (x : target)
| Skip (path : string) (l : listing).

(** The steps of [rmtree] below [parent], in order: a directory that is
    entered gives the steps of its entries and its own deletion; one that
    is not gives the refusal alone, followed by the attempt to delete it
    when it is the listing that failed. *)
Fixpoint plan_of (join : string -> string -> string) (enter : string -> listing)
    (parent : string) (t : tree) {struct t} : list step :=
  match t with
  | File name a => [Remove (Target (join parent name) false a)]
  | Dir name children a =>
      let fullname := join parent name in
      match enter fullname with
      | Listed =>
          ((fix each (ts : list tree) : list step :=
              match ts with
              | [] => []
              | t' :: ts' => plan_of join enter fullname t' ++ each ts'
              end) children ++ [Remove (Target fullname true a)])%list
      | Failing Scandir e h =>
          [Skip fullname (Failing Scandir e h); Remove (Target fullname true a)]
      | l => [Skip fullname l]
      end
  end.

Fixpoint plan_of_all (join : string -> string -> string)
    (enter : string -> listing) (parent : string) (ts : list tree) : list step :=
  match ts with
  | [] => []
  | t :: ts' =>
      (plan_of join enter parent t ++ plan_of_all join enter parent ts')%list
  end.

Definition plan (join : string -> string -> string) (enter : string -> listing)
    (path : string) (content : list tree * attempt) : list step :=
  match enter path with
  | Listed =>
      (plan_of_all join enter path (fst content)
       ++ [Remove (Target path true (snd content))])%list
  | Failing Scandir e h =>
      [Skip path (Failing Scandir e h); Remove (Target path true (snd content))]
  | l => [Skip path l]
  end.

(** What [rmtree] does for one step, and for a sequence of steps. *)
Definition run_step {R : Type}
    (onerror : attempt -> (string -> M R unit) -> string -> exn -> M R unit)
    (s : step) : M R unit :=
  match s with
  | Remove x => delete_target onerror x
  | Skip path l => not_entered onerror path l
  end.

Fixpoint run_plan {R : Type}
    (onerror : attempt -> (string -> M R unit) -> string -> exn -> M R unit)
    (p : list step) : M R unit :=
  match p with
  | [] => ret tt
  | s :: p' => run_step onerror s ;; run_plan onerror p'
  end.

(** The directories of the tree, the installation directory first. *)
Fixpoint directories_of (join : string -> string -> string) (parent : string)
    (t : tree) {struct t} : list string :=
  match t with
  | File _ _ => []
  | Dir name children _ =>
      let fullname := join parent name in
      fullname
      :: (fix each (ts : list tree) : list string :=
            match ts with
            | [] => []
            | t' :: ts' => (directories_of join fullname t' ++ each ts')%list
            end) children
  end.

Fixpoint directories_of_all (join : string -> string -> string)
    (parent : string) (ts : list tree) : list string :=
  match ts with
  | [] => []
  | t :: ts' =>
      (directories_of join parent t ++ directories_of_all join parent ts')%list
  end.

Definition directories (join : string -> string -> string) (path : string)
    (content : list tree * attempt) : list string :=
  path :: directories_of_all join path (fst content).

(** Every directory of the tree can be entered. *)
Definition unhindered (join : string -> string -> string)
    (enter : string -> listing) (path : string)
    (content : list tree * attempt) : Prop :=
  Forall (fun d => enter d = Listed) (directories join path content).

(** The calls of the handler on a path: the test, and [os.chmod] when the
    path is not writable. *)
Definition handler_calls (path : string) (able : bool) : list event :=
  EAccess path :: (if able then [] else [EChmod path S_IWRITE]).

(** The calls of one step, written out. *)
Definition step_events (s : step) : list event :=
  match s with
  | Remove x =>
      let a := target_attempt x in
      match first_try a with
      | None => [removed x]
      | Some _ =>
          (attempted x false
           :: handler_calls (target_path x) (writable a)
           ++ (if writable a then []
               else match chmod_reply a with
                    | Some _ => []
                    | None => [attempted x (negb (failed (second_try a)))]
                    end))%list
      end
  | Skip path Listed => []
  | Skip path (Symlink h) => handler_calls path (can_write h)
  | Skip path (Failing _ _ h) => handler_calls path (can_write h)
  end.

(** The error one step ends with, if any.  For a directory that is not
    entered: on a writable path the handler re-raises the error of the
    traversal; otherwise the error of [os.chmod], or of the call the
    handler makes again, which for [os.open] is always the [TypeError] of
    its missing argument and for [os.path.islink] never one. *)
Definition step_error (s : step) : option exn :=
  match s with
  | Remove x => option_map exn_of_os (handler_error (target_attempt x))
  | Skip path Listed => None
  | Skip path (Symlink h) =>
      if can_write h then Some SYMLINK_REFUSED
      else option_map exn_of_os (chmod_answer h)
  | Skip path (Failing call e h) =>
      if can_write h then Some (exn_of_os e)
      else match chmod_answer h with
           | Some c => Some (exn_of_os c)
           | None =>
               match call with
               | Open => Some MISSING_FLAGS
               | Lstat | Scandir => option_map exn_of_os (retry h)
               end
           end
  end.

Definition passes (s : step) : Prop := step_error s = None.

(** The calls of a sequence of steps, up to the first one that ends with
    an error, and that error. *)
Fixpoint plan_events (p : list step) : list event :=
  match p with
  | [] => []
  | s :: p' =>
      (step_events s
       ++ match step_error s with
          | None => plan_events p'
          | Some _ => []
          end)%list
  end.

Fixpoint plan_error (p : list step) : option exn :=
  match p with
  | [] => None
  | s :: p' =>
      match step_error s with
      | None => plan_error p'
      | Some e => Some e
      end
  end.

(** How a block is left that ends with the given error, if any. *)
Definition leaves (o : option exn) : outcome unit unit :=
  match o with
  | None => Normal tt
  | Some e => Raised e
  end.

Definition removal (w : World) (install_path : string)
    (content : list tree * attempt) : M unit unit :=
  rmtree on_rm_error (path_join (get_os w)) (entering w) install_path content.

(** The steps of the removal of the installation directory. *)
Definition removal_plan (w : World) (install_path : string)
    (content : list tree * attempt) : list step :=
  plan (path_join (get_os w)) (entering w) install_path content.

Definition removal_error_lines (e : exn) : list event :=
  [ EPrint (error_line ("Could not remove old directory: " ++ str_exn e));
    EPrint "Check if any Flutter files are open or locked." ].

Definition removing_line : event :=
  EPrint (warning_line "Removing old installation directory...").

(** What the handler adds for a read-only target: one check, one
    [chmod], one second attempt. *)
Definition read_only_deletion (x : target) : list event :=
  [ attempted x false;
    EAccess (target_path x);
    EChmod (target_path x) S_IWRITE;
    attempted x true ].

Definition refused : attempt :=
  Attempt (Some (OsError EACCES "Permission denied")) false None None.

(** An old installation with a read-only file in its [.git] directory. *)
Definition old_install : list tree * attempt :=
  ([ File "version" deleted_at_once;
     Dir ".git" [ File "packed-refs" refused ] deleted_at_once ],
   deleted_at_once).

Definition upgrade_world : World :=
  linux_world (Exited 0 "Flutter 3.30.0 • channel stable") (Some old_install).



(** ** The downloaded archive *)

Definition removes_archive (e : event) : bool :=
  match e with
  | ERemove _ => true
  | _ => false
  end.

(** A file another process keeps open: Windows refuses its deletion
    although the file is not read-only. *)
Definition in_use : attempt :=
  Attempt
    (Some (OsError EACCES
             "[WinError 32] The process cannot access the file because it is being used by another process"))
    true None None.

(** An upgrade on Windows whose old installation holds a file in use. *)
Definition locked_world : World :=
  windows_world (Exited 0 "Flutter 3.30.0 • channel stable")
    (Some ([ Dir "bin" [ File "dart.exe" in_use ] deleted_at_once ],
           deleted_at_once)).

Definition extracting_line (install_path : string) : event :=
  EPrint (step_line "📦" ("Extracting to " ++ install_path ++ "...")).

Definition download_finished_line : event :=
  EPrint (success_line "Download finished.").

(** ** Progress reports *)

(** The percentages a trace reports, in order. *)
Fixpoint percents (t : list event) : list Q :=
  match t with
  | [] => []
  | EProgress p :: t' => bar_percent p :: percents t'
  | _ :: t' => percents t'
  end.

(** Each report is at most every later one. *)
Definition nondecreasing (l : list Q) : Prop := StronglySorted Qle l.

(** The last percentage reported, if any was. *)
Definition final_percent (t : list event) : option Q :=
  List.last (map Some (percents t)) None.

Definition reaches_100 (t : list event) : Prop :=
  exists q, final_percent t = Some q /\ (q == 100)%Q.

(** [fp.read(bs)] returns at most [bs] bytes. *)
Definition whole_blocks (reply : download_reply) : Prop :=
  match reply with
  | StartFails _ => True
  | Stream _ blocks _ => Forall (fun b => (b <= BLOCK_SIZE)%Z) blocks
  end.

(** The percentage the hook reports at block [k] of a transfer of
    declared size [size]. *)
Definition hook_percent (size k : Z) : Q :=
  if (k * BLOCK_SIZE <? size)%Z
  then (100 * (inject_Z (k * BLOCK_SIZE) / inject_Z size))%Q
  else (100 * (inject_Z size / inject_Z size))%Q.

(** A size [draw_progress_bar] can divide by. *)
Definition usable_size (size : Z) : bool :=
  negb (float_overflows size) && negb (size =? 0)%Z.

(** The block numbers the hook is called with after the first call. *)
Fixpoint block_numbers (blocknum : Z) (blocks : list Z) : list Z :=
  match blocks with
  | [] => []
  | _ :: rest => (blocknum + 1)%Z :: block_numbers (blocknum + 1)%Z rest
  end.

Definition total_length (blocks : list Z) : Z := fold_right Z.add 0%Z blocks.

(** A fresh installation on Windows from an archive without entries (an
    empty ZIP file is 22 bytes long). *)
Definition empty_archive_world : World := {|
  platform_system := "Windows";
  os_name := "nt";
  expanduser := fun p => p;
  str_value := fun _ => "";
  metadata := fun _ => Document (release_document WINDOWS_ARCHIVE);
  flutter_version := Exited 1 "";
  transfer := fun _ _ => Stream 22 [22]%Z None;
  install_dir := None;
  use_fd_functions := false;
  traversal := fun _ => Listed;
  parent_exists := true;
  makedirs_reply := None;
  archive := Members [];
  archive_exists := true;
  remove_reply := None;
  environ_PATH := Some "C:\Windows\system32;C:\Windows"
|}.

(** Every bar of the trace is a bar of the download. *)
Definition only_download_bars (t : list event) : Prop :=
  Forall (fun e => match e with
                   | EProgress p => bar_prefix p = "Downloading:"
                   | _ => True
                   end) t.

Definition extraction_complete_line : event :=
  EPrint (success_line "Extraction complete.").

(** ** Vocabulary of the further properties *)

(** The text [tail] after [before] holds no match of the pattern that
    starts inside [before]: the match at the end of [before] is the
    leftmost one. *)
Definition leftmost (before tail : string) : Prop :=
  forall b1 b2, before = b1 ++ b2 -> b2 <> "" -> match_here (b2 ++ tail) = None.

(** The version [v] is the first three-part number of [stdout] that
    follows the word "Flutter" and some white space. *)
Definition reported_version (stdout v : string) : Prop :=
  exists before ws rest,
    stdout = before ++ "Flutter" ++ ws ++ v ++ rest
    /\ ws <> "" /\ Text.all is_space ws = true
    /\ version_token v
    /\ stops is_digit rest
    /\ leftmost before ("Flutter" ++ ws ++ v ++ rest).

(** A download whose response declares its length as zero. *)
Definition zero_length_world : World := {|
  platform_system := "Linux";
  os_name := "posix";
  expanduser := fun _ => "/home/dev/development/flutter";
  str_value := fun _ => "";
  metadata := fun _ => Document scenario_document;
  flutter_version := SpawnFails (Exn FileNotFoundError "flutter");
  transfer := fun _ _ => Stream 0 [] None;
  install_dir := Some old_install;
  use_fd_functions := true;
  traversal := fun _ => Listed;
  parent_exists := true;
  makedirs_reply := None;
  archive := Members [ Member "flutter/" None ];
  archive_exists := true;
  remove_reply := None;
  environ_PATH := None
|}.

(** The calls each step of the installation can make. *)
Definition download_call (e : event) : bool :=
  match e with
  | EPrint _ | EProgress _ | EWrite _ | EUrlretrieve _ _ => true
  | _ => false
  end.

Definition removal_call (e : event) : bool :=
  match e with
  | EPrint _ | EExists _ | EUnlink _ _ | ERmdir _ _ | EAccess _ | EChmod _ _ => true
  | _ => false
  end.

Definition extraction_call (e : event) : bool :=
  match e with
  | EPrint _ | EProgress _ | EWrite _ | EExists _ | EMakedirs _
  | EOpenArchive _ _ | EExtract _ _ | ERemove _ => true
  | _ => false
  end.

Definition advice_call (e : event) : bool :=
  match e with
  | EPrint _ | EGetenv _ => true
  | _ => false
  end.

Definition metadata_request (e : event) : bool :=
  match e with
  | EUrlopen _ => true
  | _ => false
  end.

Definition probe_run (e : event) : bool :=
  match e with
  | ERun _ _ => true
  | _ => false
  end.

Definition makes_directories (e : event) : bool :=
  match e with
  | EMakedirs _ => true
  | _ => false
  end.

Definition opens_archive (e : event) : bool :=
  match e with
  | EOpenArchive _ _ => true
  | _ => false
  end.

(** The number of calls of a kind in a trace. *)
Definition count (p : event -> bool) (t : list event) : nat :=
  List.length (filter p t).

(** The archive members a trace extracts, in order. *)
Fixpoint extracted (t : list event) : list string :=
  match t with
  | [] => []
  | EExtract name _ :: t' => name :: extracted t'
  | _ :: t' => extracted t'
  end.

(** The format the extraction opens the archive with. *)
Definition archive_format (filename : string) : archive_kind :=
  if Text.endswith ".zip" filename then Zip else TarXz.

(** The calls around the extraction: the check (and creation) of the
    parent directory before it, the [finally] clause after it. *)
Definition parent_calls (w : World) (parent_dir : string) : list event :=
  EExists parent_dir :: (if parent_exists w then [] else [EMakedirs parent_dir]).

Definition cleanup_calls (w : World) (filename : string) : list event :=
  EExists filename :: (if archive_exists w then [ERemove filename] else []).

Definition extraction_report (o : outcome unit unit) : event :=
  match o with
  | Raised e => EPrint (error_line ("Extraction failed: " ++ str_exn e))
  | _ => EPrint (success_line "Extraction complete.")
  end.

(** An archive whose second member cannot be written. *)
Definition corrupt_archive_world : World := {|
  platform_system := "Linux";
  os_name := "posix";
  expanduser := fun _ => "/home/dev/development/flutter";
  str_value := fun _ => "";
  metadata := fun _ => Document scenario_document;
  flutter_version := SpawnFails (Exn FileNotFoundError "flutter");
  transfer := fun _ _ => Stream 20000 [8192; 8192; 3616]%Z None;
  install_dir := None;
  use_fd_functions := true;
  traversal := fun _ => Listed;
  parent_exists := true;
  makedirs_reply := None;
  archive := Members [ Member "flutter/" None;
                       Member "flutter/bin/flutter"
                         (Some (Exn OSError "[Errno 28] No space left on device"));
                       Member "flutter/version" None ];
  archive_exists := true;
  remove_reply := Some (OsError EACCES "Permission denied");
  environ_PATH := None
|}.

(** A first installation under a home directory in which the parent of
    the installation directory cannot be created. *)
Definition no_parent_world : World := {|
  platform_system := "Linux";
  os_name := "posix";
  expanduser := fun _ => "/home/dev/development/flutter";
  str_value := fun _ => "";
  metadata := fun _ => Document scenario_document;
  flutter_version := SpawnFails (Exn FileNotFoundError "flutter");
  transfer := fun _ _ => Stream 20000 [8192; 8192; 3616]%Z None;
  install_dir := None;
  use_fd_functions := true;
  traversal := fun _ => Listed;
  parent_exists := false;
  makedirs_reply := Some (OsError EACCES "[Errno 13] Permission denied: '/home/dev/development'");
  archive := Members [ Member "flutter/" None ];
  archive_exists := true;
  remove_reply := None;
  environ_PATH := None
|}.

(** An old installation in which one file is held open by a running
    process, after a file that can be deleted. *)
Definition busy_install : list tree * attempt :=
  ([ File "version" deleted_at_once;
     Dir "bin" [ File "dart" in_use; File "flutter" deleted_at_once ]
       deleted_at_once ],
   deleted_at_once).

Definition busy_world : World :=
  linux_world (Exited 0 "Flutter 3.30.0 • channel stable") (Some busy_install).

(** The calls of the extraction loop. *)
Definition member_call (e : event) : bool :=
  match e with
  | EExtract _ _ | EProgress _ | EWrite _ => true
  | _ => false
  end.

(** The probe found a version and it is, as a string, the latest one. *)
Definition up_to_date (w : World) (latest_version : json) : Prop :=
  exists v, result (get_installed_version (R := unit) w) = Normal (Some v)
            /\ latest_version = JStr v.

(** An installed version that is newer than the latest stable one. *)
Definition newer_world : World :=
  linux_world (Exited 0 "Flutter 3.40.0 • channel beta") (Some old_install).

(** The format of the archive on a system. *)
Definition system_format (w : World) : archive_kind :=
  if String.eqb (get_os w) "Windows" then Zip else TarXz.

(** A metadata document whose stable release has no [archive] entry. *)
Definition incomplete_document : json :=
  JDict [ ("current_release", JDict [ ("stable", JStr "abc123") ]);
          ("releases",
           JList [ JDict [ ("hash", JStr "000000");
                           ("version", JStr "3.30.0");
                           ("archive", JStr "stable/sdk_3.30.0.tar.xz") ];
                   JDict [ ("hash", JStr "abc123");
                           ("version", JStr "3.38.5") ] ]) ].

Definition incomplete_world : World := {|
  platform_system := "Linux";
  os_name := "posix";
  expanduser := fun _ => "/home/dev/development/flutter";
  str_value := fun _ => "";
  metadata := fun _ => Document incomplete_document;
  flutter_version := Exited 0 "Flutter 3.30.0 • channel stable";
  transfer := fun _ _ => Stream 20000 [8192; 8192; 3616]%Z None;
  install_dir := Some old_install;
  use_fd_functions := true;
  traversal := fun _ => Listed;
  parent_exists := true;
  makedirs_reply := None;
  archive := Members [ Member "flutter/" None ];
  archive_exists := true;
  remove_reply := None;
  environ_PATH := None
|}.

(** The first of the two entries the resolver reads that the release
    lacks. *)
Definition missing_entry (release : json) : option string :=
  match field release "archive", field release "version" with
  | None, _ => Some "archive"
  | Some _, None => Some "version"
  | Some _, Some _ => None
  end.

(** Calls of the read-only handler. *)
Definition handler_call (e : event) : bool :=
  match e with
  | EAccess _ | EChmod _ _ => true
  | _ => false
  end.

(** * Properties *)

#[local] Arguments String.eqb : simpl never.

(** Two traces that differ in the nesting of their concatenations. *)
Ltac same_trace := rewrite ?app_nil_r; rewrite <- ?app_assoc; reflexivity.

(** ** The model at work *)

Example re_search_finds_version :
  re_search "Flutter 3.38.5 • channel stable" = Some "3.38.5".
Proof. reflexivity. Qed.

Example re_search_is_leftmost :
  re_search "Flutter 3.38 and Flutter   1.2.3.4" = Some "1.2.3".
Proof. reflexivity. Qed.

Example re_search_needs_three_parts :
  re_search "Flutter 3.38" = None /\ re_search "flutter 3.38.5" = None.
Proof. split; reflexivity. Qed.

Example windows_paths :
  dict_get (PATHS (windows_world (Exited 1 "") None)) "Windows" = Some "C:\flutter"
  /\ dirname "Windows" "C:\flutter" = "C:" ++ Text.BACKSLASH
  /\ bin_path_of "Windows" "C:\flutter" = "C:\flutter\bin".
Proof. repeat split; reflexivity. Qed.

Example posix_paths :
  dirname "Linux" "/home/dev/development/flutter" = "/home/dev/development"
  /\ bin_path_of "Linux" "/home/dev/development/flutter"
     = "/home/dev/development/flutter/bin"
  /\ dirname "Darwin" "/flutter" = "/".
Proof. repeat split; reflexivity. Qed.

Example archive_names :
  archive_name (windows_world (Exited 1 "") None) (JStr "3.38.5")
  = "flutter_3.38.5_archive.zip"
  /\ archive_name fresh_world (JStr "3.38.5") = "flutter_3.38.5_archive.tar.xz"
  /\ Text.endswith ".zip" "flutter_3.38.5_archive.zip" = true
  /\ Text.endswith ".zip" "flutter_3.38.5_archive.tar.xz" = false.
Proof. repeat split; reflexivity. Qed.

Example py_eq_numbers :
  py_eq (JBool true) (JInt 1) = true
  /\ py_eq (JInt 2) (JFloat (FFinite (4 # 2))) = true
  /\ py_eq (JStr "1") (JInt 1) = false
  /\ py_eq (JFloat FNan) (JFloat FNan) = false
  /\ py_eq (JList [JFloat FNan]) (JList [JFloat FNan]) = true.
Proof. repeat split; reflexivity. Qed.

(** The upgrade scenario of the specification: the probe reports 3.30.0
    against a latest 3.38.5.  The run downloads the archive of the
    release, deletes every path of the old installation, extracts both
    members, removes the archive and ends with the PATH guidance. *)
Example upgrade_scenario :
  result (install_flutter upgrade_world) = Normal tt
  /\ In (EUrlretrieve (BASE_URL ++ "/stable/sdk_3.38.5.tar.xz")
           "flutter_3.38.5_archive.tar.xz")
        (trace (install_flutter upgrade_world))
  /\ In (EUnlink "/home/dev/development/flutter/.git/packed-refs" true)
        (trace (install_flutter upgrade_world))
  /\ In (ERmdir "/home/dev/development/flutter" true)
        (trace (install_flutter upgrade_world))
  /\ In (EExtract "flutter/bin/flutter" "/home/dev/development")
        (trace (install_flutter upgrade_world))
  /\ In (ERemove "flutter_3.38.5_archive.tar.xz")
        (trace (install_flutter upgrade_world))
  /\ In (EPrint (export_line "/home/dev/development/flutter/bin"))
        (trace (install_flutter upgrade_world)).
Proof. repeat split; vm_compute; tauto. Qed.

(** ** The control-flow monad *)

Lemma never_nil (p : event -> bool) : never p [].
Proof. constructor. Qed.

Lemma never_app (p : event -> bool) (t u : list event) :
  never p t -> never p u -> never p (t ++ u)%list.
Proof. unfold never. intros Ht Hu. apply Forall_app. split; assumption. Qed.

Lemma never_bind {R A B : Type} (p : event -> bool) (m : M R A) (k : A -> M R B) :
  never p (trace m) -> (forall a, never p (trace (k a))) ->
  never p (trace (bind m k)).
Proof.
  destruct m as [t [a | r | e]]; simpl; intros Hm Hk; try exact Hm.
  specialize (Hk a). destruct (k a) as [t' o]. simpl in *.
  apply never_app; assumption.
Qed.

Lemma never_emit {R : Type} (p : event -> bool) (e : event) :
  p e = false -> never p (trace (@emit R e)).
Proof. intro H. simpl. repeat constructor. exact H. Qed.

Lemma never_select {R A : Type} (p : event -> bool)
    (clauses : list (clause R A)) (e : exn) (m : M R A) :
  Forall (fun c => forall x, never p (trace (snd c x))) clauses ->
  select clauses e = Some m -> never p (trace m).
Proof.
  induction clauses as [| [handles handler] rest IH]; simpl; intros Hc Hs.
  - discriminate.
  - inversion Hc as [| c cs Hhd Htl]; subst.
    destruct (handles e).
    + injection Hs as <-. apply Hhd.
    + apply IH; assumption.
Qed.

Lemma never_try_except {R A : Type} (p : event -> bool) (body : M R A)
    (clauses : list (clause R A)) :
  never p (trace body) ->
  Forall (fun c => forall x, never p (trace (snd c x))) clauses ->
  never p (trace (try_except body clauses)).
Proof.
  destruct body as [t [a | r | e]]; simpl; intros Hb Hc; try exact Hb.
  destruct (select clauses e) as [[t' o] |] eqn:Hs; simpl; try exact Hb.
  apply never_app; [exact Hb |].
  exact (never_select p clauses e (t', o) Hc Hs).
Qed.

(** ** Unsupported systems *)

Lemma unsupported_not_in_PATHS (w : World) (current_os : string) :
  current_os <> "Windows" -> current_os <> "Darwin" -> current_os <> "Linux" ->
  dict_get (PATHS w) current_os = None.
Proof.
  intros HW HD HL. unfold PATHS. cbn [dict_get].
  destruct (String.eqb_spec "Windows" current_os) as [E | _]; [congruence |].
  destruct (String.eqb_spec "Darwin" current_os) as [E | _]; [congruence |].
  destruct (String.eqb_spec "Linux" current_os) as [E | _]; [congruence |].
  reflexivity.
Qed.

(** C8. On a host system other than Windows, Darwin and Linux the run
    prints the banner and the unsupported-OS error and returns at once:
    its trace holds these four lines only, so no network request and no
    file system access of any kind is made. *)
Theorem unsupported_os_halts (w : World) :
  platform_system w <> "Windows" ->
  platform_system w <> "Darwin" ->
  platform_system w <> "Linux" ->
  install_flutter w
    = ((banner_lines
        ++ [EPrint (error_line ("Unsupported OS: " ++ platform_system w))])%list,
       Returned tt)
  /\ never network (trace (install_flutter w))
  /\ never fs_access (trace (install_flutter w))
  /\ never fs_mutation (trace (install_flutter w)).
Proof.
  intros HW HD HL.
  assert (E : install_flutter w
    = ((banner_lines
        ++ [EPrint (error_line ("Unsupported OS: " ++ platform_system w))])%list,
       Returned tt)).
  { unfold install_flutter, get_os.
    rewrite (unsupported_not_in_PATHS w _ HW HD HL). reflexivity. }
  rewrite E. split; [reflexivity |].
  repeat split; simpl; repeat constructor.
Qed.

Lemma unsupported_os_halts_witness :
  platform_system (bare_world "FreeBSD") <> "Windows"
  /\ platform_system (bare_world "FreeBSD") <> "Darwin"
  /\ platform_system (bare_world "FreeBSD") <> "Linux"
  /\ install_flutter (bare_world "FreeBSD")
     = ((banner_lines ++ [EPrint (error_line "Unsupported OS: FreeBSD")])%list,
        Returned tt)
  /\ never network (trace (install_flutter (bare_world "FreeBSD")))
  /\ never fs_access (trace (install_flutter (bare_world "FreeBSD")))
  /\ never fs_mutation (trace (install_flutter (bare_world "FreeBSD"))).
Proof.
  assert (H1 : platform_system (bare_world "FreeBSD") <> "Windows") by discriminate.
  assert (H2 : platform_system (bare_world "FreeBSD") <> "Darwin") by discriminate.
  assert (H3 : platform_system (bare_world "FreeBSD") <> "Linux") by discriminate.
  split; [exact H1 |]. split; [exact H2 |]. split; [exact H3 |].
  exact (unsupported_os_halts (bare_world "FreeBSD") H1 H2 H3).
Defined.

(** ** Text *)

Lemma append_assoc (a b c : string) : (a ++ b) ++ c = a ++ b ++ c.
Proof. induction a as [| x a IH]; simpl; [reflexivity | now rewrite IH]. Qed.

Lemma strip_prefix_sound (p s r : string) :
  Text.strip_prefix p s = Some r -> s = p ++ r.
Proof.
  revert s. induction p as [| a p IH]; intros s H; simpl in *.
  - now injection H as ->.
  - destruct s as [| b s]; [discriminate |].
    destruct (Ascii.eqb_spec a b) as [-> | _]; [| discriminate].
    now rewrite (IH s H).
Qed.

Lemma strip_prefix_app (p r : string) : Text.strip_prefix p (p ++ r) = Some r.
Proof.
  induction p as [| a p IH]; simpl; [reflexivity |].
  now rewrite Ascii.eqb_refl.
Qed.

Lemma span_sound (p : ascii -> bool) (s a b : string) :
  Text.span p s = (a, b) -> s = a ++ b /\ Text.all p a = true /\ stops p b.
Proof.
  revert a b. induction s as [| c s IH]; intros a b H; simpl in H.
  - injection H as <- <-. repeat split.
  - destruct (p c) eqn:Hc.
    + destruct (Text.span p s) as [a' b'] eqn:Hs. injection H as <- <-.
      destruct (IH a' b' eq_refl) as (-> & Ha & Hb).
      simpl. rewrite Hc, Ha. repeat split. exact Hb.
    + injection H as <- <-. simpl. repeat split. exact Hc.
Qed.

Lemma span_app (p : ascii -> bool) (a b : string) :
  Text.all p a = true -> stops p b -> Text.span p (a ++ b) = (a, b).
Proof.
  induction a as [| c a IH]; simpl; intros Ha Hb.
  - destruct b as [| c b]; [reflexivity |]. simpl in *. now rewrite Hb.
  - apply andb_prop in Ha. destruct Ha as [Hc Ha].
    now rewrite Hc, (IH Ha Hb).
Qed.

Lemma plus_sound (p : ascii -> bool) (s run rest : string) :
  plus p s = Some (run, rest) ->
  s = run ++ rest /\ run <> "" /\ Text.all p run = true /\ stops p rest.
Proof.
  unfold plus. destruct (Text.span p s) as [a b] eqn:Hs.
  destruct a as [| c a]; [discriminate |]. intro H. injection H as <- <-.
  destruct (span_sound p s _ _ Hs) as (E & Ha & Hb).
  repeat split; try assumption. discriminate.
Qed.

Lemma plus_app (p : ascii -> bool) (run rest : string) :
  run <> "" -> Text.all p run = true -> stops p rest ->
  plus p (run ++ rest) = Some (run, rest).
Proof.
  intros Hne Ha Hb. unfold plus. rewrite (span_app p run rest Ha Hb).
  destruct run; [contradiction | reflexivity].
Qed.

(** A non-empty run at the start of [s] always lets [plus] succeed, also
    when more characters of the class follow it. *)
Lemma plus_at_least (p : ascii -> bool) (run rest : string) :
  run <> "" -> Text.all p run = true ->
  exists run' rest', plus p (run ++ rest) = Some (run', rest').
Proof.
  intros Hne Ha. destruct run as [| c run]; [contradiction |].
  simpl in Ha. apply andb_prop in Ha. destruct Ha as [Hc _].
  unfold plus. simpl. rewrite Hc.
  destruct (Text.span p (run ++ rest)) as [a b]. eauto.
Qed.

Lemma stops_digit_dot (s : string) : stops is_digit ("." ++ s).
Proof. reflexivity. Qed.

Lemma space_not_digit (c : ascii) : is_digit c = true -> is_space c = false.
Proof.
  unfold is_digit, is_space. intro H.
  apply andb_prop in H. destruct H as [H1 H2].
  apply Nat.leb_le in H1, H2.
  repeat rewrite orb_false_iff. repeat split.
  - apply andb_false_iff. right. apply Nat.leb_gt. lia.
  - apply andb_false_iff. right. apply Nat.leb_gt. lia.
  - apply Nat.eqb_neq. lia.
  - apply Nat.eqb_neq. lia.
Qed.

Lemma stops_space_digits (d s : string) :
  d <> "" -> Text.all is_digit d = true -> stops is_space (d ++ s).
Proof.
  destruct d as [| c d]; [contradiction |]. simpl. intros _ H.
  apply andb_prop in H. destruct H as [H _]. now apply space_not_digit.
Qed.

(** ** The version pattern *)

Lemma match_version_sound (s v : string) :
  match_version s = Some v -> version_token v /\ exists rest, s = v ++ rest.
Proof.
  unfold match_version.
  destruct (plus is_digit s) as [[major r1] |] eqn:H1; [| discriminate].
  destruct (Text.strip_prefix "." r1) as [r2 |] eqn:H2; [| discriminate].
  destruct (plus is_digit r2) as [[minor r3] |] eqn:H3; [| discriminate].
  destruct (Text.strip_prefix "." r3) as [r4 |] eqn:H4; [| discriminate].
  destruct (plus is_digit r4) as [[patch r5] |] eqn:H5; [| discriminate].
  intro H. injection H as <-.
  apply plus_sound in H1, H3, H5.
  apply strip_prefix_sound in H2, H4.
  destruct H1 as (E1 & N1 & A1 & _), H3 as (E3 & N3 & A3 & _),
           H5 as (E5 & N5 & A5 & _).
  split.
  - exists major, minor, patch. repeat split; assumption.
  - exists r5. subst s r1 r2 r3 r4.
    repeat (rewrite !append_assoc; simpl). reflexivity.
Qed.

Lemma match_version_complete (major minor patch rest : string) :
  major <> "" -> Text.all is_digit major = true ->
  minor <> "" -> Text.all is_digit minor = true ->
  patch <> "" -> Text.all is_digit patch = true ->
  exists v, match_version (major ++ "." ++ minor ++ "." ++ patch ++ rest) = Some v.
Proof.
  intros N1 A1 N2 A2 N3 A3. unfold match_version.
  rewrite (plus_app is_digit major _ N1 A1 (stops_digit_dot _)).
  rewrite strip_prefix_app.
  rewrite (plus_app is_digit minor _ N2 A2 (stops_digit_dot _)).
  rewrite strip_prefix_app.
  destruct (plus_at_least is_digit patch rest N3 A3) as (run & rest' & ->).
  eauto.
Qed.

Lemma match_here_sound (s v : string) :
  match_here s = Some v ->
  version_token v /\
  exists ws rest, s = "Flutter" ++ ws ++ v ++ rest
                  /\ ws <> "" /\ Text.all is_space ws = true.
Proof.
  unfold match_here.
  destruct (Text.strip_prefix "Flutter" s) as [r |] eqn:H1; [| discriminate].
  destruct (plus is_space r) as [[ws r'] |] eqn:H2; [| discriminate].
  intro H. apply match_version_sound in H. destruct H as (Hv & rest & ->).
  apply strip_prefix_sound in H1. apply plus_sound in H2.
  destruct H2 as (-> & N & A & _).
  split; [exact Hv |]. exists ws, rest. repeat split; assumption.
Qed.

Lemma match_here_complete (ws major minor patch rest : string) :
  ws <> "" -> Text.all is_space ws = true ->
  major <> "" -> Text.all is_digit major = true ->
  minor <> "" -> Text.all is_digit minor = true ->
  patch <> "" -> Text.all is_digit patch = true ->
  exists v,
    match_here ("Flutter" ++ ws ++ major ++ "." ++ minor ++ "." ++ patch ++ rest)
    = Some v.
Proof.
  intros N0 A0 N1 A1 N2 A2 N3 A3. unfold match_here.
  rewrite strip_prefix_app.
  rewrite (plus_app is_space ws _ N0 A0 (stops_space_digits major _ N1 A1)).
  now apply match_version_complete.
Qed.

Lemma re_search_sound (s v : string) :
  re_search s = Some v -> version_token v /\ matches_pattern s.
Proof.
  induction s as [| c s IH]; cbn [re_search].
  - simpl. discriminate.
  - destruct (match_here (String c s)) as [v' |] eqn:H.
    + intro E. injection E as ->. apply match_here_sound in H.
      destruct H as (Hv & ws & rest & E & N & A). split; [exact Hv |].
      destruct Hv as (major & minor & patch & -> & Hv).
      exists "", ws, major, minor, patch, rest. split.
      * rewrite E. simpl. repeat (rewrite !append_assoc; simpl). reflexivity.
      * tauto.
    + intro E. destruct (IH E) as (Hv & before & ws & major & minor & patch & rest & -> & Hp).
      split; [exact Hv |].
      exists (String c before), ws, major, minor, patch, rest.
      split; [reflexivity | exact Hp].
Qed.

Lemma re_search_here (s v : string) :
  match_here s = Some v -> re_search s = Some v.
Proof. intro H. destruct s; cbn [re_search]; now rewrite H. Qed.

Lemma re_search_complete (s : string) :
  matches_pattern s -> exists v, re_search s = Some v.
Proof.
  intros (before & ws & major & minor & patch & rest & -> & N0 & A0 & N1 & A1
          & N2 & A2 & N3 & A3).
  induction before as [| c before IH].
  - destruct (match_here_complete ws major minor patch rest N0 A0 N1 A1 N2 A2 N3 A3)
      as (v & Hv).
    exists v. now apply re_search_here.
  - destruct IH as (v & Hv).
    change (String c before ++ ?x) with (String c (before ++ x)).
    cbn [re_search].
    destruct (match_here (String c _)) as [v' |]; eauto.
Qed.

Lemma version_token_not_empty (v : string) : version_token v -> v <> "".
Proof.
  intros (major & minor & patch & -> & N & _).
  destruct major; [contradiction | discriminate].
Qed.

(** ** The local version probe *)

Lemma probe_shape (w : World) :
  exists r, @get_installed_version unit w = ([probe_call w], Normal r)
            /\ (forall v, r = Some v -> version_token v).
Proof.
  unfold get_installed_version, subprocess_run, probe_call.
  destruct (flutter_version w) as [e | returncode stdout]; cbn.
  - exists None. split; [| discriminate].
    destruct (is_FileNotFoundError e); [reflexivity |].
    destruct (is_CalledProcessError e); reflexivity.
  - destruct (returncode =? 0)%Z; cbn.
    + destruct (re_search stdout) as [v |] eqn:Hs; cbn.
      * exists (Some v). split; [reflexivity |].
        intros v' E. injection E as <-. now apply re_search_sound in Hs.
      * exists None. split; [reflexivity | discriminate].
    + exists None. split; [reflexivity | discriminate].
Qed.

Lemma probe_absent (w : World) :
  probe_failure w ->
  @get_installed_version unit w = ([probe_call w], Normal None).
Proof.
  intro H. unfold get_installed_version, subprocess_run, probe_call.
  destruct H as [e Hf _ | returncode stdout Hf Hc | stdout Hf Hm | e Hf];
    rewrite Hf; cbn.
  - destruct (is_FileNotFoundError e); [reflexivity |].
    destruct (is_CalledProcessError e); reflexivity.
  - destruct (Z.eqb_spec returncode 0) as [E | _]; [contradiction | reflexivity].
  - destruct (re_search stdout) as [v |] eqn:Hs; [| reflexivity].
    apply re_search_sound in Hs. destruct Hs as [_ Hs]. contradiction.
  - destruct (is_FileNotFoundError e); [reflexivity |].
    destruct (is_CalledProcessError e); reflexivity.
Qed.

(** ** The run up to the decision gate *)

Lemma version_eq_iff (v : string) (latest_version : json) :
  version_eq v latest_version = true <-> latest_version = JStr v.
Proof.
  unfold version_eq. split.
  - destruct latest_version; simpl; try discriminate.
    intro H. apply String.eqb_eq in H. now subst.
  - intros ->. simpl. apply String.eqb_refl.
Qed.

Lemma present_token (v : string) : version_token v -> present (Some v) = true.
Proof.
  intro H. apply version_token_not_empty in H.
  destruct v; [contradiction | reflexivity].
Qed.

Section Gate.

Variable w : World.
Variables (install_path download_url : string) (latest_version : json).
Variable tf : list event.
Hypothesis Hos : dict_get (PATHS w) (get_os w) = Some install_path.
Hypothesis Hfetch :
  fetch_metadata (R := unit) w (get_os w)
  = (tf, Normal (download_url, latest_version)).

Lemma run_already_latest (v : string) :
  @get_installed_version unit w = ([probe_call w], Normal (Some v)) ->
  version_token v -> latest_version = JStr v ->
  install_flutter w
  = ((preamble w tf
      ++ EPrint ("   Local Version:         " ++ Colors.BOLD ++ v ++ Colors.RESET)
      :: already_latest_lines)%list,
     Returned tt).
Proof.
  intros Hp Hv E. unfold install_flutter. rewrite Hos.
  unfold banner, print, print_step. cbn [bind emit].
  rewrite Hfetch. cbn [try_except bind]. rewrite Hp. cbn [bind].
  rewrite (present_token v Hv). cbn [text_of].
  rewrite (proj2 (version_eq_iff v latest_version) E).
  unfold preamble, banner_lines, step_line, already_latest_lines.
  cbn [bind emit text_of return_ app]. same_trace.
Qed.

Lemma run_fresh_install :
  @get_installed_version unit w = ([probe_call w], Normal None) ->
  install_flutter w
  = ((preamble w tf
      ++ EPrint fresh_install_line
      :: trace (install_steps w (get_os w) install_path download_url
                  latest_version))%list,
     result (install_steps w (get_os w) install_path download_url latest_version)).
Proof.
  intros Hp. unfold install_flutter. rewrite Hos.
  unfold banner, print, print_step, print_warning. cbn [bind emit].
  rewrite Hfetch. cbn [try_except bind]. rewrite Hp. cbn [bind present].
  destruct (install_steps _ _ _ _ _) as [ts os].
  unfold preamble, banner_lines, step_line, fresh_install_line, warning_line.
  cbn [bind emit app trace result fst snd]. same_trace.
Qed.

Lemma run_upgrade (v : string) :
  @get_installed_version unit w = ([probe_call w], Normal (Some v)) ->
  version_token v -> latest_version <> JStr v ->
  install_flutter w
  = ((preamble w tf
      ++ EPrint ("   Local Version:         " ++ Colors.BOLD ++ v ++ Colors.RESET)
      :: EPrint (warning_line ("Version mismatch. Upgrading " ++ v ++ " -> "
                               ++ py_str w latest_version ++ "..."))
      :: trace (install_steps w (get_os w) install_path download_url
                  latest_version))%list,
     result (install_steps w (get_os w) install_path download_url latest_version)).
Proof.
  intros Hp Hv E. unfold install_flutter. rewrite Hos.
  unfold banner, print, print_step, print_warning. cbn [bind emit].
  rewrite Hfetch. cbn [try_except bind]. rewrite Hp. cbn [bind].
  rewrite (present_token v Hv). cbn [text_of].
  destruct (version_eq v latest_version) eqn:Heq.
  { apply version_eq_iff in Heq. contradiction. }
  destruct (install_steps _ _ _ _ _) as [ts os].
  unfold preamble, banner_lines, step_line, warning_line.
  cbn [bind emit text_of app trace result fst snd]. same_trace.
Qed.

End Gate.

(** ** The release resolver *)

Lemma lookup_Some {R V : Type} (d : list (string * V)) (key : string) (v : V) :
  dict_get d key = Some v -> @lookup R V d key = ([], Normal v).
Proof. intro H. unfold lookup. now rewrite H. Qed.

Lemma getitem_shape {R : Type} (v : json) (key : string) :
  match field v key with
  | Some x => @getitem R v key = ([], Normal x)
  | None => exists e, @getitem R v key = ([], Raised e)
  end.
Proof.
  destruct v; simpl; try (eexists; reflexivity).
  unfold lookup. destruct (dict_get entries key); [reflexivity |].
  eexists. reflexivity.
Qed.

Lemma getitem_Some {R : Type} (v : json) (key : string) (x : json) :
  field v key = Some x -> @getitem R v key = ([], Normal x).
Proof. intro H. pose proof (@getitem_shape R v key) as G. now rewrite H in G. Qed.

(** What the generator expression finds: the first item with the hash,
    every item before it carrying another hash. *)
Lemma first_match_shape {R : Type} (h : json) (items : list json) :
  exists o, @first_match R h items = ([], o) /\
    match o with
    | Normal (Some release) =>
        exists before after,
          items = (before ++ release :: after)%list
          /\ hash_is h release
          /\ forall item, In item before -> other_hash h item
    | Normal None => forall item, In item items -> other_hash h item
    | Returned _ => False
    | Raised _ => True
    end.
Proof.
  induction items as [| item rest IH]; cbn [first_match].
  - exists (Normal None). split; [reflexivity |]. intros item [].
  - pose proof (@getitem_shape R item "hash") as G.
    destruct (field item "hash") as [x |] eqn:Hx.
    + rewrite G. cbn [bind]. destruct (py_eq x h) eqn:Heq.
      * exists (Normal (Some item)). split; [reflexivity |].
        exists [], rest. repeat split.
        -- exists x. split; assumption.
        -- intros i [].
      * destruct IH as (o & -> & Ho). exists o. split; [reflexivity |].
        assert (Hn : other_hash h item) by (exists x; split; assumption).
        destruct o as [[release |] | r | e]; try exact Ho.
        -- destruct Ho as (before & after & -> & Hr & Hb).
           exists (item :: before), after. repeat split; try assumption.
           intros i [<- | Hi]; [exact Hn | now apply Hb].
        -- intros i [<- | Hi]; [exact Hn | now apply Ho].
    + destruct G as [e ->]. exists (Raised e). split; reflexivity.
Qed.

Lemma first_match_found {R : Type} (h release : json) (before after : list json) :
  hash_is h release ->
  (forall item, In item before -> other_hash h item) ->
  @first_match R h (before ++ release :: after) = ([], Normal (Some release)).
Proof.
  intros (x & Hx & Heq) Hb.
  induction before as [| item before IH]; cbn [app first_match].
  - rewrite (getitem_Some _ _ _ Hx). cbn [bind]. now rewrite Heq.
  - destruct (Hb item (or_introl eq_refl)) as (y & Hy & Hne).
    rewrite (getitem_Some _ _ _ Hy). cbn [bind]. rewrite Hne.
    rewrite IH; [reflexivity |]. intros i Hi. apply Hb. now right.
Qed.

Lemma found_release_truthy (h release : json) :
  hash_is h release -> truthy release = true.
Proof.
  intros (x & Hx & _). destruct release; try discriminate Hx.
  destruct entries; [discriminate Hx | reflexivity].
Qed.

Lemma METADATA_URLS_supported (w : World) (current_os install_path : string) :
  dict_get (PATHS w) current_os = Some install_path ->
  exists url, dict_get METADATA_URLS current_os = Some url.
Proof.
  unfold PATHS, METADATA_URLS. cbn [dict_get].
  destruct (String.eqb "Windows" current_os); [eauto |].
  destruct (String.eqb "Darwin" current_os); [eauto |].
  destruct (String.eqb "Linux" current_os); [eauto | discriminate].
Qed.

Lemma iterate_hash_is (h v : json) (items : list json) (release : json) :
  @iterate unit v = ([], Normal items) -> In release items ->
  hash_is h release -> v = JList items.
Proof.
  intros Hi Hin (x & Hx & _). destruct v; simpl in Hi; try discriminate.
  - injection Hi as <-. exfalso. clear -Hin Hx.
    induction s as [| c s IH]; simpl in Hin; [contradiction |].
    destruct Hin as [<- | Hin]; [discriminate Hx | auto].
  - now injection Hi as <-.
  - injection Hi as <-. exfalso. apply in_map_iff in Hin.
    destruct Hin as (kv & <- & _). discriminate Hx.
Qed.

Lemma iterate_shape (v : json) :
  exists o, @iterate unit v = ([], o) /\
            match o with Returned _ => False | _ => True end.
Proof. destruct v; simpl; eexists; split; try reflexivity; exact I. Qed.

(** The resolver makes one request, to the metadata URL of the system;
    it either raises, or returns what the document designates and prints
    the version. *)
Lemma fetch_metadata_shape (w : World) (current_os murl : string) :
  dict_get METADATA_URLS current_os = Some murl ->
  exists o tail,
    @fetch_metadata unit w current_os = (EUrlopen murl :: tail, o) /\
    match o with
    | Normal (download_url, latest_version) =>
        tail = [EPrint (latest_version_line w latest_version)]
        /\ exists data, metadata w murl = Document data
                        /\ resolves_to w data download_url latest_version
    | Returned _ => False
    | Raised _ => tail = []
    end.
Proof.
  intro Hurl. unfold fetch_metadata.
  rewrite (lookup_Some _ _ _ Hurl). cbn [bind emit].
  destruct (metadata w murl) as [e | e | data] eqn:Hm;
    try (exists (Raised e), []; split; reflexivity).
  cbn [bind ret app].
  pose proof (@getitem_shape unit data "current_release") as G1.
  destruct (field data "current_release") as [cr |] eqn:Hcr;
    [rewrite G1 | destruct G1 as [e ->]; exists (Raised e), []; split; reflexivity].
  cbn [bind app].
  pose proof (@getitem_shape unit cr "stable") as G2.
  destruct (field cr "stable") as [stable |] eqn:Hst;
    [rewrite G2 | destruct G2 as [e ->]; exists (Raised e), []; split; reflexivity].
  cbn [bind app].
  pose proof (@getitem_shape unit data "releases") as G3.
  destruct (field data "releases") as [rel |] eqn:Hrel;
    [rewrite G3 | destruct G3 as [e ->]; exists (Raised e), []; split; reflexivity].
  cbn [bind app].
  destruct (iterate_shape rel) as (oi & Hi & Hoi). rewrite Hi.
  destruct oi as [items | r | e]; [| contradiction |
    exists (Raised e), []; split; reflexivity].
  cbn [bind app].
  destruct (@first_match_shape unit stable items) as (om & Hfm & Hom).
  rewrite Hfm.
  destruct om as [[release |] | r | e]; [| | contradiction |];
    try (eexists (Raised _), []; split; reflexivity).
  cbn [bind app].
  destruct Hom as (before & after & Hitems & Hrelease & Hbefore).
  rewrite (found_release_truthy stable release Hrelease). cbn [negb].
  pose proof (@getitem_shape unit release "archive") as G4.
  destruct (field release "archive") as [archive_path |] eqn:Har;
    [rewrite G4 | destruct G4 as [e ->]; exists (Raised e), []; split; reflexivity].
  cbn [bind app].
  pose proof (@getitem_shape unit release "version") as G5.
  destruct (field release "version") as [latest_version |] eqn:Hver;
    [rewrite G5 | destruct G5 as [e ->]; exists (Raised e), []; split; reflexivity].
  unfold print_success, print. cbn [bind emit ret app].
  eexists (Normal (_, latest_version)), _. split; [reflexivity |].
  split; [reflexivity |]. exists data. split; [reflexivity |].
  assert (Hlist : rel = JList items).
  { apply (iterate_hash_is stable rel items release Hi); [| exact Hrelease].
    rewrite Hitems. apply in_elt. }
  exists stable, items, before, release, after, archive_path.
  unfold stable_hash, releases. rewrite Hcr, Hst, Hrel, Hlist.
  repeat split; assumption.
Qed.

Lemma fetch_metadata_unresolvable (w : World) (current_os murl : string) :
  dict_get METADATA_URLS current_os = Some murl ->
  unresolvable w murl ->
  exists e, @fetch_metadata unit w current_os = ([EUrlopen murl], Raised e).
Proof.
  intros Hurl Hun.
  destruct (fetch_metadata_shape w current_os murl Hurl) as (o & tail & E & Ho).
  destruct o as [[download_url latest_version] | r | e]; [| contradiction |].
  - exfalso. destruct Ho as (_ & data & Hdata & Hres).
    destruct Hres as (stable & items & before & release & after & archive_path
                      & Hst & Hrel & Hitems & Hrelease & _).
    destruct Hun as [e He | e He | data' h items' Hd Hh Hr Hnone]; try congruence.
    rewrite Hd in Hdata. injection Hdata as ->.
    rewrite Hst in Hh. injection Hh as ->.
    rewrite Hrel in Hr. injection Hr as ->.
    apply (Hnone release); [| exact Hrelease].
    rewrite Hitems. apply in_elt.
  - subst tail. exists e. exact E.
Qed.

Lemma run_fetch_failed (w : World) (install_path : string)
    (tf : list event) (e : exn) :
  dict_get (PATHS w) (get_os w) = Some install_path ->
  @fetch_metadata unit w (get_os w) = (tf, Raised e) ->
  install_flutter w
  = ((banner_lines
      ++ [ EPrint ("Detected System: " ++ Colors.BOLD ++ get_os w ++ Colors.RESET);
           EPrint (step_line "🔍" "Checking for latest stable release...") ]
      ++ tf
      ++ [ EPrint (error_line ("Failed to fetch metadata: " ++ str_exn e)) ])%list,
     Returned tt).
Proof.
  intros Hos Hf. unfold install_flutter. rewrite Hos.
  unfold banner, print, print_step, print_error. cbn [bind emit].
  rewrite Hf. unfold banner_lines, step_line, error_line, any_exception.
  cbn [try_except select bind emit print return_ app].
  rewrite ?app_nil_r. rewrite <- ?app_assoc. reflexivity.
Qed.

Lemma fetch_metadata_resolves (w : World) (current_os murl : string)
    (data : json) (download_url : string) (latest_version : json) :
  dict_get METADATA_URLS current_os = Some murl ->
  metadata w murl = Document data ->
  resolves_to w data download_url latest_version ->
  @fetch_metadata unit w current_os
  = ([EUrlopen murl; EPrint (latest_version_line w latest_version)],
     Normal (download_url, latest_version)).
Proof.
  intros Hurl Hdata
    (stable & items & before & release & after & archive_path
     & Hst & Hrel & Hitems & Hrelease & Hbefore & Har & Hver & ->).
  unfold stable_hash in Hst. unfold releases in Hrel.
  destruct (field data "current_release") as [cr |] eqn:Hcr; [| discriminate].
  destruct (field data "releases") as [rel |] eqn:Hr; [| discriminate].
  destruct rel; try discriminate. injection Hrel as ->.
  unfold fetch_metadata.
  rewrite (lookup_Some _ _ _ Hurl). cbn [bind emit]. rewrite Hdata.
  cbn [bind ret app].
  rewrite (getitem_Some _ _ _ Hcr). cbn [bind app].
  rewrite (getitem_Some _ _ _ Hst). cbn [bind app].
  rewrite (getitem_Some _ _ _ Hr). cbn [bind app iterate ret].
  rewrite Hitems, (first_match_found stable release before after Hrelease Hbefore).
  cbn [bind app]. rewrite (found_release_truthy stable release Hrelease).
  cbn [negb]. rewrite (getitem_Some _ _ _ Har). cbn [bind app].
  rewrite (getitem_Some _ _ _ Hver).
  unfold print_success, print. cbn [bind emit ret app]. reflexivity.
Qed.

(** Only a text equals a text, and only the same one. *)
Lemma py_eq_text (x : json) (h : string) :
  py_eq x (JStr h) = true <-> x = JStr h.
Proof.
  destruct x as [| b | n | f | s | l | d]; cbn; try (split; discriminate).
  rewrite String.eqb_eq. split; [intros -> | intro H; injection H]; auto.
Qed.

Lemma has_hash_iff (h : string) (item : json) :
  hash_is (JStr h) item <-> has_hash h item.
Proof.
  unfold hash_is, has_hash. split.
  - intros (x & Hx & He). apply py_eq_text in He. now subst x.
  - intro H. exists (JStr h). split; [exact H | now apply py_eq_text].
Qed.

Lemma has_other_hash_iff (h : string) (item : json) :
  other_hash (JStr h) item <-> has_other_hash h item.
Proof.
  unfold other_hash, has_other_hash. split; intros (x & Hx & He); exists x;
    (split; [exact Hx |]).
  - intro Hc. apply py_eq_text in Hc. congruence.
  - destruct (py_eq x (JStr h)) eqn:E; [| reflexivity].
    apply py_eq_text in E. contradiction.
Qed.

Lemma fetch_metadata_no_match (w : World) (current_os murl : string)
    (data h : json) (items : list json) :
  dict_get METADATA_URLS current_os = Some murl ->
  metadata w murl = Document data ->
  stable_hash data = Some h ->
  releases data = Some items ->
  (forall item, In item items -> other_hash h item) ->
  @fetch_metadata unit w current_os
  = ([EUrlopen murl], Raised (Exn Exception_ "Could not match hash to release.")).
Proof.
  intros Hurl Hdata Hst Hrel Hall.
  unfold stable_hash in Hst. unfold releases in Hrel.
  destruct (field data "current_release") as [cr |] eqn:Hcr; [| discriminate].
  destruct (field data "releases") as [rel |] eqn:Hr; [| discriminate].
  destruct rel; try discriminate. injection Hrel as ->.
  unfold fetch_metadata.
  rewrite (lookup_Some _ _ _ Hurl). cbn [bind emit]. rewrite Hdata.
  cbn [bind ret app].
  rewrite (getitem_Some _ _ _ Hcr). cbn [bind app].
  rewrite (getitem_Some _ _ _ Hst). cbn [bind app].
  rewrite (getitem_Some _ _ _ Hr). cbn [bind app iterate ret].
  assert (E : @first_match unit h items = ([], Normal None)).
  { clear Hr. induction items as [| item items IH]; [reflexivity |].
    cbn [first_match]. destruct (Hall item (or_introl eq_refl)) as (x & Hx & He).
    rewrite (getitem_Some _ _ _ Hx). cbn [bind app]. rewrite He.
    rewrite IH; [reflexivity |]. intros i Hi. apply Hall. now right. }
  rewrite E. reflexivity.
Qed.

(** C2. On a supported system the release resolver makes one request, to
    the metadata URL of that system, and nothing else but a printed line.
    It returns a download URL and a version exactly when the document
    designates them: the first release of the [releases] list whose hash
    equals [current_release.stable], with its [archive] path (appended to
    the base URL) and its [version].  For a stable hash that is a text,
    this is the first release whose [hash] is that very text, and for an
    archive path [p] and a version [v] that are texts the result is the
    base URL, a slash and [p], with [v], announced by "Latest Stable
    Version: v".  When the request fails, the body is malformed, or no
    release of the list has the stable hash, the run prints "Failed to
    fetch metadata: ..." with the error (for a list without the hash:
    "Could not match hash to release.") and returns, and its trace holds
    no file system mutation. *)
Theorem release_resolver (w : World) (install_path : string) :
  dict_get (PATHS w) (get_os w) = Some install_path ->
  exists murl,
    dict_get METADATA_URLS (get_os w) = Some murl
    /\ (exists tail,
          trace (fetch_metadata (R := unit) w (get_os w)) = EUrlopen murl :: tail
          /\ never network tail /\ never fs_access tail)
    /\ (forall download_url latest_version,
          result (fetch_metadata (R := unit) w (get_os w))
          = Normal (download_url, latest_version)
          <-> exists data, metadata w murl = Document data
                           /\ resolves_to w data download_url latest_version)
    /\ (forall data h before release after p v,
          metadata w murl = Document data ->
          stable_hash data = Some (JStr h) ->
          releases data = Some (before ++ release :: after)%list ->
          has_hash h release ->
          (forall item, In item before -> has_other_hash h item) ->
          field release "archive" = Some (JStr p) ->
          field release "version" = Some (JStr v) ->
          fetch_metadata (R := unit) w (get_os w)
          = ([ EUrlopen murl;
               EPrint (success_line ("Latest Stable Version: " ++ Colors.BOLD
                                     ++ v ++ Colors.RESET)) ],
             Normal (BASE_URL ++ "/" ++ p, JStr v)))
    /\ (forall data h items,
          metadata w murl = Document data ->
          stable_hash data = Some (JStr h) ->
          releases data = Some items ->
          (forall item, In item items -> has_other_hash h item) ->
          install_flutter w
          = ((banner_lines
              ++ [ EPrint ("Detected System: " ++ Colors.BOLD ++ get_os w
                           ++ Colors.RESET);
                   EPrint (step_line "🔍" "Checking for latest stable release...");
                   EUrlopen murl;
                   EPrint (error_line
                             "Failed to fetch metadata: Could not match hash to release.") ])%list,
             Returned tt))
    /\ (forall e,
          metadata w murl = FetchFails e \/ metadata w murl = Malformed e ->
          install_flutter w
          = ((banner_lines
              ++ [ EPrint ("Detected System: " ++ Colors.BOLD ++ get_os w
                           ++ Colors.RESET);
                   EPrint (step_line "🔍" "Checking for latest stable release...");
                   EUrlopen murl;
                   EPrint (error_line ("Failed to fetch metadata: " ++ str_exn e)) ])%list,
             Returned tt))
    /\ (unresolvable w murl ->
        exists e,
          install_flutter w
          = ((banner_lines
              ++ [ EPrint ("Detected System: " ++ Colors.BOLD ++ get_os w
                           ++ Colors.RESET);
                   EPrint (step_line "🔍" "Checking for latest stable release...");
                   EUrlopen murl;
                   EPrint (error_line ("Failed to fetch metadata: " ++ str_exn e)) ])%list,
             Returned tt)
          /\ never fs_mutation (trace (install_flutter w))).
Proof.
  intro Hos.
  destruct (METADATA_URLS_supported w _ _ Hos) as (murl & Hurl).
  exists murl. split; [exact Hurl |].
  destruct (fetch_metadata_shape w (get_os w) murl Hurl) as (o & tail & E & Ho).
  split; [| split; [| split; [| split; [| split]]]].
  - exists tail. rewrite E. split; [reflexivity |].
    destruct o as [[u l] | r | e]; [| contradiction |].
    + destruct Ho as (-> & _). split; repeat constructor.
    + subst tail. split; constructor.
  - intros download_url latest_version. split.
    + rewrite E. cbn [result snd]. intros ->. exact (proj2 Ho).
    + intros (data & Hdata & Hres).
      now rewrite (fetch_metadata_resolves w _ murl data _ _ Hurl Hdata Hres).
  - intros data h before release after p v Hdata Hst Hrel Hh Hb Ha Hv.
    rewrite (fetch_metadata_resolves w _ murl data (BASE_URL ++ "/" ++ p) (JStr v)
               Hurl Hdata); [reflexivity |].
    exists (JStr h), (before ++ release :: after)%list, before, release, after,
      (JStr p).
    split; [exact Hst |]. split; [exact Hrel |]. split; [reflexivity |].
    split; [now apply has_hash_iff |].
    split; [intros item Hi; apply has_other_hash_iff; now apply Hb |].
    split; [exact Ha |]. split; [exact Hv | reflexivity].
  - intros data h items Hdata Hst Hrel Hall.
    rewrite (run_fetch_failed w install_path [EUrlopen murl]
               (Exn Exception_ "Could not match hash to release.") Hos);
      [reflexivity |].
    apply (fetch_metadata_no_match w _ murl data (JStr h) items);
      try assumption.
    intros item Hi. apply has_other_hash_iff. now apply Hall.
  - intros e He.
    rewrite (run_fetch_failed w install_path [EUrlopen murl] e Hos);
      [reflexivity |].
    unfold fetch_metadata. rewrite (lookup_Some _ _ _ Hurl). cbn [bind emit].
    destruct He as [-> | ->]; reflexivity.
  - intro Hun.
    destruct (fetch_metadata_unresolvable w _ murl Hurl Hun) as (e & Hf).
    exists e. rewrite (run_fetch_failed w install_path _ e Hos Hf).
    split; [reflexivity |]. cbn [trace fst]. repeat constructor.
Qed.

Lemma release_resolver_witness :
  dict_get (PATHS up_to_date_world) (get_os up_to_date_world)
  = Some "/home/dev/development/flutter"
  /\ fetch_metadata (R := unit) up_to_date_world (get_os up_to_date_world)
     = ([ EUrlopen "https://storage.googleapis.com/flutter_infra_release/releases/releases_linux.json";
          EPrint (success_line ("Latest Stable Version: " ++ Colors.BOLD
                                ++ "3.38.5" ++ Colors.RESET)) ],
        Normal ("https://storage.googleapis.com/flutter_infra_release/releases/stable/sdk_3.38.5.tar.xz",
                JStr "3.38.5")).
Proof.
  assert (H : dict_get (PATHS up_to_date_world) (get_os up_to_date_world)
              = Some "/home/dev/development/flutter") by reflexivity.
  split; [exact H |].
  destruct (release_resolver up_to_date_world "/home/dev/development/flutter" H)
    as (murl & Hurl & _ & _ & Hres & _).
  injection Hurl as <-.
  refine (Hres scenario_document "abc123" []
            (JDict [ ("hash", JStr "abc123");
                     ("version", JStr "3.38.5");
                     ("archive", JStr "stable/sdk_3.38.5.tar.xz") ])
            [] "stable/sdk_3.38.5.tar.xz" "3.38.5"
            eq_refl eq_refl eq_refl eq_refl _ eq_refl eq_refl).
  intros item [].
Defined.

(** C1. When the local version probe returns a version string equal to
    the resolved latest stable version, the run prints the local version
    and the already-latest message and returns; its trace is the
    preamble (banner, release lookup, probe) followed by these lines, and
    holds no download, no deletion, no extraction and no other file
    system mutation. *)
Theorem already_latest_is_noop (w : World) (install_path download_url v : string)
    (latest_version : json) :
  dict_get (PATHS w) (get_os w) = Some install_path ->
  result (fetch_metadata (R := unit) w (get_os w))
  = Normal (download_url, latest_version) ->
  result (get_installed_version (R := unit) w) = Normal (Some v) ->
  latest_version = JStr v ->
  install_flutter w
  = ((preamble w (trace (fetch_metadata (R := unit) w (get_os w)))
      ++ EPrint ("   Local Version:         " ++ Colors.BOLD ++ v ++ Colors.RESET)
      :: already_latest_lines)%list,
     Returned tt)
  /\ never download (trace (install_flutter w))
  /\ never deletion (trace (install_flutter w))
  /\ never extraction (trace (install_flutter w))
  /\ never fs_mutation (trace (install_flutter w)).
Proof.
  intros Hos Hf Hp Hv.
  destruct (METADATA_URLS_supported w _ _ Hos) as (murl & Hurl).
  destruct (fetch_metadata_shape w (get_os w) murl Hurl) as (o & tail & E & Ho).
  rewrite E in Hf. cbn [result snd] in Hf. subst o.
  destruct Ho as (-> & _).
  destruct (probe_shape w) as (r & Er & Htok).
  rewrite Er in Hp. cbn [result snd] in Hp. injection Hp as ->.
  rewrite (run_already_latest w install_path download_url latest_version _ Hos E
             v Er (Htok v eq_refl) Hv).
  rewrite E. cbn [trace fst]. split; [reflexivity |].
  unfold preamble, banner_lines, already_latest_lines.
  repeat split; repeat constructor.
Qed.

Lemma already_latest_is_noop_witness :
  dict_get (PATHS up_to_date_world) (get_os up_to_date_world)
  = Some "/home/dev/development/flutter"
  /\ result (fetch_metadata (R := unit) up_to_date_world (get_os up_to_date_world))
     = Normal (BASE_URL ++ "/stable/sdk_3.38.5.tar.xz", JStr "3.38.5")
  /\ result (get_installed_version (R := unit) up_to_date_world)
     = Normal (Some "3.38.5")
  /\ install_flutter up_to_date_world
     = ((preamble up_to_date_world
           (trace (fetch_metadata (R := unit) up_to_date_world
                     (get_os up_to_date_world)))
         ++ EPrint ("   Local Version:         " ++ Colors.BOLD ++ "3.38.5"
                    ++ Colors.RESET)
         :: already_latest_lines)%list,
        Returned tt)
  /\ never download (trace (install_flutter up_to_date_world))
  /\ never deletion (trace (install_flutter up_to_date_world))
  /\ never extraction (trace (install_flutter up_to_date_world))
  /\ never fs_mutation (trace (install_flutter up_to_date_world)).
Proof.
  assert (H1 : dict_get (PATHS up_to_date_world) (get_os up_to_date_world)
               = Some "/home/dev/development/flutter") by reflexivity.
  assert (H2 : result (fetch_metadata (R := unit) up_to_date_world
                         (get_os up_to_date_world))
               = Normal (BASE_URL ++ "/stable/sdk_3.38.5.tar.xz", JStr "3.38.5"))
    by reflexivity.
  assert (H3 : result (get_installed_version (R := unit) up_to_date_world)
               = Normal (Some "3.38.5")) by reflexivity.
  split; [exact H1 |]. split; [exact H2 |]. split; [exact H3 |].
  exact (already_latest_is_noop up_to_date_world "/home/dev/development/flutter"
           (BASE_URL ++ "/stable/sdk_3.38.5.tar.xz") "3.38.5" (JStr "3.38.5")
           H1 H2 H3 eq_refl).
Defined.

(** ** Prefixes of traces *)

Lemma trace_bind {R A B : Type} (m : M R A) (k : A -> M R B) :
  trace (bind m k)
  = (trace m ++ match result m with
                | Normal a => trace (k a)
                | _ => []
                end)%list.
Proof.
  destruct m as [t [a | r | e]]; cbn [bind trace result fst snd];
    try (now rewrite app_nil_r).
  now destruct (k a).
Qed.

Lemma result_bind {R A B : Type} (m : M R A) (k : A -> M R B) :
  result (bind m k)
  = match result m with
    | Normal a => result (k a)
    | Returned r => Returned r
    | Raised e => Raised e
    end.
Proof.
  destruct m as [t [a | r | e]]; cbn [bind trace result fst snd]; try reflexivity.
  now destruct (k a).
Qed.

Lemma starts_with_nil {R A : Type} (m : M R A) : starts_with [] m.
Proof. exists (trace m). reflexivity. Qed.

Lemma starts_with_bind {R A B : Type} (t : list event) (m : M R A) (k : A -> M R B) :
  starts_with t m -> starts_with t (bind m k).
Proof.
  intros (rest & E). unfold starts_with.
  rewrite trace_bind, E, <- app_assoc. eexists. reflexivity.
Qed.

Lemma starts_with_emit {R B : Type} (e : event) (t : list event) (k : unit -> M R B) :
  starts_with t (k tt) -> starts_with (e :: t) (bind (emit e) k).
Proof.
  intros (rest & E). exists rest. rewrite trace_bind. cbn. now rewrite E.
Qed.

Lemma starts_with_try_except {R A : Type} (t : list event) (body : M R A)
    (clauses : list (clause R A)) :
  starts_with t body -> starts_with t (try_except body clauses).
Proof.
  intros (rest & E). destruct body as [tb [a | r | e]]; cbn in E; subst tb;
    cbn [try_except]; try (now exists rest).
  destruct (select clauses e) as [[t' o] |]; [| now exists rest].
  exists (rest ++ t')%list. cbn. now rewrite app_assoc.
Qed.

Lemma install_steps_start (w : World) (install_path download_url : string)
    (latest_version : json) :
  starts_with [ EPrint downloading_line;
                EUrlretrieve download_url (archive_name w latest_version) ]
    (install_steps w (get_os w) install_path download_url latest_version).
Proof.
  unfold install_steps. fold (archive_name w latest_version).
  apply starts_with_bind. unfold download_step, print_step, print.
  apply starts_with_emit, starts_with_try_except.
  apply starts_with_bind. unfold urlretrieve.
  apply starts_with_emit, starts_with_nil.
Qed.

(** C5. The local version probe answers "absent" in each of its failure
    cases: the executable is not found, the process exits with a
    non-zero status, its output does not match the version pattern, or
    any other exception is raised.  On a supported system with a resolved
    release the run then prints the fresh-install warning and goes on with
    the installation steps, which begin with the download. *)
Theorem probe_failure_is_fresh_install (w : World) :
  probe_failure w ->
  get_installed_version (R := unit) w = ([probe_call w], Normal None)
  /\ forall install_path download_url latest_version,
       dict_get (PATHS w) (get_os w) = Some install_path ->
       result (fetch_metadata (R := unit) w (get_os w))
       = Normal (download_url, latest_version) ->
       install_flutter w
       = ((preamble w (trace (fetch_metadata (R := unit) w (get_os w)))
           ++ EPrint fresh_install_line
           :: trace (install_steps w (get_os w) install_path download_url
                       latest_version))%list,
          result (install_steps w (get_os w) install_path download_url
                    latest_version))
       /\ starts_with [ EPrint downloading_line;
                        EUrlretrieve download_url (archive_name w latest_version) ]
            (install_steps w (get_os w) install_path download_url latest_version).
Proof.
  intro Hfail. pose proof (probe_absent w Hfail) as Hp.
  split; [exact Hp |].
  intros install_path download_url latest_version Hos Hf. split.
  - apply run_fresh_install; [exact Hos | | exact Hp].
    destruct (fetch_metadata w (get_os w)) as [tf o]. cbn in Hf. now subst o.
  - apply install_steps_start.
Qed.

Lemma probe_failure_is_fresh_install_witness :
  probe_failure fresh_world
  /\ get_installed_version (R := unit) fresh_world
     = ([probe_call fresh_world], Normal None)
  /\ forall install_path download_url latest_version,
       dict_get (PATHS fresh_world) (get_os fresh_world) = Some install_path ->
       result (fetch_metadata (R := unit) fresh_world (get_os fresh_world))
       = Normal (download_url, latest_version) ->
       install_flutter fresh_world
       = ((preamble fresh_world
             (trace (fetch_metadata (R := unit) fresh_world (get_os fresh_world)))
           ++ EPrint fresh_install_line
           :: trace (install_steps fresh_world (get_os fresh_world) install_path
                       download_url latest_version))%list,
          result (install_steps fresh_world (get_os fresh_world) install_path
                    download_url latest_version))
       /\ starts_with
            [ EPrint downloading_line;
              EUrlretrieve download_url (archive_name fresh_world latest_version) ]
            (install_steps fresh_world (get_os fresh_world) install_path
               download_url latest_version).
Proof.
  assert (H : probe_failure fresh_world).
  { apply (executable_not_found fresh_world (Exn FileNotFoundError "flutter"));
      reflexivity. }
  split; [exact H |].
  exact (probe_failure_is_fresh_install fresh_world H).
Defined.

(** ** The progress bar and the download *)

Lemma never_weaken (p q : event -> bool) (t : list event) :
  (forall e, p e = false -> q e = false) -> never p t -> never q t.
Proof. intros Hpq H. unfold never in *. exact (Forall_impl _ Hpq H). Qed.

Lemma bar_output_harmless (p : event -> bool) (t : list event) :
  (forall q, p (EProgress q) = false) -> (forall s, p (EWrite s) = false) ->
  never (other_than bar_output) t -> never p t.
Proof.
  intros H1 H2. apply never_weaken. intros [] H; try discriminate H; auto.
Qed.

Lemma draw_progress_bar_shape {R : Type} (current total : Z)
    (prefix suffix : string) (length : Z) :
  (exists e, @draw_progress_bar R current total prefix suffix length = ([], Raised e)
             /\ (float_overflows total || float_overflows current
                 || (total =? 0)%Z = true))
  \/ (exists p tail,
        @draw_progress_bar R current total prefix suffix length
        = (EProgress p :: tail, Normal tt)
        /\ bar_percent p = (100 * (inject_Z current / inject_Z total))%Q
        /\ bar_filled p = (length * current / total)%Z
        /\ tail = (if (current =? total)%Z then [EWrite Text.LF] else [])
        /\ total <> 0%Z).
Proof.
  unfold draw_progress_bar.
  destruct (float_overflows total || float_overflows current) eqn:Hov.
  - left. eexists. split; reflexivity.
  - destruct (Z.eqb_spec total 0) as [-> | Hne].
    + left. eexists. split; reflexivity.
    + right. cbn [bind emit].
      destruct (current =? total)%Z; eexists _, _; repeat split; assumption.
Qed.

Lemma draw_progress_bar_only_bar {R : Type} (current total : Z)
    (prefix suffix : string) (length : Z) :
  never (other_than bar_output)
    (trace (@draw_progress_bar R current total prefix suffix length)).
Proof.
  destruct (@draw_progress_bar_shape R current total prefix suffix length)
    as [(e & -> & _) | (p & tail & -> & _ & _ & -> & _)]; cbn [trace fst].
  - constructor.
  - destruct (current =? total)%Z; repeat constructor.
Qed.

Lemma reporthook_only_bar {R : Type} (block_num block_size total_size : Z) :
  never (other_than bar_output)
    (trace (@download_reporthook R block_num block_size total_size)).
Proof.
  unfold download_reporthook.
  destruct (_ <? _)%Z; apply draw_progress_bar_only_bar.
Qed.

Lemma read_blocks_only_bar {R : Type} (size read blocknum : Z) (blocks : list Z) :
  never (other_than bar_output)
    (trace (@read_blocks R download_reporthook size read blocknum blocks)).
Proof.
  revert read blocknum. induction blocks as [| b rest IH]; intros; cbn [read_blocks].
  - constructor.
  - apply never_bind; [apply reporthook_only_bar | intros _; apply IH].
Qed.

Lemma retrieve_only_bar {R : Type} (reply : download_reply) :
  never (other_than bar_output) (trace (@retrieve R reply download_reporthook)).
Proof.
  destruct reply as [e | size blocks failure]; cbn [retrieve].
  - constructor.
  - apply never_bind; [apply reporthook_only_bar | intros _].
    apply never_bind; [apply read_blocks_only_bar | intros read].
    destruct failure; [constructor |].
    destruct (_ && _); constructor.
Qed.

(** The installation steps when the transfer raises. *)
Lemma install_steps_download_failed (w : World)
    (install_path download_url : string) (latest_version : json) (e : exn) :
  result (retrieve (R := unit)
            (transfer w download_url (archive_name w latest_version))
            download_reporthook) = Raised e ->
  install_steps w (get_os w) install_path download_url latest_version
  = ((EPrint downloading_line
      :: EUrlretrieve download_url (archive_name w latest_version)
      :: trace (retrieve (R := unit)
                  (transfer w download_url (archive_name w latest_version))
                  download_reporthook)
      ++ [EPrint (download_error_line e)])%list,
     Returned tt).
Proof.
  intro H. unfold install_steps, download_step, urlretrieve, print_step,
    print_success, print_error, print.
  fold (archive_name w latest_version). cbn [bind emit].
  destruct (retrieve _ _) as [tr o]. cbn [result snd] in H. subst o.
  unfold any_exception, downloading_line, download_error_line, step_line, error_line.
  cbn [bind emit try_except select return_ app trace fst].
  rewrite ?app_nil_r. reflexivity.
Qed.

Lemma run_unsupported (w : World) :
  dict_get (PATHS w) (get_os w) = None ->
  install_flutter w
  = ((banner_lines
      ++ [EPrint (error_line ("Unsupported OS: " ++ get_os w))])%list,
     Returned tt).
Proof. intro H. unfold install_flutter. now rewrite H. Qed.

(** ** The shape of a whole run *)

Lemma early_calls_harmless (p : event -> bool) (t : list event) :
  (forall e, early_call e = true -> p e = false) ->
  never (other_than early_call) t -> never p t.
Proof.
  intro H. apply never_weaken. intros e He. apply H.
  unfold other_than in He. now apply negb_false_iff in He.
Qed.


(** C6. When the transfer of the archive fails (for any reason: the
    request, the local file, the stream, a short body, the progress
    hook), the installation steps print "Download failed: ..." right
    after the transfer and return.  The whole run returns without a
    single destructive call: no deletion, no extraction, no change of the
    file system other than the attempted download itself; and unless the
    installed version was already the latest, in which case nothing is
    downloaded, its last line is the download error. *)
Theorem download_failure_spares_installation (w : World)
    (install_path download_url : string) (latest_version : json) :
  dict_get (PATHS w) (get_os w) = Some install_path ->
  result (fetch_metadata (R := unit) w (get_os w))
  = Normal (download_url, latest_version) ->
  download_fails (transfer w download_url (archive_name w latest_version)) ->
  result (install_flutter w) = Returned tt
  /\ never destructive (trace (install_flutter w))
  /\ never deletion (trace (install_flutter w))
  /\ never extraction (trace (install_flutter w))
  /\ (exists e,
        install_steps w (get_os w) install_path download_url latest_version
        = ((EPrint downloading_line
            :: EUrlretrieve download_url (archive_name w latest_version)
            :: trace (retrieve (R := unit)
                        (transfer w download_url (archive_name w latest_version))
                        download_reporthook)
            ++ [EPrint (download_error_line e)])%list,
           Returned tt)
        /\ ((forall v, result (get_installed_version (R := unit) w)
                       = Normal (Some v) -> latest_version <> JStr v) ->
            exists head,
              trace (install_flutter w)
              = (head ++ [EPrint (download_error_line e)])%list)).
Proof.
  intros Hos Hf (e & He).
  pose proof (install_steps_download_failed w install_path download_url
                latest_version e He) as Hsteps.
  destruct (METADATA_URLS_supported w _ _ Hos) as (murl & Hurl).
  destruct (fetch_metadata_shape w (get_os w) murl Hurl) as (o & tail & E & Ho).
  rewrite E in Hf. cbn [result snd] in Hf. subst o. destruct Ho as (-> & _).
  assert (Hpre : never (other_than early_call)
                   (preamble w [EUrlopen murl;
                                EPrint (latest_version_line w latest_version)]))
    by (repeat constructor).
  assert (Hst : forall p : event -> bool,
    (forall x, early_call x = true -> p x = false) ->
    (forall q, p (EProgress q) = false) -> (forall s, p (EWrite s) = false) ->
    (forall u f, p (EUrlretrieve u f) = false) ->
    never p (trace (install_steps w (get_os w) install_path download_url
                      latest_version))).
  { intros p Hearly Hbar Hwrite Hdl. rewrite Hsteps. cbn [trace fst].
    constructor; [now apply Hearly |]. constructor; [apply Hdl |].
    apply never_app.
    - apply bar_output_harmless; [exact Hbar | exact Hwrite |].
      apply retrieve_only_bar.
    - repeat constructor. now apply Hearly. }
  assert (Hrun :
    (exists v t, result (get_installed_version (R := unit) w) = Normal (Some v)
                 /\ latest_version = JStr v
                 /\ install_flutter w = (t, Returned tt)
                 /\ never (other_than early_call) t)
    \/ (exists head,
          install_flutter w
          = ((head ++ trace (install_steps w (get_os w) install_path download_url
                               latest_version))%list,
             result (install_steps w (get_os w) install_path download_url
                       latest_version))
          /\ never (other_than early_call) head)).
  { destruct (probe_shape w) as ([v |] & Er & Htok).
    - specialize (Htok v eq_refl).
      destruct (version_eq v latest_version) eqn:Heq.
      + left. apply version_eq_iff in Heq. exists v.
        rewrite (run_already_latest w install_path download_url latest_version _
                   Hos E v Er Htok Heq).
        eexists. rewrite Er. repeat split; try reflexivity; try assumption.
        apply never_app; [exact Hpre | repeat constructor].
      + right. assert (Hne : latest_version <> JStr v).
        { intro Hc. apply version_eq_iff in Hc. congruence. }
        rewrite (run_upgrade w install_path download_url latest_version _
                   Hos E v Er Htok Hne).
        eexists (preamble w _ ++ [_; _])%list.
        split; [now rewrite <- app_assoc |].
        apply never_app; [exact Hpre | repeat constructor].
    - right.
      rewrite (run_fresh_install w install_path download_url latest_version _
                 Hos E Er).
      eexists (preamble w _ ++ [_])%list.
      split; [now rewrite <- app_assoc |].
      apply never_app; [exact Hpre | repeat constructor]. }
  assert (Hnever : forall p : event -> bool,
    (forall x, early_call x = true -> p x = false) ->
    (forall q, p (EProgress q) = false) -> (forall s, p (EWrite s) = false) ->
    (forall u f, p (EUrlretrieve u f) = false) ->
    never p (trace (install_flutter w))).
  { intros p Hearly Hbar Hwrite Hdl.
    destruct Hrun as [(v & t & _ & _ & -> & Ht) | (head & -> & Hh)]; cbn [trace fst].
    - now apply early_calls_harmless.
    - apply never_app; [now apply early_calls_harmless | now apply Hst]. }
  split; [| split; [| split; [| split]]].
  - destruct Hrun as [(v & t & _ & _ & -> & _) | (head & -> & _)]; [reflexivity |].
    now rewrite Hsteps.
  - apply Hnever; try reflexivity. now intros [].
  - apply Hnever; try reflexivity. now intros [].
  - apply Hnever; try reflexivity. now intros [].
  - exists e. split; [exact Hsteps |]. intro Hdiff.
    destruct Hrun as [(v & t & Hv & Hl & _) | (head & -> & _)].
    + exfalso. exact (Hdiff v Hv Hl).
    + rewrite Hsteps. cbn [trace fst].
      eexists (head ++ _ :: _ :: _)%list.
      rewrite <- app_assoc. cbn [app]. reflexivity.
Qed.

Lemma download_failure_spares_installation_witness :
  dict_get (PATHS offline_world) (get_os offline_world)
  = Some "/home/dev/development/flutter"
  /\ result (fetch_metadata (R := unit) offline_world (get_os offline_world))
     = Normal (BASE_URL ++ "/stable/sdk_3.38.5.tar.xz", JStr "3.38.5")
  /\ download_fails
       (transfer offline_world (BASE_URL ++ "/stable/sdk_3.38.5.tar.xz")
          (archive_name offline_world (JStr "3.38.5")))
  /\ result (install_flutter offline_world) = Returned tt
  /\ never destructive (trace (install_flutter offline_world))
  /\ never deletion (trace (install_flutter offline_world))
  /\ never extraction (trace (install_flutter offline_world)).
Proof.
  assert (H1 : dict_get (PATHS offline_world) (get_os offline_world)
               = Some "/home/dev/development/flutter") by reflexivity.
  assert (H2 : result (fetch_metadata (R := unit) offline_world
                         (get_os offline_world))
               = Normal (BASE_URL ++ "/stable/sdk_3.38.5.tar.xz", JStr "3.38.5"))
    by reflexivity.
  assert (H3 : download_fails
                 (transfer offline_world (BASE_URL ++ "/stable/sdk_3.38.5.tar.xz")
                    (archive_name offline_world (JStr "3.38.5")))).
  { exists (Exn URLError "connection reset"). reflexivity. }
  destruct (download_failure_spares_installation offline_world
              "/home/dev/development/flutter"
              (BASE_URL ++ "/stable/sdk_3.38.5.tar.xz") (JStr "3.38.5") H1 H2 H3)
    as (R1 & R2 & R3 & R4 & _).
  repeat split; assumption.
Defined.

(** ** Substrings and case *)
















(** ** Monad laws *)

Lemma bind_assoc {R A B C : Type} (m : M R A) (f : A -> M R B) (g : B -> M R C) :
  bind (bind m f) g = bind m (fun a => bind (f a) g).
Proof.
  destruct m as [t [a | r | e]]; cbn [bind]; try reflexivity.
  destruct (f a) as [t' [b | r | e]]; cbn [bind]; try reflexivity.
  destruct (g b) as [t'' o]. now rewrite app_assoc.
Qed.

Lemma bind_ret_l {R A B : Type} (a : A) (k : A -> M R B) : bind (ret a) k = k a.
Proof. unfold ret. cbn [bind]. now destruct (k a). Qed.

Lemma bind_ret_r {R : Type} (m : M R unit) : bind m (fun _ => ret tt) = m.
Proof.
  destruct m as [t [[] | r | e]]; cbn [bind ret]; try reflexivity.
  now rewrite app_nil_r.
Qed.

(** ** [rmtree] as a sequence of steps *)

Lemma tree_induction (P : tree -> Prop) :
  (forall name a, P (File name a)) ->
  (forall name children a, Forall P children -> P (Dir name children a)) ->
  forall t, P t.
Proof.
  intros HF HD. fix IH 1. intros [name a | name children a].
  - apply HF.
  - apply HD. induction children as [| t ts IHts]; constructor.
    + apply IH.
    + exact IHts.
Qed.

Section Rmtree.

Context {R : Type}.
Variable onerror : attempt -> (string -> M R unit) -> string -> exn -> M R unit.
Variable join : string -> string -> string.
Variable enter : string -> listing.

Lemma delete_all_app (xs ys : list target) :
  delete_all onerror (xs ++ ys)
  = bind (delete_all onerror xs) (fun _ => delete_all onerror ys).
Proof.
  induction xs as [| x xs IH]; cbn [app delete_all].
  - now rewrite bind_ret_l.
  - now rewrite IH, bind_assoc.
Qed.

Lemma delete_all_one (x : target) :
  delete_all onerror [x] = delete_target onerror x.
Proof. cbn [delete_all]. apply bind_ret_r. Qed.

Lemma run_plan_app (p q : list step) :
  run_plan onerror (p ++ q)
  = bind (run_plan onerror p) (fun _ => run_plan onerror q).
Proof.
  induction p as [| s p IH]; cbn [app run_plan].
  - now rewrite bind_ret_l.
  - now rewrite IH, bind_assoc.
Qed.

Lemma run_plan_one (s : step) : run_plan onerror [s] = run_step onerror s.
Proof. cbn [run_plan]. apply bind_ret_r. Qed.

Lemma run_plan_two (s s' : step) :
  run_plan onerror [s; s']
  = bind (run_step onerror s) (fun _ => run_step onerror s').
Proof. cbn [run_plan]. now rewrite bind_ret_r. Qed.

Lemma run_plan_removals (xs : list target) :
  run_plan onerror (map Remove xs) = delete_all onerror xs.
Proof.
  induction xs as [| x xs IH]; cbn [map run_plan delete_all run_step];
    [reflexivity | now rewrite IH].
Qed.

Lemma rmtree_entry_plan (parent : string) (t : tree) :
  rmtree_entry onerror join enter parent t
  = run_plan onerror (plan_of join enter parent t).
Proof.
  revert parent. induction t as [name a | name children a IH] using tree_induction;
    intro parent; cbn [rmtree_entry plan_of].
  - now rewrite run_plan_one.
  - destruct (enter (join parent name)) as [| h | [| |] e h].
    + rewrite run_plan_app, run_plan_one. f_equal.
      induction children as [| t ts IHts]; [reflexivity |].
      inversion IH as [| t' ts' Ht Hts]; subst.
      rewrite run_plan_app, Ht. f_equal.
      now rewrite (IHts Hts).
    + now rewrite run_plan_one.
    + now rewrite run_plan_one.
    + now rewrite run_plan_one.
    + now rewrite run_plan_two.
Qed.

Lemma rmtree_entries_plan (parent : string) (ts : list tree) :
  rmtree_entries onerror join enter parent ts
  = run_plan onerror (plan_of_all join enter parent ts).
Proof.
  induction ts as [| t ts IH]; cbn [rmtree_entries plan_of_all]; [reflexivity |].
  now rewrite run_plan_app, rmtree_entry_plan, IH.
Qed.

(** [rmtree] runs the steps of its plan, one after the other. *)
Lemma rmtree_plan (path : string) (content : list tree * attempt) :
  rmtree onerror join enter path content
  = run_plan onerror (plan join enter path content).
Proof.
  destruct content as [children a]. unfold rmtree, plan. cbn [fst snd].
  destruct (enter path) as [| h | [| |] e h].
  - now rewrite run_plan_app, run_plan_one, rmtree_entries_plan.
  - now rewrite run_plan_one.
  - now rewrite run_plan_one.
  - now rewrite run_plan_one.
  - now rewrite run_plan_two.
Qed.

Lemma plan_of_unhindered (parent : string) (t : tree) :
  Forall (fun d => enter d = Listed) (directories_of join parent t) ->
  plan_of join enter parent t = map Remove (targets_of join parent t).
Proof.
  revert parent. induction t as [name a | name children a IH] using tree_induction;
    intro parent; cbn [plan_of targets_of directories_of]; [reflexivity |].
  intro H. inversion H as [| d ds Hd Hds]; subst. rewrite Hd.
  rewrite map_app. cbn [map]. f_equal.
  clear H Hd. induction children as [| t ts IHts]; [reflexivity |].
  inversion IH as [| t' ts' Ht Hts]; subst.
  apply Forall_app in Hds. destruct Hds as [H1 H2].
  rewrite map_app, (Ht _ H1). f_equal. now apply IHts.
Qed.

Lemma plan_of_all_unhindered (parent : string) (ts : list tree) :
  Forall (fun d => enter d = Listed) (directories_of_all join parent ts) ->
  plan_of_all join enter parent ts = map Remove (targets_of_all join parent ts).
Proof.
  induction ts as [| t ts IH]; cbn [plan_of_all targets_of_all directories_of_all];
    [reflexivity |].
  intro H. apply Forall_app in H. destruct H as [H1 H2].
  now rewrite map_app, (plan_of_unhindered _ _ H1), (IH H2).
Qed.

(** When every directory can be entered, the steps are the deletions of
    the paths of the tree. *)
Lemma plan_unhindered (path : string) (content : list tree * attempt) :
  unhindered join enter path content ->
  plan join enter path content = map Remove (targets join path content).
Proof.
  unfold unhindered, directories, plan, targets. intro H.
  inversion H as [| d ds Hd Hds]; subst. rewrite Hd.
  now rewrite map_app, (plan_of_all_unhindered _ _ Hds).
Qed.

Lemma rmtree_flat (path : string) (content : list tree * attempt) :
  unhindered join enter path content ->
  rmtree onerror join enter path content
  = delete_all onerror (targets join path content).
Proof.
  intro H. now rewrite rmtree_plan, (plan_unhindered _ _ H), run_plan_removals.
Qed.

End Rmtree.

(** ** The error handler of the removal *)

Lemma is_OSError_of_os (e : os_error) : is_OSError (exn_of_os e) = true.
Proof. destruct e as [[] text]; reflexivity. Qed.

Lemma on_rm_error_read_only {R : Type} (a : attempt) (func : string -> M R unit)
    (path : string) (exc_info : exn) :
  writable a = false -> chmod_reply a = None ->
  on_rm_error a func path exc_info
  = (EAccess path :: EChmod path S_IWRITE :: trace (func path), result (func path)).
Proof.
  intros Hw Hc. unfold on_rm_error, os_access, os_chmod, os_result.
  rewrite Hw, Hc. cbn [bind emit ret negb app]. now destruct (func path).
Qed.

Lemma on_rm_error_chmod_fails {R : Type} (a : attempt) (func : string -> M R unit)
    (path : string) (exc_info : exn) (c : os_error) :
  writable a = false -> chmod_reply a = Some c ->
  on_rm_error a func path exc_info
  = ([EAccess path; EChmod path S_IWRITE], Raised (exn_of_os c)).
Proof.
  intros Hw Hc. unfold on_rm_error, os_access, os_chmod, os_result.
  rewrite Hw, Hc. reflexivity.
Qed.

Lemma on_rm_error_writable {R : Type} (a : attempt) (func : string -> M R unit)
    (path : string) (exc_info : exn) :
  writable a = true ->
  on_rm_error a func path exc_info = ([EAccess path], Raised exc_info).
Proof.
  intros Hw. unfold on_rm_error, os_access. rewrite Hw. reflexivity.
Qed.

Lemma delete_call_shape {R : Type} (x : target) (reply : option os_error) :
  @delete_call R x reply (target_path x)
  = ([attempted x (negb (failed reply))],
     match reply with
     | None => Normal tt
     | Some e => Raised (exn_of_os e)
     end).
Proof.
  unfold delete_call, attempted, os_rmdir, os_unlink, os_result.
  destruct (target_is_dir x), reply; reflexivity.
Qed.

Lemma delete_target_at_once {R : Type} (x : target) :
  first_try (target_attempt x) = None ->
  @delete_target R on_rm_error x = ([removed x], Normal tt).
Proof.
  intro H. unfold delete_target. rewrite delete_call_shape, H. reflexivity.
Qed.

Lemma delete_target_read_only {R : Type} (x : target) :
  read_only (target_attempt x) ->
  @delete_target R on_rm_error x = (read_only_deletion x, Normal tt).
Proof.
  intros (Hf & Hw & Hc & Hs). unfold delete_target.
  destruct (first_try (target_attempt x)) as [e |] eqn:E; [| contradiction].
  rewrite delete_call_shape. cbn [try_except select].
  rewrite is_OSError_of_os.
  rewrite (on_rm_error_read_only _ _ _ _ Hw Hc), delete_call_shape, Hs.
  reflexivity.
Qed.

Lemma delete_target_other_error {R : Type} (x : target) :
  other_deletion_error (target_attempt x) ->
  exists e, first_try (target_attempt x) = Some e
            /\ @delete_target R on_rm_error x
               = ([attempted x false; EAccess (target_path x)],
                  Raised (exn_of_os e)).
Proof.
  intros (Hf & Hw). unfold delete_target.
  destruct (first_try (target_attempt x)) as [e |] eqn:E; [| contradiction].
  exists e. split; [reflexivity |].
  rewrite delete_call_shape. cbn [try_except select].
  rewrite is_OSError_of_os, (on_rm_error_writable _ _ _ _ Hw). reflexivity.
Qed.

(** A deletion either succeeds or raises an [OSError]. *)
Lemma delete_target_outcome {R : Type} (x : target) :
  result (@delete_target R on_rm_error x) = Normal tt
  \/ exists e, result (@delete_target R on_rm_error x) = Raised e
               /\ is_OSError e = true.
Proof.
  unfold delete_target.
  destruct (first_try (target_attempt x)) as [e |] eqn:E;
    rewrite delete_call_shape; [| now left].
  cbn [try_except select]. rewrite is_OSError_of_os.
  destruct (writable (target_attempt x)) eqn:Hw.
  - rewrite (on_rm_error_writable _ _ _ _ Hw). right.
    eexists. split; [reflexivity | apply is_OSError_of_os].
  - destruct (chmod_reply (target_attempt x)) as [c |] eqn:Hc.
    + rewrite (on_rm_error_chmod_fails _ _ _ _ c Hw Hc). right.
      eexists. split; [reflexivity | apply is_OSError_of_os].
    + rewrite (on_rm_error_read_only _ _ _ _ Hw Hc), delete_call_shape.
      destruct (second_try (target_attempt x)) as [e2 |]; [right | now left].
      eexists. split; [reflexivity | apply is_OSError_of_os].
Qed.

Lemma delete_all_outcome {R : Type} (xs : list target) :
  result (@delete_all R on_rm_error xs) = Normal tt
  \/ exists e, result (@delete_all R on_rm_error xs) = Raised e
               /\ is_OSError e = true.
Proof.
  induction xs as [| x xs IH]; cbn [delete_all]; [now left |].
  rewrite result_bind.
  destruct (delete_target_outcome (R := R) x) as [-> | (e & -> & He)];
    [exact IH | right; eauto].
Qed.

Lemma delete_all_other_error {R : Type} (xs : list target) :
  Exists (fun x => other_deletion_error (target_attempt x)) xs ->
  exists e, result (@delete_all R on_rm_error xs) = Raised e
            /\ is_OSError e = true.
Proof.
  induction 1 as [x xs Hx | x xs _ IH]; cbn [delete_all]; rewrite result_bind.
  - destruct (delete_target_other_error (R := R) x Hx) as (e & _ & ->).
    cbn [result snd]. eexists. split; [reflexivity | apply is_OSError_of_os].
  - destruct (delete_target_outcome (R := R) x) as [-> | (e & -> & He)];
      [exact IH | eauto].
Qed.

Lemma delete_all_read_only {R : Type} (xs : list target) :
  only_read_only_obstacles xs ->
  result (@delete_all R on_rm_error xs) = Normal tt
  /\ forall x, In x xs -> In (removed x) (trace (@delete_all R on_rm_error xs)).
Proof.
  induction 1 as [| x xs Hx _ IH]; cbn [delete_all].
  - split; [reflexivity | intros x []].
  - rewrite result_bind, trace_bind.
    assert (E : exists t, @delete_target R on_rm_error x = (t, Normal tt)
                          /\ In (removed x) t).
    { destruct Hx as [Hx | Hx].
      - rewrite (delete_target_at_once x Hx). eexists. split; [reflexivity |].
        now left.
      - rewrite (delete_target_read_only x Hx). eexists. split; [reflexivity |].
        unfold read_only_deletion, removed. cbn. tauto. }
    destruct E as (t & -> & Hin). cbn [result trace fst snd].
    destruct IH as (IHr & IHin). split; [exact IHr |].
    intros y [<- | Hy]; apply in_or_app; [now left | right; now apply IHin].
Qed.

(** ** The steps of the removal, written out *)

Lemma run_step_spec (s : step) :
  run_step (R := unit) on_rm_error s = (step_events s, leaves (step_error s)).
Proof.
  destruct s as [x | path [| h | call e h]].
  - cbn [run_step step_events step_error]. unfold delete_target, handler_error.
    destruct (first_try (target_attempt x)) as [e |] eqn:E;
      rewrite delete_call_shape; [| reflexivity].
    cbn [try_except select]. rewrite is_OSError_of_os. unfold handler_calls.
    destruct (writable (target_attempt x)) eqn:Hw.
    + now rewrite (on_rm_error_writable _ _ _ _ Hw).
    + destruct (chmod_reply (target_attempt x)) as [c |] eqn:Hc.
      * now rewrite (on_rm_error_chmod_fails _ _ _ _ c Hw Hc).
      * rewrite (on_rm_error_read_only _ _ _ _ Hw Hc), delete_call_shape.
        now destruct (second_try (target_attempt x)).
  - reflexivity.
  - cbn [run_step not_entered step_events step_error].
    unfold on_rm_error, os_access, os_chmod, os_path_islink, os_result,
      handler_calls, answers.
    cbn [writable chmod_reply].
    destruct (can_write h), (chmod_answer h); reflexivity.
  - cbn [run_step step_events step_error]. unfold handler_calls.
    destruct call; cbn [not_entered];
      unfold on_rm_error, os_access, os_chmod, os_lstat, os_scandir, os_open,
        os_result, answers; cbn [writable chmod_reply];
      destruct (can_write h), (chmod_answer h), (retry h); reflexivity.
Qed.

Lemma run_plan_spec (p : list step) :
  run_plan (R := unit) on_rm_error p = (plan_events p, leaves (plan_error p)).
Proof.
  induction p as [| s p IH]; cbn [run_plan plan_events plan_error]; [reflexivity |].
  rewrite run_step_spec, IH.
  destruct (step_error s); cbn [leaves bind]; [now rewrite app_nil_r | reflexivity].
Qed.

(** The removal of the installation directory, step by step. *)
Lemma removal_spec (w : World) (install_path : string)
    (content : list tree * attempt) :
  removal w install_path content
  = (plan_events (removal_plan w install_path content),
     leaves (plan_error (removal_plan w install_path content))).
Proof. unfold removal, removal_plan. now rewrite rmtree_plan, run_plan_spec. Qed.

Lemma plan_events_app (p q : list step) :
  Forall passes p ->
  plan_events (p ++ q) = (plan_events p ++ plan_events q)%list
  /\ plan_error (p ++ q) = plan_error q.
Proof.
  induction 1 as [| s p Hs _ IH]; [split; reflexivity |].
  cbn [app plan_events plan_error]. unfold passes in Hs. rewrite Hs.
  destruct IH as (-> & ->). split; [now rewrite app_assoc | reflexivity].
Qed.


(** The first step that ends with an error decides: the steps before it
    are carried out, the ones after it are not. *)
Lemma plan_first_error (before : list step) (s : step) (after : list step)
    (e : exn) :
  Forall passes before -> step_error s = Some e ->
  plan_events (before ++ s :: after) = (plan_events before ++ step_events s)%list
  /\ plan_error (before ++ s :: after) = Some e.
Proof.
  intros Hb Hs. destruct (plan_events_app before (s :: after) Hb) as (-> & ->).
  cbn [plan_events plan_error]. rewrite Hs. now rewrite app_nil_r.
Qed.

Lemma plan_error_split (p : list step) (e : exn) :
  plan_error p = Some e ->
  exists before s after,
    p = (before ++ s :: after)%list /\ Forall passes before
    /\ step_error s = Some e.
Proof.
  induction p as [| s p IH]; cbn [plan_error]; [discriminate |].
  destruct (step_error s) as [e' |] eqn:E.
  - intro H. injection H as <-. exists [], s, p. now repeat split.
  - intro H. destruct (IH H) as (before & s' & after & -> & Hb & Hs).
    exists (s :: before), s', after. split; [reflexivity |].
    split; [now constructor | exact Hs].
Qed.

(** The error of a step is an [OSError], except the [TypeError] of the
    handler's [os.open(path)]. *)
Lemma step_error_class (s : step) (e : exn) :
  step_error s = Some e ->
  is_OSError e = true
  \/ (e = MISSING_FLAGS
      /\ exists path err h,
           s = Skip path (Failing Open err h)
           /\ can_write h = false /\ chmod_answer h = None).
Proof.
  destruct s as [x | path [| h | call err h]]; cbn [step_error].
  - destruct (handler_error (target_attempt x)); cbn; [| discriminate].
    intro H. injection H as <-. left. apply is_OSError_of_os.
  - discriminate.
  - destruct (can_write h); [intro H; injection H as <-; now left |].
    destruct (chmod_answer h); cbn; [| discriminate].
    intro H. injection H as <-. left. apply is_OSError_of_os.
  - destruct (can_write h) eqn:Hw;
      [intro H; injection H as <-; left; apply is_OSError_of_os |].
    destruct (chmod_answer h) eqn:Hc;
      [intro H; injection H as <-; left; apply is_OSError_of_os |].
    destruct call.
    + destruct (retry h); cbn; [| discriminate].
      intro H. injection H as <-. left. apply is_OSError_of_os.
    + intro H. injection H as <-. right. split; [reflexivity |].
      now exists path, err, h.
    + destruct (retry h); cbn; [| discriminate].
      intro H. injection H as <-. left. apply is_OSError_of_os.
Qed.

Lemma plan_error_class (p : list step) (e : exn) :
  plan_error p = Some e ->
  is_OSError e = true
  \/ (e = MISSING_FLAGS
      /\ exists path err h,
           In (Skip path (Failing Open err h)) p
           /\ can_write h = false /\ chmod_answer h = None).
Proof.
  intro H. destruct (plan_error_split p e H) as (before & s & after & -> & _ & Hs).
  destruct (step_error_class s e Hs) as [He | (-> & path & err & h & -> & Hw & Hc)];
    [now left | right].
  split; [reflexivity |]. exists path, err, h.
  split; [apply in_or_app; right; now left | now split].
Qed.

Lemma step_events_calls (s : step) :
  never (other_than removal_call) (step_events s).
Proof.
  destruct s as [x | path [| h | call e h]]; cbn [step_events];
    unfold handler_calls, removed, attempted.
  - destruct (first_try (target_attempt x)), (target_is_dir x),
      (writable (target_attempt x)), (chmod_reply (target_attempt x));
      repeat constructor.
  - constructor.
  - destruct (can_write h); repeat constructor.
  - destruct (can_write h); repeat constructor.
Qed.

Lemma plan_events_calls (p : list step) :
  never (other_than removal_call) (plan_events p).
Proof.
  induction p as [| s p IH]; cbn [plan_events]; [constructor |].
  apply never_app; [apply step_events_calls |].
  destruct (step_error s); [constructor | exact IH].
Qed.

(** A step that passes and is a deletion has deleted its path; one that
    ends with an error has not. *)
Lemma step_removes (x : target) :
  passes (Remove x) -> In (removed x) (step_events (Remove x)).
Proof.
  unfold passes. cbn [step_error step_events]. unfold handler_error, handler_calls.
  destruct (first_try (target_attempt x)); [| intros _; now left].
  destruct (writable (target_attempt x)); [discriminate |].
  destruct (chmod_reply (target_attempt x)); [discriminate |].
  destruct (second_try (target_attempt x)); [discriminate |].
  intros _. cbn. unfold removed, attempted. destruct (target_is_dir x); tauto.
Qed.

Lemma step_fails (x : target) (e : exn) :
  step_error (Remove x) = Some e -> ~ In (removed x) (step_events (Remove x)).
Proof.
  cbn [step_error step_events]. unfold handler_error, handler_calls, removed,
    attempted.
  destruct (first_try (target_attempt x)); [| discriminate].
  destruct (target_is_dir x), (writable (target_attempt x));
    try (intros _ [H | [H | H]]; try discriminate H; contradiction);
    (destruct (chmod_reply (target_attempt x));
     [intros _ [H | [H | [H | H]]]; try discriminate H; contradiction |]);
    (destruct (second_try (target_attempt x)); [| discriminate]);
    intros _ [H | [H | [H | [H | H]]]]; try discriminate H; contradiction.
Qed.

Lemma plan_removes (p : list step) (x : target) :
  Forall passes p -> In (Remove x) p -> In (removed x) (plan_events p).
Proof.
  induction 1 as [| s p Hs Hp IH]; [intros [] |].
  cbn [plan_events]. pose proof Hs as Hs'. unfold passes in Hs'. rewrite Hs'.
  intros [-> | Hin]; apply in_or_app; [left; now apply step_removes | right; auto].
Qed.




(** ** The step "Clean old install" *)

Lemma clean_old_install_failed (w : World) (install_path : string)
    (content : list tree * attempt) (e : exn) :
  install_dir w = Some content ->
  result (removal w install_path content) = Raised e -> is_OSError e = true ->
  clean_old_install w (get_os w) install_path
  = ((EExists install_path :: removing_line
      :: trace (removal w install_path content) ++ removal_error_lines e)%list,
     Returned tt).
Proof.
  intros Hd Hr He. unfold clean_old_install. rewrite Hd.
  fold (removal w install_path content).
  destruct (removal w install_path content) as [t o]. cbn [result snd] in Hr. subst o.
  unfold print_warning, print_error, print, removing_line, removal_error_lines,
    warning_line, error_line.
  cbn [bind emit try_except select]. rewrite He.
  cbn [bind emit return_ app trace fst]. reflexivity.
Qed.


Lemma clean_old_install_raised (w : World) (install_path : string)
    (content : list tree * attempt) (e : exn) :
  install_dir w = Some content ->
  result (removal w install_path content) = Raised e -> is_OSError e = false ->
  clean_old_install w (get_os w) install_path
  = (EExists install_path :: removing_line
     :: trace (removal w install_path content),
     Raised e).
Proof.
  intros Hd Hr He. unfold clean_old_install. rewrite Hd.
  fold (removal w install_path content).
  destruct (removal w install_path content) as [t o]. cbn [result snd] in Hr. subst o.
  unfold print_warning, print_error, print, removing_line, warning_line.
  cbn [bind emit try_except select]. rewrite He. reflexivity.
Qed.




(** ** The archive after a failed removal *)

Lemma download_step_done (w : World) (download_url filename : string) :
  result (retrieve (R := unit) (transfer w download_url filename)
            download_reporthook) = Normal tt ->
  download_step w download_url filename
  = ((EPrint downloading_line :: EUrlretrieve download_url filename
      :: trace (retrieve (R := unit) (transfer w download_url filename)
                  download_reporthook)
      ++ [download_finished_line])%list,
     Normal tt).
Proof.
  intro H. unfold download_step, urlretrieve, print_step, print_success, print.
  cbn [bind emit].
  destruct (retrieve _ _) as [tr o]. cbn [result snd] in H. subst o.
  reflexivity.
Qed.

(** After a successful download, a removal that raises ends the run in
    the step "Clean old install": the [finally] clause that deletes the
    archive belongs to the extraction and is never reached. *)
Lemma install_steps_removal_failed (w : World)
    (install_path download_url : string) (latest_version : json)
    (content : list tree * attempt) (e : exn) :
  result (retrieve (R := unit)
            (transfer w download_url (archive_name w latest_version))
            download_reporthook) = Normal tt ->
  install_dir w = Some content ->
  result (removal w install_path content) = Raised e ->
  result (install_steps w (get_os w) install_path download_url latest_version)
  = (if is_OSError e then Returned tt else Raised e)
  /\ In (EUrlretrieve download_url (archive_name w latest_version))
        (trace (install_steps w (get_os w) install_path download_url latest_version))
  /\ never removes_archive
       (trace (install_steps w (get_os w) install_path download_url latest_version)).
Proof.
  intros Hdl Hd Hr.
  assert (Hrm : never removes_archive (trace (removal w install_path content))).
  { rewrite removal_spec. cbn [trace fst].
    generalize (plan_events_calls (removal_plan w install_path content)).
    apply never_weaken. intros x Hx. unfold other_than in Hx.
    destruct x; try discriminate Hx; reflexivity. }
  unfold install_steps. fold (archive_name w latest_version).
  rewrite (download_step_done w _ _ Hdl).
  destruct (is_OSError e) eqn:He.
  - rewrite (clean_old_install_failed w install_path content e Hd Hr He).
    unfold print_step, print. cbn [bind emit app trace result fst snd].
    split; [reflexivity |]. split.
    + right. now left.
    + constructor; [reflexivity |]. constructor; [reflexivity |].
      rewrite <- app_assoc. apply never_app.
      * apply bar_output_harmless; try reflexivity. apply retrieve_only_bar.
      * cbn [app]. constructor; [reflexivity |]. constructor; [reflexivity |].
        constructor; [reflexivity |]. constructor; [reflexivity |].
        apply never_app; [exact Hrm | repeat constructor].
  - rewrite (clean_old_install_raised w install_path content e Hd Hr He).
    unfold print_step, print. cbn [bind emit app trace result fst snd].
    split; [reflexivity |]. split.
    + right. now left.
    + constructor; [reflexivity |]. constructor; [reflexivity |].
      rewrite <- app_assoc. apply never_app.
      * apply bar_output_harmless; try reflexivity. apply retrieve_only_bar.
      * cbn [app]. constructor; [reflexivity |]. constructor; [reflexivity |].
        constructor; [reflexivity |]. constructor; [reflexivity |]. exact Hrm.
Qed.

(** The extraction step does delete the archive: whether the extraction
    succeeds or fails, its trace ends with the check of the archive file
    and, when the file is there, the call that removes it. *)
Lemma extraction_step_cleans_up (w : World) (install_path filename : string) :
  parent_exists w = true \/ makedirs_reply w = None ->
  exists head,
    trace (extraction_step w (get_os w) install_path filename)
    = (head ++ EExists filename
       :: (if archive_exists w then [ERemove filename] else []))%list
    /\ match result (extraction_step w (get_os w) install_path filename) with
       | Raised _ => False
       | _ => True
       end.
Proof.
  intro Hp. unfold extraction_step.
  assert (Hmk : exists tm,
    (if negb (parent_exists w)
     then bind (emit (EMakedirs (dirname (get_os w) install_path)))
            (fun _ => os_result (makedirs_reply w))
     else ret tt) = (tm, @Normal unit unit tt)).
  { destruct Hp as [-> | Hm]; [eexists; reflexivity |].
    rewrite Hm. destruct (negb (parent_exists w)); eexists; reflexivity. }
  destruct Hmk as (tm & ->). cbn [bind emit].
  set (body := try_except _ _).
  assert (Hbody : match result body with Raised _ => False | _ => True end).
  { unfold body. destruct (bind _ _) as [t [a | r | e]]; cbn; exact I. }
  destruct body as [tb ob]. cbn [result snd] in Hbody.
  unfold remove_archive, any_exception, os_result.
  destruct (archive_exists w); cbn [bind emit try_finally].
  - destruct (remove_reply w); cbn [bind emit try_except select ret app];
      (eexists (_ :: tm ++ tb)%list; split;
       [cbn [trace fst app]; rewrite <- app_assoc; reflexivity
       | destruct ob; try exact I; contradiction]).
  - cbn [ret]. eexists (_ :: tm ++ tb)%list. split.
    + cbn [trace fst app]. rewrite <- app_assoc. reflexivity.
    + destruct ob; try exact I; contradiction.
Qed.

(** C3, at the failing input: an upgrade on Windows on which the
    download succeeds and the old installation holds a file in use.  The
    run downloads the archive, fails to remove the old directory, prints
    the error and returns; no call checks for the downloaded archive or
    removes it. *)
Lemma archive_left_behind :
  install_flutter locked_world
  = ((preamble locked_world
        [ EUrlopen "https://storage.googleapis.com/flutter_infra_release/releases/releases_windows.json";
          EPrint (latest_version_line locked_world (JStr "3.38.5")) ]
      ++ [ EPrint ("   Local Version:         " ++ Colors.BOLD ++ "3.30.0"
                   ++ Colors.RESET);
           EPrint (warning_line "Version mismatch. Upgrading 3.30.0 -> 3.38.5...");
           EPrint downloading_line;
           EUrlretrieve (BASE_URL ++ "/" ++ WINDOWS_ARCHIVE)
             "flutter_3.38.5_archive.zip" ]
      ++ trace (retrieve (R := unit) (Stream 20000 [8192; 8192; 3616]%Z None)
                  download_reporthook)
      ++ [ download_finished_line;
           extracting_line "C:\flutter";
           EExists "C:\flutter";
           removing_line;
           EUnlink "C:\flutter\bin\dart.exe" false;
           EAccess "C:\flutter\bin\dart.exe" ]
      ++ removal_error_lines
           (Exn PermissionError
              "[WinError 32] The process cannot access the file because it is being used by another process"))%list,
     Returned tt)
  /\ result (retrieve (R := unit) (Stream 20000 [8192; 8192; 3616]%Z None)
               download_reporthook) = Normal tt
  /\ never removes_archive (trace (install_flutter locked_world))
  /\ never (fun e => match e with
                     | EExists "flutter_3.38.5_archive.zip" => true
                     | _ => false
                     end)
       (trace (install_flutter locked_world)).
Proof.
  split; [vm_compute; reflexivity |].
  split; [vm_compute; reflexivity |].
  split; vm_compute; repeat constructor.
Qed.

(** ** Percentages *)

Lemma percent_full (s : Z) :
  s <> 0%Z -> (100 * (inject_Z s / inject_Z s) == 100)%Q.
Proof.
  intro H. assert (Hq : ~ (inject_Z s == 0)%Q).
  { unfold Qeq. simpl. lia. }
  field. exact Hq.
Qed.

Lemma percent_le (a b s : Z) :
  (0 < s)%Z -> (a <= b)%Z ->
  (100 * (inject_Z a / inject_Z s) <= 100 * (inject_Z b / inject_Z s))%Q.
Proof.
  intros Hs Hab. apply Qmult_le_l; [reflexivity |].
  unfold Qdiv. apply Qmult_le_compat_r.
  - now rewrite <- Zle_Qle.
  - apply Qinv_le_0_compat. change 0%Q with (inject_Z 0). rewrite <- Zle_Qle. lia.
Qed.

Lemma hook_percent_mono (size j k : Z) :
  size <> 0%Z -> (0 <= j <= k)%Z ->
  (hook_percent size j <= hook_percent size k)%Q.
Proof.
  intros Hs Hjk. unfold hook_percent, BLOCK_SIZE.
  destruct (Z.ltb_spec (j * 8192) size) as [Hj | Hj];
    destruct (Z.ltb_spec (k * 8192) size) as [Hk | Hk]; try lia.
  - apply percent_le; lia.
  - apply percent_le; lia.
  - apply Qle_refl.
Qed.

Lemma percents_app (t u : list event) :
  percents (t ++ u) = (percents t ++ percents u)%list.
Proof.
  induction t as [| e t IH]; [reflexivity |].
  destruct e; cbn [app percents]; try exact IH. now rewrite IH.
Qed.

(** ** Progress of the download *)

Lemma overflow_between (n s : Z) :
  float_overflows s = false -> (0 <= n <= Z.abs s)%Z -> float_overflows n = false.
Proof.
  unfold float_overflows. intros Hs Hn.
  apply Z.leb_gt in Hs. apply Z.leb_gt. lia.
Qed.

Lemma reporthook_unusable {R : Type} (k size : Z) :
  usable_size size = false ->
  exists e, @download_reporthook R k BLOCK_SIZE size = ([], Raised e).
Proof.
  unfold usable_size, download_reporthook, draw_progress_bar. intro H.
  apply andb_false_iff in H. rewrite !negb_false_iff in H.
  destruct (_ <? _)%Z.
  - destruct H as [-> | H]; [eexists; reflexivity |].
    destruct (_ || _); [eexists; reflexivity |]. rewrite H. eexists. reflexivity.
  - destruct H as [-> | H]; [eexists; reflexivity |].
    destruct (_ || _); [eexists; reflexivity |]. rewrite H. eexists. reflexivity.
Qed.

Lemma reporthook_usable {R : Type} (k size : Z) :
  usable_size size = true -> (0 <= k)%Z ->
  exists t,
    @download_reporthook R k BLOCK_SIZE size = (t, Normal tt)
    /\ percents t = [hook_percent size k].
Proof.
  unfold usable_size. intros H Hk.
  apply andb_prop in H. rewrite !negb_true_iff in H. destruct H as [Hov Hz].
  unfold download_reporthook, hook_percent.
  destruct (Z.ltb_spec (k * BLOCK_SIZE) size) as [Hlt | Hge].
  - assert (Hd : float_overflows (k * BLOCK_SIZE) = false).
    { apply (overflow_between _ size Hov). unfold BLOCK_SIZE in *. lia. }
    unfold draw_progress_bar. rewrite Hov, Hd, Hz. cbn [orb bind emit].
    destruct (k * BLOCK_SIZE =? size)%Z; eexists; split; reflexivity.
  - unfold draw_progress_bar. rewrite Hov, Hz. cbn [orb bind emit].
    destruct (size =? size)%Z; eexists; split; reflexivity.
Qed.

Lemma read_blocks_usable {R : Type} (size read k : Z) (blocks : list Z) :
  usable_size size = true -> (0 <= k)%Z ->
  exists t,
    @read_blocks R download_reporthook size read k blocks
    = (t, Normal (read + total_length blocks)%Z)
    /\ percents t = map (hook_percent size) (block_numbers k blocks).
Proof.
  intros Hs. revert read k.
  induction blocks as [| b rest IH]; intros read k Hk;
    cbn [read_blocks block_numbers total_length fold_right map].
  - exists []. split; [| reflexivity]. unfold ret. now rewrite Z.add_0_r.
  - destruct (@reporthook_usable R (k + 1) size Hs ltac:(lia)) as (t1 & -> & Hp1).
    destruct (IH (read + b)%Z (k + 1)%Z ltac:(lia)) as (t2 & E2 & Hp2).
    cbn [bind]. rewrite E2. exists (t1 ++ t2)%list. split.
    + f_equal. f_equal. unfold total_length. lia.
    + now rewrite percents_app, Hp1, Hp2.
Qed.

(** The reports of a transfer: none when the declared size cannot be
    divided by, otherwise one per call of the hook. *)
Lemma retrieve_percents (size : Z) (blocks : list Z) (failure : option exn) :
  percents (trace (retrieve (R := unit) (Stream size blocks failure)
                     download_reporthook))
  = if usable_size size
    then map (hook_percent size) (0%Z :: block_numbers 0 blocks)
    else [].
Proof.
  cbn [retrieve]. destruct (usable_size size) eqn:Hs.
  - destruct (@reporthook_usable unit 0 size Hs ltac:(lia)) as (t0 & -> & Hp0).
    destruct (@read_blocks_usable unit size 0 0 blocks Hs ltac:(lia))
      as (t1 & E1 & Hp1).
    cbn [bind]. rewrite E1. cbn [bind].
    assert (Hrest : forall m : M unit unit, fst m = [] ->
              percents (trace (let (t', o) := m in ((t1 ++ t')%list, o)))
              = percents t1).
    { intros [t' o] Ht. cbn in Ht. subst t'. cbn. now rewrite app_nil_r. }
    set (tail := match failure with Some e => _ | None => _ end).
    assert (Htail : fst tail = []).
    { unfold tail. destruct failure; [reflexivity |].
      destruct (_ && _); reflexivity. }
    destruct tail as [t' o]. cbn in Htail. subst t'.
    cbn [trace fst]. rewrite app_nil_r, percents_app, Hp0, Hp1. reflexivity.
  - destruct (@reporthook_unusable unit 0 size Hs) as (e & ->). reflexivity.
Qed.

Lemma retrieve_completes (size : Z) (blocks : list Z) (failure : option exn) :
  result (retrieve (R := unit) (Stream size blocks failure) download_reporthook)
  = Normal tt ->
  usable_size size = true
  /\ ((size < 0)%Z \/ (size <= total_length blocks)%Z).
Proof.
  cbn [retrieve]. destruct (usable_size size) eqn:Hs.
  - destruct (@reporthook_usable unit 0 size Hs ltac:(lia)) as (t0 & -> & _).
    destruct (@read_blocks_usable unit size 0 0 blocks Hs ltac:(lia))
      as (t1 & E1 & _).
    cbn [bind]. rewrite E1. cbn [bind].
    destruct failure as [e |]; [discriminate |].
    destruct (Z.geb_spec size 0) as [Hge | Hlt];
      destruct (Z.ltb_spec (0 + total_length blocks) size) as [Hr | Hr];
      cbn [andb]; try discriminate; intros _; split; try reflexivity; lia.
  - destruct (@reporthook_unusable unit 0 size Hs) as (e & ->). discriminate.
Qed.

(** The causes of a failed transfer: the request or the local file, a
    failure of the stream, a body shorter than declared, a declared size
    of zero (on which the progress hook divides). *)
Lemma download_failure_causes (size : Z) (blocks : list Z) (failure : option exn)
    (e : exn) :
  download_fails (StartFails e)
  /\ download_fails (Stream size blocks (Some e))
  /\ ((0 <= size)%Z -> (total_length blocks < size)%Z ->
      download_fails (Stream size blocks failure))
  /\ download_fails (Stream 0 blocks failure).
Proof.
  assert (Hun : forall sz f, usable_size sz = false ->
                  download_fails (Stream sz blocks f)).
  { intros sz f Hs. unfold download_fails. cbn [retrieve].
    destruct (@reporthook_unusable unit 0 sz Hs) as (e0 & ->).
    now exists e0. }
  assert (Hus : forall sz f, usable_size sz = true ->
                  result (retrieve (R := unit) (Stream sz blocks f)
                            download_reporthook)
                  = match f with
                    | Some e1 => Raised e1
                    | None =>
                        if (sz >=? 0)%Z && (0 + total_length blocks <? sz)%Z
                        then Raised (Exn ContentTooShortError "retrieval incomplete")
                        else Normal tt
                    end).
  { intros sz f Hs. cbn [retrieve].
    destruct (@reporthook_usable unit 0 sz Hs ltac:(lia)) as (t0 & -> & _).
    destruct (@read_blocks_usable unit sz 0 0 blocks Hs ltac:(lia))
      as (t1 & E1 & _).
    cbn [bind]. rewrite E1. cbn [bind].
    destruct f as [e1 |]; [reflexivity |]. now destruct (_ && _). }
  split; [now exists e |]. split; [| split].
  - destruct (usable_size size) eqn:Hs; [| now apply Hun].
    exists e. now rewrite Hus.
  - intros H0 Hlt. destruct (usable_size size) eqn:Hs; [| now apply Hun].
    unfold download_fails. rewrite (Hus size failure Hs).
    destruct failure as [e1 |]; [now exists e1 |].
    destruct (Z.geb_spec size 0) as [_ | Hc]; [| lia].
    destruct (Z.ltb_spec (0 + total_length blocks) size) as [_ | Hc]; [| lia].
    eexists. reflexivity.
  - apply Hun. reflexivity.
Qed.

Lemma block_numbers_above (k : Z) (blocks : list Z) :
  Forall (fun j => (k < j)%Z) (block_numbers k blocks).
Proof.
  revert k. induction blocks as [| b rest IH]; intro k; cbn [block_numbers];
    constructor; [lia |].
  eapply Forall_impl; [| apply IH]. cbn. intros. lia.
Qed.

Lemma hook_percents_sorted (size k : Z) (blocks : list Z) :
  size <> 0%Z -> (0 <= k)%Z ->
  nondecreasing (map (hook_percent size) (k :: block_numbers k blocks)).
Proof.
  intros Hs. revert k.
  induction blocks as [| b rest IH]; intros k Hk; cbn [block_numbers map].
  - repeat constructor.
  - constructor; [apply (IH (k + 1)%Z); lia |].
    change (hook_percent size (k + 1) :: map (hook_percent size)
              (block_numbers (k + 1) rest))
      with (map (hook_percent size) ((k + 1)%Z :: block_numbers (k + 1) rest)).
    apply Forall_map.
    constructor; [apply hook_percent_mono; lia |].
    eapply Forall_impl; [| apply (block_numbers_above (k + 1))].
    cbn. intros j Hj. apply hook_percent_mono; lia.
Qed.

Lemma last_block_number (k : Z) (blocks : list Z) :
  List.last (k :: block_numbers k blocks) 0%Z
  = (k + Z.of_nat (List.length blocks))%Z.
Proof.
  revert k. induction blocks as [| b rest IH]; intro k.
  - cbn. lia.
  - cbn [block_numbers List.length].
    change (List.last (k :: (k + 1)%Z :: block_numbers (k + 1) rest) 0%Z)
      with (List.last ((k + 1)%Z :: block_numbers (k + 1) rest) 0%Z).
    rewrite IH. lia.
Qed.

Lemma total_length_bound (blocks : list Z) :
  Forall (fun b => (b <= BLOCK_SIZE)%Z) blocks ->
  (total_length blocks <= Z.of_nat (List.length blocks) * BLOCK_SIZE)%Z.
Proof.
  induction 1 as [| b rest Hb _ IH]; cbn [total_length fold_right List.length].
  - lia.
  - unfold total_length in IH. lia.
Qed.

Lemma last_map_Some {A : Type} (f : Z -> A) (l : list Z) (d : Z) :
  l <> [] -> List.last (map Some (map f l)) None = Some (f (List.last l d)).
Proof.
  induction l as [| x l IH]; [contradiction |]. intros _.
  destruct l as [| y l]; [reflexivity |].
  change (List.last (map Some (map f (x :: y :: l))) None)
    with (List.last (map Some (map f (y :: l))) None).
  change (List.last (x :: y :: l) d) with (List.last (y :: l) d).
  apply IH. discriminate.
Qed.

(** ** Progress of the extraction *)

Lemma percents_bind {R A B : Type} (m : M R A) (k : A -> M R B) :
  percents (trace (bind m k))
  = (percents (trace m)
     ++ match result m with
        | Normal a => percents (trace (k a))
        | _ => []
        end)%list.
Proof.
  rewrite trace_bind, percents_app. now destruct (result m).
Qed.

Lemma final_percent_app (t u : list event) (q : Q) :
  final_percent u = Some q -> final_percent (t ++ u) = Some q.
Proof.
  unfold final_percent. rewrite percents_app, map_app.
  generalize (map Some (percents t)) as l. generalize (map Some (percents u)) as l'.
  intros l' l H. induction l as [| x l IH]; [exact H |].
  cbn [app]. destruct (l ++ l')%list as [| y r] eqn:E.
  - destruct l; [| discriminate E]. cbn in E. subst l'. discriminate H.
  - exact IH.
Qed.

Lemma extract_members_sorted (parent_dir : string) (total i : Z) (ms : list member) :
  (0 < total)%Z -> (0 <= i)%Z ->
  nondecreasing (percents (trace (extract_members (R := unit) parent_dir total i ms)))
  /\ Forall (fun q => (100 * (inject_Z i / inject_Z total) <= q)%Q)
       (percents (trace (extract_members (R := unit) parent_dir total i ms))).
Proof.
  intro Ht. revert i. induction ms as [| m rest IH]; intros i Hi;
    cbn [extract_members].
  - split; constructor.
  - rewrite percents_bind. cbn [emit trace result fst snd percents app].
    rewrite percents_bind.
    destruct (extract_reply m) as [e |]; cbn [raise ret trace result fst snd percents app];
      [split; constructor |].
    rewrite percents_bind.
    destruct (IH (i + 1)%Z ltac:(lia)) as (IHs & IHb).
    assert (Hstep : (100 * (inject_Z i / inject_Z total)
                     <= 100 * (inject_Z (i + 1) / inject_Z total))%Q)
      by (apply percent_le; lia).
    assert (Hweak : Forall (fun q => (100 * (inject_Z i / inject_Z total) <= q)%Q)
              (percents (trace (extract_members (R := unit) parent_dir total
                                  (i + 1) rest)))).
    { eapply Forall_impl; [| exact IHb]. cbn. intros q Hq.
      eapply Qle_trans; eassumption. }
    destruct ((i mod 100 =? 0) || (i =? total - 1))%Z.
    + destruct (@draw_progress_bar_shape unit (i + 1) total "Extracting: " "" 30)
        as [(e & -> & _) | (p & tail & -> & Hp & _ & -> & _)];
        cbn [trace result fst snd percents app]; [split; constructor |].
      assert (Hw : percents (if (i + 1 =? total)%Z then [EWrite Text.LF] else [])
                   = []) by (destruct (i + 1 =? total)%Z; reflexivity).
      rewrite Hw, Hp. cbn [app]. split.
      * constructor; assumption.
      * constructor; assumption.
    + cbn [ret trace result fst snd percents app]. split; assumption.
Qed.

Lemma extract_members_final (parent_dir : string) (total i : Z) (ms : list member) :
  float_overflows total = false -> (0 <= i)%Z ->
  total = (i + Z.of_nat (List.length ms))%Z -> ms <> [] ->
  result (extract_members (R := unit) parent_dir total i ms) = Normal tt ->
  reaches_100 (trace (extract_members (R := unit) parent_dir total i ms)).
Proof.
  intro Hov. revert i. induction ms as [| m rest IH]; intros i Hi Ht Hne;
    [contradiction |].
  cbn [extract_members]. rewrite !result_bind, !trace_bind.
  cbn [emit trace result fst snd].
  destruct (extract_reply m) as [e |]; cbn [raise ret trace result fst snd];
    [discriminate |].
  cbn [List.length] in Ht.
  destruct rest as [| m' rest'].
  - (* the last member *)
    cbn [List.length] in Ht.
    assert (Hlast : (i =? total - 1)%Z = true) by (apply Z.eqb_eq; lia).
    rewrite Hlast, orb_true_r.
    assert (Hov' : float_overflows (i + 1) = false).
    { apply (overflow_between _ total Hov). lia. }
    unfold draw_progress_bar. rewrite Hov, Hov'.
    destruct (Z.eqb_spec total 0) as [Hz | Hz]; [lia |].
    assert (Heq : (i + 1 =? total)%Z = true) by (apply Z.eqb_eq; lia).
    rewrite Heq. cbn. intros _.
    eexists. split; [reflexivity |].
    replace (i + 1)%Z with total by lia. now apply percent_full.
  - intro Hr.
    assert (Hrest : result (extract_members (R := unit) parent_dir total (i + 1)
                              (m' :: rest')) = Normal tt).
    { destruct ((i mod 100 =? 0) || (i =? total - 1))%Z.
      - destruct (result (draw_progress_bar _ _ _ _ _)) as [[] | r | e];
          [exact Hr | discriminate | discriminate].
      - exact Hr. }
    destruct (IH (i + 1)%Z ltac:(lia) ltac:(cbn [List.length] in *; lia)
                ltac:(discriminate) Hrest) as (q & Hq & H100).
    exists q. split; [| exact H100].
    destruct ((i mod 100 =? 0) || (i =? total - 1))%Z.
    + destruct (result (draw_progress_bar (i + 1) total "Extracting: " "" 30))
        as [[] | r | e] eqn:Hd; [| discriminate Hr | discriminate Hr].
      do 3 apply final_percent_app. exact Hq.
    + cbn [ret trace result fst snd]. do 3 apply final_percent_app. exact Hq.
Qed.

Lemma extract_archive_trace (w : World) (k : archive_kind)
    (filename parent_dir : string) :
  extract_archive (R := unit) w k filename parent_dir
  = match archive w with
    | OpenFails e => ([EOpenArchive k filename], Raised e)
    | Members file_list =>
        (EOpenArchive k filename
         :: trace (extract_members (R := unit) parent_dir
                     (Z.of_nat (List.length file_list)) 0 file_list),
         result (extract_members (R := unit) parent_dir
                   (Z.of_nat (List.length file_list)) 0 file_list))
    end.
Proof.
  unfold extract_archive. cbn [bind emit].
  destruct (archive w) as [e | file_list]; [reflexivity |].
  now destruct (extract_members _ _ _ _).
Qed.

(** C7, as the code has it.  The percentages reported during a download
    never decrease, and so for an extraction.  A download that completes
    (every block read holding at most the block size) ends on a report
    of exactly 100.  An extraction that completes on an archive with at
    least one entry (their count within the range of a float) ends on a
    report of exactly 100, made for the last entry.  An archive without
    entries is opened and nothing else: its extraction completes without
    any report. *)
Theorem progress_reports (reply : download_reply) (w : World) (k : archive_kind)
    (filename parent_dir : string) :
  nondecreasing
    (percents (trace (retrieve (R := unit) reply download_reporthook)))
  /\ (whole_blocks reply ->
      result (retrieve (R := unit) reply download_reporthook) = Normal tt ->
      reaches_100 (trace (retrieve (R := unit) reply download_reporthook)))
  /\ nondecreasing
       (percents (trace (extract_archive (R := unit) w k filename parent_dir)))
  /\ (forall file_list,
        archive w = Members file_list -> file_list <> [] ->
        float_overflows (Z.of_nat (List.length file_list)) = false ->
        result (extract_archive (R := unit) w k filename parent_dir) = Normal tt ->
        reaches_100 (trace (extract_archive (R := unit) w k filename parent_dir)))
  /\ (archive w = Members [] ->
      extract_archive (R := unit) w k filename parent_dir
      = ([EOpenArchive k filename], Normal tt)).
Proof.
  split; [| split; [| split; [| split]]].
  - destruct reply as [e | size blocks failure]; [constructor |].
    rewrite retrieve_percents. destruct (usable_size size) eqn:Hs; [| constructor].
    apply hook_percents_sorted; [| lia].
    unfold usable_size in Hs. apply andb_prop in Hs. destruct Hs as [_ Hs].
    apply negb_true_iff, Z.eqb_neq in Hs. exact Hs.
  - destruct reply as [e | size blocks failure]; [discriminate |].
    intros Hb Hr. destruct (retrieve_completes size blocks failure Hr) as (Hs & Hsize).
    unfold reaches_100, final_percent. rewrite retrieve_percents, Hs.
    rewrite (last_map_Some (hook_percent size) _ 0%Z) by discriminate.
    rewrite last_block_number. eexists. split; [reflexivity |].
    unfold usable_size in Hs. apply andb_prop in Hs. destruct Hs as [_ Hz].
    apply negb_true_iff, Z.eqb_neq in Hz.
    pose proof (total_length_bound blocks Hb) as Hlen.
    unfold hook_percent.
    destruct (Z.ltb_spec ((0 + Z.of_nat (List.length blocks)) * BLOCK_SIZE) size)
      as [Hlt | _]; [| now apply percent_full].
    unfold BLOCK_SIZE in *. lia.
  - rewrite extract_archive_trace.
    destruct (archive w) as [e | file_list]; [constructor |].
    cbn [trace fst percents].
    destruct file_list as [| m rest]; [constructor |].
    apply extract_members_sorted; cbn [List.length]; lia.
  - intros file_list Ha Hne Hov. rewrite extract_archive_trace, Ha.
    cbn [trace result fst snd]. intro Hr.
    destruct (extract_members_final parent_dir _ 0 file_list Hov ltac:(lia)
                ltac:(lia) Hne Hr) as (q & Hq & H100).
    exists q. split; [| exact H100].
    now apply (final_percent_app [EOpenArchive k filename]).
  - intro Ha. rewrite extract_archive_trace, Ha. reflexivity.
Qed.

(** C7 fails as stated for an archive without entries: the extraction
    completes, and the whole run with it, but no percentage is reported
    for it, so its progress never reads 100. *)
Lemma empty_archive_reports_nothing :
  extract_archive (R := unit) empty_archive_world Zip
    "flutter_3.38.5_archive.zip" ("C:" ++ Text.BACKSLASH)
  = ([EOpenArchive Zip "flutter_3.38.5_archive.zip"], Normal tt)
  /\ final_percent
       (trace (extract_archive (R := unit) empty_archive_world Zip
                 "flutter_3.38.5_archive.zip" ("C:" ++ Text.BACKSLASH))) = None
  /\ result (install_flutter empty_archive_world) = Normal tt
  /\ In (EOpenArchive Zip "flutter_3.38.5_archive.zip")
        (trace (install_flutter empty_archive_world))
  /\ In extraction_complete_line (trace (install_flutter empty_archive_world))
  /\ only_download_bars (trace (install_flutter empty_archive_world)).
Proof.
  split; [reflexivity |]. split; [reflexivity |].
  split; [vm_compute; reflexivity |].
  split; [vm_compute; tauto |].
  split; [vm_compute; tauto |].
  vm_compute. repeat constructor.
Qed.

Lemma progress_reports_witness :
  whole_blocks (Stream 20000 [8192; 8192; 3616]%Z None)
  /\ reaches_100
       (trace (retrieve (R := unit) (Stream 20000 [8192; 8192; 3616]%Z None)
                 download_reporthook))
  /\ reaches_100
       (trace (extract_archive (R := unit) upgrade_world TarXz
                 "flutter_3.38.5_archive.tar.xz" "/home/dev/development")).
Proof.
  assert (Hb : whole_blocks (Stream 20000 [8192; 8192; 3616]%Z None)).
  { repeat constructor; discriminate. }
  destruct (progress_reports (Stream 20000 [8192; 8192; 3616]%Z None)
              upgrade_world TarXz "flutter_3.38.5_archive.tar.xz"
              "/home/dev/development") as (_ & Hd & _ & He & _).
  split; [exact Hb |]. split.
  - apply Hd; [exact Hb | vm_compute; reflexivity].
  - apply (He [ Member "flutter/" None; Member "flutter/bin/flutter" None ]);
      [reflexivity | discriminate | vm_compute; reflexivity | vm_compute; reflexivity].
Defined.

(** * Further properties of the script *)

(** ** The version the probe reports *)

Lemma match_version_exact (s v : string) :
  match_version s = Some v ->
  version_token v /\ exists rest, s = v ++ rest /\ stops is_digit rest.
Proof.
  unfold match_version.
  destruct (plus is_digit s) as [[major r1] |] eqn:H1; [| discriminate].
  destruct (Text.strip_prefix "." r1) as [r2 |] eqn:H2; [| discriminate].
  destruct (plus is_digit r2) as [[minor r3] |] eqn:H3; [| discriminate].
  destruct (Text.strip_prefix "." r3) as [r4 |] eqn:H4; [| discriminate].
  destruct (plus is_digit r4) as [[patch r5] |] eqn:H5; [| discriminate].
  intro H. injection H as <-.
  apply plus_sound in H1, H3, H5.
  apply strip_prefix_sound in H2, H4.
  destruct H1 as (E1 & N1 & A1 & _), H3 as (E3 & N3 & A3 & _),
           H5 as (E5 & N5 & A5 & S5).
  split.
  - exists major, minor, patch. repeat split; assumption.
  - exists r5. split; [| exact S5]. subst s r1 r2 r3 r4.
    repeat (rewrite !append_assoc; simpl). reflexivity.
Qed.

Lemma match_here_exact (s v : string) :
  match_here s = Some v ->
  exists ws rest, s = "Flutter" ++ ws ++ v ++ rest
                  /\ ws <> "" /\ Text.all is_space ws = true
                  /\ version_token v /\ stops is_digit rest.
Proof.
  unfold match_here.
  destruct (Text.strip_prefix "Flutter" s) as [r |] eqn:H1; [| discriminate].
  destruct (plus is_space r) as [[ws r'] |] eqn:H2; [| discriminate].
  intro H. apply match_version_exact in H. destruct H as (Hv & rest & -> & Hs).
  apply strip_prefix_sound in H1. apply plus_sound in H2.
  destruct H2 as (-> & N & A & _).
  exists ws, rest. repeat split; assumption.
Qed.

Lemma re_search_reported (s v : string) :
  re_search s = Some v -> reported_version s v.
Proof.
  induction s as [| c s IH]; cbn [re_search].
  - simpl. discriminate.
  - destruct (match_here (String c s)) as [v' |] eqn:H.
    + intro E. injection E as ->. apply match_here_exact in H.
      destruct H as (ws & rest & E & N & A & Hv & Hs).
      exists "", ws, rest. rewrite E. repeat split; try assumption.
      intros b1 b2 Hb Hne. destruct b1; destruct b2; try discriminate Hb.
      contradiction.
    + intro E. destruct (IH E) as (before & ws & rest & -> & N & A & Hv & Hs & Hl).
      exists (String c before), ws, rest. repeat split; try assumption.
      intros b1 b2 Hb Hne. destruct b1 as [| c1 b1].
      * cbn [append] in Hb. subst b2. exact H.
      * cbn [append] in Hb. injection Hb as -> Hb. exact (Hl b1 b2 Hb Hne).
Qed.

(** X1. The local version probe never raises.  It answers "absent"
    exactly in its failure cases (the process cannot be run, it exits
    with a non-zero status, or its output holds no match of the
    pattern); otherwise the process exited with status 0 and the answer
    is the three-part number of the leftmost match of the pattern in its
    output, taken with all its digits. *)
Theorem probe_answer (w : World) :
  (exists r, result (get_installed_version (R := unit) w) = Normal r)
  /\ (result (get_installed_version (R := unit) w) = Normal None
      <-> probe_failure w)
  /\ (forall v,
        result (get_installed_version (R := unit) w) = Normal (Some v)
        <-> exists stdout,
              flutter_version w = Exited 0 stdout /\ reported_version stdout v).
Proof.
  assert (Hcomplete : forall stdout v, reported_version stdout v ->
            exists v', re_search stdout = Some v').
  { intros stdout v (before & ws & rest & -> & N & A & Hv & _).
    destruct Hv as (major & minor & patch & -> & Hv).
    apply re_search_complete.
    exists before, ws, major, minor, patch, rest. split; [| tauto].
    repeat (rewrite !append_assoc; simpl). reflexivity. }
  assert (Hunique : forall stdout v v', reported_version stdout v ->
            re_search stdout = Some v' -> v' = v).
  { intros stdout v v' (before & ws & rest & -> & N & A & Hv & Hs & Hl).
    induction before as [| c before IH]; intro Hr.
    - destruct Hv as (major & minor & patch & -> & N1 & A1 & N2 & A2 & N3 & A3).
      change (re_search ("Flutter" ++ ws ++ (major ++ "." ++ minor ++ "." ++ patch) ++ rest)
              = Some v') in Hr.
      assert (Hm : match_here ("Flutter" ++ ws ++ (major ++ "." ++ minor ++ "." ++ patch) ++ rest)
                   = Some (major ++ "." ++ minor ++ "." ++ patch)).
      { unfold match_here. rewrite strip_prefix_app.
        assert (E : (major ++ "." ++ minor ++ "." ++ patch) ++ rest
                    = major ++ "." ++ minor ++ "." ++ patch ++ rest)
          by (repeat (rewrite !append_assoc; simpl); reflexivity).
        rewrite E.
        rewrite (plus_app is_space ws _ N A (stops_space_digits major _ N1 A1)).
        unfold match_version.
        rewrite (plus_app is_digit major _ N1 A1 (stops_digit_dot _)).
        rewrite strip_prefix_app.
        rewrite (plus_app is_digit minor _ N2 A2 (stops_digit_dot _)).
        rewrite strip_prefix_app.
        now rewrite (plus_app is_digit patch rest N3 A3 Hs). }
      rewrite (re_search_here _ _ Hm) in Hr. now injection Hr as <-.
    - change (re_search (String c (before ++ "Flutter" ++ ws ++ v ++ rest))
              = Some v') in Hr.
      cbn [re_search] in Hr.
      pose proof (Hl "" (String c before) eq_refl ltac:(discriminate)) as Hn.
      change (match_here (String c (before ++ "Flutter" ++ ws ++ v ++ rest))
              = None) in Hn.
      rewrite Hn in Hr.
      apply IH; [| exact Hr].
      intros b1 b2 Hb Hne. apply (Hl (String c b1) b2); [| exact Hne].
      cbn [append]. now rewrite Hb. }
  destruct (probe_shape w) as (r & Er & _).
  split; [exists r; now rewrite Er |]. split.
  - split; [| intro H; now rewrite (probe_absent w H)].
    unfold get_installed_version, subprocess_run.
    destruct (flutter_version w) as [e | returncode stdout] eqn:Hf.
    + intros _. now apply (unexpected_exception w e).
    + destruct (Z.eqb_spec returncode 0) as [-> | Hne].
      * cbn. destruct (re_search stdout) as [v |] eqn:Hs; cbn; [discriminate |].
        intros _. apply (output_without_version w stdout Hf).
        intros Hm. destruct (re_search_complete stdout Hm) as (v & Hv). congruence.
      * intros _. now apply (nonzero_exit w returncode stdout).
  - intro v. split.
    + unfold get_installed_version, subprocess_run.
      destruct (flutter_version w) as [e | returncode stdout] eqn:Hf.
      * cbn. destruct (is_FileNotFoundError e); [discriminate |].
        destruct (is_CalledProcessError e); discriminate.
      * destruct (Z.eqb_spec returncode 0) as [-> | Hne]; [| discriminate].
        cbn. destruct (re_search stdout) as [v' |] eqn:Hs; cbn; [| discriminate].
        intro E. injection E as ->. exists stdout. split; [reflexivity |].
        now apply re_search_reported.
    + intros (stdout & Hf & Hrep).
      destruct (Hcomplete stdout v Hrep) as (v' & Hs).
      assert (v' = v) by (eapply Hunique; eassumption). subst v'.
      unfold get_installed_version, subprocess_run. rewrite Hf. cbn.
      now rewrite Hs.
Qed.

(** ** The progress bar *)

Lemma append_empty_r (s : string) : s ++ "" = s.
Proof. induction s as [| c s IH]; cbn [append]; [reflexivity | now rewrite IH]. Qed.

(** X2. For a count within its total, the progress bar is one line of
    [length] cells: the filled part is the rounded-down share
    [length * current / total] of them, it is full exactly when the count
    has reached the total (or the bar has no cell), the percentage lies
    between 0 and 100, and the line is closed by a line feed exactly when
    the count equals the total.  Nothing is raised. *)
Theorem progress_bar_geometry (current total length : Z) (prefix suffix : string) :
  (0 <= current <= total)%Z -> (0 < total)%Z -> (0 <= length)%Z ->
  float_overflows total = false ->
  exists p,
    draw_progress_bar (R := unit) current total prefix suffix length
    = (EProgress p :: (if (current =? total)%Z then [EWrite Text.LF] else []),
       Normal tt)
    /\ bar_prefix p = prefix /\ bar_suffix p = suffix
    /\ bar_text p = Text.repeat FILL (bar_filled p)
                    ++ Text.repeat "-" (length - bar_filled p)
    /\ (0 <= bar_filled p <= length)%Z
    /\ (bar_filled p * total <= length * current < (bar_filled p + 1) * total)%Z
    /\ (bar_filled p = length <-> current = total \/ length = 0%Z)
    /\ (0 <= bar_percent p)%Q /\ (bar_percent p <= 100)%Q.
Proof.
  intros Hc Ht Hl Ho.
  assert (Hoc : float_overflows current = false)
    by (apply (overflow_between current total Ho); lia).
  unfold draw_progress_bar. rewrite Ho, Hoc. cbn [orb].
  destruct (Z.eqb_spec total 0) as [-> | _]; [lia |].
  eexists. split.
  { cbn [bind emit ret]. destruct (current =? total)%Z; reflexivity. }
  cbn [bar_prefix bar_suffix bar_text bar_filled bar_percent].
  pose proof (Z.div_mod (length * current) total ltac:(lia)) as Hdm.
  pose proof (Z.mod_pos_bound (length * current) total Ht) as Hm.
  set (f := (length * current / total)%Z) in *.
  assert (Hf : (0 <= f <= length)%Z) by nia.
  split; [reflexivity |]. split; [reflexivity |]. split; [reflexivity |].
  split; [exact Hf |]. split; [nia |]. split; [split |]; [| | split].
  - intro E. destruct (Z.eq_dec length 0) as [-> | Hn]; [now right | left]. nia.
  - intros [-> | ->]; [| lia].
    unfold f. now rewrite Z.div_mul by lia.
  - rewrite <- (Qmult_0_r 100). apply Qmult_le_l; [reflexivity |].
    apply Qle_shift_div_l; [unfold Qlt; cbn; lia |].
    rewrite Qmult_0_l. unfold Qle; cbn; lia.
  - apply Qle_trans with (100 * (inject_Z total / inject_Z total))%Q.
    + apply percent_le; lia.
    + rewrite (percent_full total ltac:(lia)). apply Qle_refl.
Qed.

Lemma progress_bar_geometry_witness :
  (0 <= 3 <= 7)%Z /\ (0 < 7)%Z /\ (0 <= 30)%Z /\ float_overflows 7 = false
  /\ exists p,
       draw_progress_bar (R := unit) 3 7 "Extracting: " "" 30
       = ([EProgress p], Normal tt) /\ bar_filled p = 12%Z.
Proof.
  assert (H1 : (0 <= 3 <= 7)%Z) by lia.
  assert (H2 : (0 < 7)%Z) by lia.
  assert (H3 : (0 <= 30)%Z) by lia.
  assert (H4 : float_overflows 7 = false) by (vm_compute; reflexivity).
  split; [exact H1 |]. split; [exact H2 |]. split; [exact H3 |].
  split; [exact H4 |].
  destruct (progress_bar_geometry 3 7 30 "Extracting: " "" H1 H2 H3 H4)
    as (p & E & _ & _ & _ & _ & Hb & _).
  exists p. split; [exact E |]. lia.
Defined.

(** ** Downloads of an undeclared or empty length *)

(** X3. A response that declares a length of zero makes the first call
    of the progress hook divide by zero, before any block is read: the
    download step prints "Download failed: float division by zero" and
    ends the run, whatever the server sends afterwards. *)
Theorem zero_length_download_fails (w : World) (download_url filename : string)
    (blocks : list Z) (failure : option exn) :
  transfer w download_url filename = Stream 0 blocks failure ->
  download_step w download_url filename
  = ([ EPrint downloading_line;
       EUrlretrieve download_url filename;
       EPrint (error_line "Download failed: float division by zero") ],
     Returned tt).
Proof.
  intro H. unfold download_step, urlretrieve. rewrite H.
  assert (E : download_reporthook (R := unit) 0 BLOCK_SIZE 0
              = ([], Raised (Exn ZeroDivisionError "float division by zero")))
    by (vm_compute; reflexivity).
  cbn [retrieve]. cbn [bind emit print_step print]. rewrite E. reflexivity.
Qed.

Lemma zero_length_download_fails_witness :
  transfer zero_length_world "u" "f" = Stream 0 [] None
  /\ download_step zero_length_world "u" "f"
     = ([ EPrint downloading_line;
          EUrlretrieve "u" "f";
          EPrint (error_line "Download failed: float division by zero") ],
        Returned tt).
Proof.
  split; [reflexivity |].
  exact (zero_length_download_fails zero_length_world "u" "f" [] None eq_refl).
Defined.

(** X4. When the declared length is negative (no length was declared),
    every call of the progress hook draws the completed bar: all cells
    filled, 100 percent, the word "Complete" and a line feed; and a
    transfer whose stream does not fail is accepted whatever the number
    of bytes received. *)
Theorem undeclared_length_reports_complete
    (block_num block_size total_size : Z) (blocks : list Z) :
  (total_size < 0)%Z -> (0 <= block_num * block_size)%Z ->
  float_overflows total_size = false ->
  (exists p,
     download_reporthook (R := unit) block_num block_size total_size
     = ([EProgress p; EWrite Text.LF], Normal tt)
     /\ bar_suffix p = "Complete" /\ bar_filled p = 30%Z
     /\ bar_text p = Text.repeat FILL 30
     /\ (bar_percent p == 100)%Q)
  /\ result (retrieve (R := unit) (Stream total_size blocks None)
               download_reporthook) = Normal tt.
Proof.
  intros Hs Hd Ho. split.
  - unfold download_reporthook.
    destruct (Z.ltb_spec (block_num * block_size) total_size) as [Hlt | _]; [lia |].
    unfold draw_progress_bar. rewrite Ho. cbn [orb].
    destruct (Z.eqb_spec total_size 0) as [-> | Hne]; [lia |].
    rewrite Z.eqb_refl. eexists. split; [reflexivity |].
    cbn [bar_suffix bar_filled bar_text bar_percent].
    rewrite Z.div_mul by exact Hne.
    split; [reflexivity |]. split; [reflexivity |]. split.
    + rewrite Z.sub_diag. change (Text.repeat "-" 0) with "". apply append_empty_r.
    + now apply percent_full.
  - assert (Hu : usable_size total_size = true).
    { unfold usable_size. rewrite Ho.
      destruct (Z.eqb_spec total_size 0); [lia | reflexivity]. }
    cbn [retrieve].
    destruct (@reporthook_usable unit 0 total_size Hu ltac:(lia)) as (t0 & -> & _).
    destruct (@read_blocks_usable unit total_size 0 0 blocks Hu ltac:(lia))
      as (t1 & E1 & _).
    cbn [bind]. rewrite E1. cbn [bind].
    destruct (Z.geb_spec total_size 0) as [Hge | _]; [lia |]. reflexivity.
Qed.

Lemma undeclared_length_reports_complete_witness :
  (-1 < 0)%Z /\ (0 <= 2 * 8192)%Z /\ float_overflows (-1) = false
  /\ result (retrieve (R := unit) (Stream (-1) [8192; 100]%Z None)
               download_reporthook) = Normal tt.
Proof.
  assert (H1 : (-1 < 0)%Z) by lia.
  assert (H2 : (0 <= 2 * 8192)%Z) by lia.
  assert (H3 : float_overflows (-1) = false) by (vm_compute; reflexivity).
  split; [exact H1 |]. split; [exact H2 |]. split; [exact H3 |].
  exact (proj2 (undeclared_length_reports_complete 2 8192 (-1) [8192; 100]%Z
                  H1 H2 H3)).
Defined.

(** ** The calls of each step *)

Lemma never_try_finally {R A : Type} (p : event -> bool) (body : M R A)
    (cleanup : M R unit) :
  never p (trace body) -> never p (trace cleanup) ->
  never p (trace (try_finally body cleanup)).
Proof.
  destruct body as [t o], cleanup as [t' o']. cbn. apply never_app.
Qed.

Lemma bar_output_within (q : event -> bool) (t : list event) :
  (forall p, q (EProgress p) = true) -> (forall s, q (EWrite s) = true) ->
  never (other_than bar_output) t -> never (other_than q) t.
Proof.
  intros Hp Hw. apply never_weaken. intros e. unfold other_than.
  destruct e; cbn; try discriminate; intros _; now rewrite ?Hp, ?Hw.
Qed.

Lemma download_step_calls (w : World) (download_url filename : string) :
  never (other_than download_call) (trace (download_step w download_url filename)).
Proof.
  unfold download_step, urlretrieve, print_step, print_success, print_error, print.
  apply never_bind; [apply never_emit; reflexivity | intros _].
  apply never_try_except.
  - apply never_bind; [| intros _; apply never_emit; reflexivity].
    apply never_bind; [apply never_emit; reflexivity | intros _].
    apply bar_output_within; try reflexivity. apply retrieve_only_bar.
  - constructor; [| constructor]. intro e. cbn [snd].
    apply never_bind; [apply never_emit; reflexivity | intros _; constructor].
Qed.

Lemma clean_old_install_calls (w : World) (current_os install_path : string) :
  never (other_than removal_call)
    (trace (clean_old_install w current_os install_path)).
Proof.
  unfold clean_old_install, print_warning, print_error, print.
  apply never_bind; [apply never_emit; reflexivity | intros _].
  destruct (install_dir w) as [content |]; [| constructor].
  apply never_bind; [apply never_emit; reflexivity | intros _].
  apply never_try_except.
  - rewrite rmtree_plan, run_plan_spec. apply plan_events_calls.
  - constructor; [| constructor]. intro e. cbn [snd]. repeat constructor.
Qed.

Lemma extract_members_calls (parent_dir : string) (total i : Z) (ms : list member) :
  never (other_than extraction_call)
    (trace (extract_members (R := unit) parent_dir total i ms)).
Proof.
  revert i. induction ms as [| m ms IH]; intro i; cbn [extract_members];
    [constructor |].
  apply never_bind; [apply never_emit; reflexivity | intros _].
  apply never_bind; [destruct (extract_reply m); constructor | intros _].
  apply never_bind; [| intros _; apply IH].
  destruct (_ || _)%bool; [| constructor].
  apply bar_output_within; try reflexivity. apply draw_progress_bar_only_bar.
Qed.

Lemma extract_archive_calls (w : World) (k : archive_kind)
    (filename parent_dir : string) :
  never (other_than extraction_call)
    (trace (extract_archive (R := unit) w k filename parent_dir)).
Proof.
  unfold extract_archive.
  apply never_bind; [apply never_emit; reflexivity | intros _].
  destruct (archive w); [constructor | apply extract_members_calls].
Qed.

Lemma remove_archive_calls (w : World) (filename : string) :
  never (other_than extraction_call)
    (trace (remove_archive (R := unit) w filename)).
Proof.
  unfold remove_archive, os_result.
  destruct (archive_exists w), (remove_reply w); repeat constructor.
Qed.

Lemma extraction_step_calls (w : World)
    (current_os install_path filename : string) :
  never (other_than extraction_call)
    (trace (extraction_step w current_os install_path filename)).
Proof.
  unfold extraction_step, print_success, print_error, print.
  apply never_bind; [apply never_emit; reflexivity | intros _].
  apply never_bind.
  { unfold os_result.
    destruct (negb (parent_exists w)), (makedirs_reply w); repeat constructor. }
  intros _. apply never_try_finally; [| apply remove_archive_calls].
  apply never_try_except.
  - apply never_bind; [| intros _; apply never_emit; reflexivity].
    destruct (Text.endswith ".zip" filename); apply extract_archive_calls.
  - constructor; [| constructor]. intro e. cbn [snd]. repeat constructor.
Qed.

Lemma path_handling_calls (w : World) (current_os install_path : string) :
  never (other_than advice_call)
    (trace (path_handling (R := unit) w current_os install_path)).
Proof.
  unfold path_handling, print_step, print_success, print_warning, print.
  destruct (String.eqb current_os "Windows"); [destruct (Text.contains _ _) |];
    repeat constructor.
Qed.

Lemma path_handling_falls_through (w : World) (current_os install_path : string) :
  result (path_handling (R := unit) w current_os install_path) = Normal tt.
Proof.
  unfold path_handling, print_step, print_success, print_warning, print.
  destruct (String.eqb current_os "Windows"); [destruct (Text.contains _ _) |];
    reflexivity.
Qed.

(** X5. Each step of the installation keeps to its own calls: the
    download step only prints, draws its bar and calls [urlretrieve]; the
    removal of the old installation only prints, tests paths and deletes
    or re-permits them (it never touches the network or the archive);
    the extraction step only prints, draws its bar, tests paths, creates
    the parent directory, reads the archive, extracts and removes the
    archive file (it never deletes a file or directory of an
    installation); the PATH step only prints and reads the environment. *)
Theorem steps_keep_to_their_calls (w : World)
    (current_os install_path download_url filename : string) :
  never (other_than download_call) (trace (download_step w download_url filename))
  /\ never (other_than removal_call)
       (trace (clean_old_install w current_os install_path))
  /\ never (other_than extraction_call)
       (trace (extraction_step w current_os install_path filename))
  /\ never (other_than advice_call)
       (trace (path_handling (R := unit) w current_os install_path)).
Proof.
  split; [apply download_step_calls |].
  split; [apply clean_old_install_calls |].
  split; [apply extraction_step_calls | apply path_handling_calls].
Qed.

(** ** How the steps follow each other *)

(** The installation steps run in order, each one only when the one
    before fell through. *)
Lemma install_steps_phases (w : World) (install_path download_url : string)
    (latest_version : json) :
  install_steps w (get_os w) install_path download_url latest_version
  = ((trace (download_step w download_url (archive_name w latest_version))
      ++ match result (download_step w download_url
                         (archive_name w latest_version)) with
         | Normal _ =>
             extracting_line install_path
             :: trace (clean_old_install w (get_os w) install_path)
             ++ match result (clean_old_install w (get_os w) install_path) with
                | Normal _ =>
                    trace (extraction_step w (get_os w) install_path
                             (archive_name w latest_version))
                    ++ match result (extraction_step w (get_os w) install_path
                                       (archive_name w latest_version)) with
                       | Normal _ =>
                           trace (path_handling (R := unit) w (get_os w)
                                    install_path)
                       | _ => []
                       end
                | _ => []
                end
         | _ => []
         end)%list,
     match result (download_step w download_url
                     (archive_name w latest_version)) with
     | Normal _ =>
         match result (clean_old_install w (get_os w) install_path) with
         | Normal _ =>
             match result (extraction_step w (get_os w) install_path
                             (archive_name w latest_version)) with
             | Normal _ => Normal tt
             | o => o
             end
         | o => o
         end
     | o => o
     end).
Proof.
  unfold install_steps. fold (archive_name w latest_version).
  pose proof (path_handling_falls_through w (get_os w) install_path) as Hph.
  destruct (download_step w download_url (archive_name w latest_version))
    as [t1 [[] | [] | e1]];
    destruct (clean_old_install w (get_os w) install_path) as [t2 [[] | [] | e2]];
    destruct (extraction_step w (get_os w) install_path
                (archive_name w latest_version)) as [t3 [[] | [] | e3]];
    destruct (path_handling w (get_os w) install_path) as [t4 o4];
    cbn [result snd] in Hph; subst;
    unfold print_step, print, extracting_line, step_line;
    cbn [bind emit trace result fst snd app]; rewrite ?app_nil_r; reflexivity.
Qed.

Lemma try_except_any_returns {R A : Type} (body : M R A)
    (handler : exn -> M R A) (e : exn) :
  (forall x e', result (handler x) <> Raised e') ->
  result (try_except body [ (any_exception, handler) ]) <> Raised e.
Proof.
  intros Hh. destruct body as [t [a | r | x]]; cbn; try discriminate.
  specialize (Hh x e). destruct (handler x) as [t' o]. exact Hh.
Qed.

Lemma download_step_outcome (w : World) (download_url filename : string) :
  match result (download_step w download_url filename) with
  | Normal _ =>
      result (retrieve (R := unit) (transfer w download_url filename)
                download_reporthook) = Normal tt
  | Returned _ =>
      exists e, result (retrieve (R := unit) (transfer w download_url filename)
                          download_reporthook) = Raised e
  | Raised _ => False
  end.
Proof.
  unfold download_step, urlretrieve, print_step, print_success, print_error, print.
  destruct (retrieve (transfer w download_url filename) download_reporthook)
    as [t [[] | [] | e]] eqn:E; cbn; try reflexivity.
  - assert (H : result (retrieve (R := unit) (transfer w download_url filename)
                          download_reporthook) <> Returned tt).
    { destruct (transfer w download_url filename) as [x | size blocks failure];
        [discriminate |].
      cbn [retrieve]. destruct (usable_size size) eqn:Hs.
      - destruct (@reporthook_usable unit 0 size Hs ltac:(lia)) as (t0 & -> & _).
        destruct (@read_blocks_usable unit size 0 0 blocks Hs ltac:(lia))
          as (t1 & E1 & _).
        cbn [bind]. rewrite E1. cbn [bind].
        destruct failure; [discriminate |]. destruct (_ && _); discriminate.
      - destruct (@reporthook_unusable unit 0 size Hs) as (x & ->). discriminate. }
    rewrite E in H. now contradiction H.
  - now exists e.
Qed.

(** The step "Clean old install" catches every [OSError]: what leaves
    it as an exception is the [TypeError] of the handler's
    [os.open(path)]. *)
Lemma clean_old_install_outcome (w : World) (current_os install_path : string)
    (e : exn) :
  result (clean_old_install w current_os install_path) = Raised e ->
  e = MISSING_FLAGS.
Proof.
  unfold clean_old_install, print_warning, print_error, print.
  destruct (install_dir w) as [content |]; [| discriminate].
  rewrite rmtree_plan, run_plan_spec.
  destruct (plan_error _) as [x |] eqn:E; cbn; [| discriminate].
  destruct (plan_error_class _ _ E) as [Hos | (-> & _)].
  - rewrite Hos. discriminate.
  - cbn. intro H. now injection H as <-.
Qed.

(** ** The extraction and its clean-up *)

Lemma draw_progress_bar_within {R : Type} (current total : Z)
    (prefix suffix : string) (length : Z) :
  (0 <= current <= total)%Z -> (0 < total)%Z -> float_overflows total = false ->
  result (@draw_progress_bar R current total prefix suffix length) = Normal tt.
Proof.
  intros Hc Ht Ho.
  destruct (@draw_progress_bar_shape R current total prefix suffix length)
    as [(e & _ & H) | (p & tail & -> & _)]; [| reflexivity].
  rewrite Ho, (overflow_between current total Ho) in H by lia.
  destruct (Z.eqb_spec total 0); [lia | discriminate].
Qed.

Lemma extract_members_outcome (parent_dir : string) (total i : Z)
    (ms : list member) (r : unit) :
  result (extract_members (R := unit) parent_dir total i ms) <> Returned r.
Proof.
  revert i. induction ms as [| m ms IH]; intro i; cbn [extract_members];
    [discriminate |].
  rewrite result_bind. cbn [emit result snd]. rewrite result_bind.
  destruct (extract_reply m); cbn [raise ret result snd]; [discriminate |].
  rewrite result_bind. destruct (_ || _)%bool; [| apply IH].
  destruct (@draw_progress_bar_shape unit (i + 1) total "Extracting: " "" 30)
    as [(e & -> & _) | (p & tail & -> & _)]; cbn [result snd];
    [discriminate | apply IH].
Qed.

Lemma extract_archive_outcome (w : World) (k : archive_kind)
    (filename parent_dir : string) (r : unit) :
  result (extract_archive (R := unit) w k filename parent_dir) <> Returned r.
Proof.
  rewrite extract_archive_trace. destruct (archive w); [discriminate |].
  apply extract_members_outcome.
Qed.

Lemma extraction_outcomes_aux (w : World)
    (current_os install_path filename : string) :
  parent_exists w = true \/ makedirs_reply w = None ->
  extraction_step w current_os install_path filename
  = ((parent_calls w (dirname current_os install_path)
      ++ trace (extract_archive (R := unit) w (archive_format filename) filename
                  (dirname current_os install_path))
      ++ extraction_report
           (result (extract_archive (R := unit) w (archive_format filename)
                      filename (dirname current_os install_path)))
      :: cleanup_calls w filename)%list,
     match result (extract_archive (R := unit) w (archive_format filename)
                     filename (dirname current_os install_path)) with
     | Raised _ => Returned tt
     | _ => Normal tt
     end)
  /\ forall e, result (extraction_step w current_os install_path filename)
               <> Raised e.
Proof.
  intro Hp.
  assert (E : extraction_step w current_os install_path filename = ((parent_calls w (dirname current_os install_path)
      ++ trace (extract_archive (R := unit) w (archive_format filename) filename
                  (dirname current_os install_path))
      ++ extraction_report
           (result (extract_archive (R := unit) w (archive_format filename)
                      filename (dirname current_os install_path)))
      :: cleanup_calls w filename)%list,
     match result (extract_archive (R := unit) w (archive_format filename)
                     filename (dirname current_os install_path)) with
     | Raised _ => Returned tt
     | _ => Normal tt
     end)).
  {
  unfold extraction_step, archive_format, parent_calls, cleanup_calls,
    extraction_report, remove_archive, os_result, print_success, print_error,
    print, success_line, error_line.
  assert (Hmk :
    (if negb (parent_exists w)
     then bind (emit (EMakedirs (dirname current_os install_path)))
            (fun _ => match makedirs_reply w with
                      | None => ret tt
                      | Some e => raise (exn_of_os e)
                      end)
     else ret tt)
    = ((if parent_exists w then []
        else [EMakedirs (dirname current_os install_path)]),
       @Normal unit unit tt)).
  { destruct Hp as [-> | Hm]; [reflexivity |].
    rewrite Hm. destruct (parent_exists w); reflexivity. }
  rewrite Hmk. clear Hmk.
  destruct (Text.endswith ".zip" filename);
    (match goal with
     | |- context [extract_archive w ?k filename ?d] =>
         pose proof (extract_archive_outcome w k filename d tt) as Hr
     end;
     destruct (extract_archive w _ filename (dirname current_os install_path))
       as [t [[] | [] | e]]; [| now contradiction Hr |];
     destruct (parent_exists w), (archive_exists w), (remove_reply w);
     cbn [bind emit ret raise return_ try_except try_finally select any_exception
          trace result fst snd app];
     rewrite ?app_nil_r; rewrite <- ?app_assoc; reflexivity). }
  split; [exact E |]. intro e. rewrite E. cbn [result snd].
  destruct (result (extract_archive w (archive_format filename) filename
                      (dirname current_os install_path))); discriminate.
Qed.

(** X6. Once the parent directory is there, the extraction step always
    ends in the same way: after the calls of the extraction it prints
    "Extraction complete." or, when opening the archive or extracting a
    member raised, "Extraction failed: " with the error, and in both
    cases it then tests for the archive file and removes it when it is
    there.  A failed extraction ends the run by a return; an error of
    the removal of the archive changes nothing. *)
Theorem extraction_outcomes (w : World)
    (current_os install_path filename : string) :
  parent_exists w = true \/ makedirs_reply w = None ->
  extraction_step w current_os install_path filename
  = ((parent_calls w (dirname current_os install_path)
      ++ trace (extract_archive (R := unit) w (archive_format filename) filename
                  (dirname current_os install_path))
      ++ extraction_report
           (result (extract_archive (R := unit) w (archive_format filename)
                      filename (dirname current_os install_path)))
      :: cleanup_calls w filename)%list,
     match result (extract_archive (R := unit) w (archive_format filename)
                     filename (dirname current_os install_path)) with
     | Raised _ => Returned tt
     | _ => Normal tt
     end)
  /\ forall r, result (extract_archive (R := unit) w (archive_format filename)
                         filename (dirname current_os install_path))
               <> Returned r.
Proof.
  intro Hp. split; [| apply extract_archive_outcome].
  exact (proj1 (extraction_outcomes_aux w current_os install_path filename Hp)).
Qed.

Lemma extraction_outcomes_witness :
  (parent_exists corrupt_archive_world = true
   \/ makedirs_reply corrupt_archive_world = None)
  /\ extraction_step corrupt_archive_world "Linux"
       "/home/dev/development/flutter" "flutter_3.38.5_archive.tar.xz"
     = ([ EExists "/home/dev/development";
          EOpenArchive TarXz "flutter_3.38.5_archive.tar.xz";
          EExtract "flutter/" "/home/dev/development";
          EProgress (Progress "Extracting: "
                       (Text.repeat FILL 10 ++ Text.repeat "-" 20) 10
                       (100 * (1 / 3)) "");
          EExtract "flutter/bin/flutter" "/home/dev/development";
          EPrint (error_line
                    "Extraction failed: [Errno 28] No space left on device");
          EExists "flutter_3.38.5_archive.tar.xz";
          ERemove "flutter_3.38.5_archive.tar.xz" ],
        Returned tt).
Proof.
  split; [left; reflexivity |].
  rewrite (proj1 (extraction_outcomes corrupt_archive_world "Linux"
                    "/home/dev/development/flutter"
                    "flutter_3.38.5_archive.tar.xz" (or_introl eq_refl))).
  vm_compute. reflexivity.
Defined.

Lemma extracted_app (t u : list event) :
  extracted (t ++ u) = (extracted t ++ extracted u)%list.
Proof.
  induction t as [| e t IH]; [reflexivity |].
  destruct e; cbn [app extracted]; rewrite IH; reflexivity.
Qed.

Lemma extracted_bar (t : list event) :
  never (other_than bar_output) t -> extracted t = [].
Proof.
  induction 1 as [| e t He _ IH]; [reflexivity |].
  destruct e; cbn in He; try discriminate He; exact IH.
Qed.

Lemma extract_members_first_failure (parent_dir : string) (total : Z)
    (before : list member) (m : member) (after : list member) (e : exn) :
  Forall (fun x => extract_reply x = None) before ->
  extract_reply m = Some e ->
  float_overflows total = false ->
  forall i, (0 <= i)%Z ->
    total = (i + Z.of_nat (List.length (before ++ m :: after)))%Z ->
    result (extract_members (R := unit) parent_dir total i (before ++ m :: after))
    = Raised e
    /\ extracted (trace (extract_members (R := unit) parent_dir total i
                           (before ++ m :: after)))
       = map member_name (before ++ [m]).
Proof.
  intros Hb Hm Ho. induction Hb as [| x before Hx _ IH]; intros i Hi Ht.
  - cbn [app extract_members]. rewrite Hm. split; reflexivity.
  - cbn [app extract_members]. rewrite Hx.
    cbn [List.length app] in Ht. rewrite Nat2Z.inj_succ in Ht.
    set (d := if ((i mod 100 =? 0) || (i =? total - 1))%Z then _ else _).
    assert (Hd : result d = Normal tt /\ extracted (trace d) = []).
    { unfold d. destruct (_ || _)%bool; [| split; reflexivity]. split.
      - apply draw_progress_bar_within; try assumption; lia.
      - apply extracted_bar, draw_progress_bar_only_bar. }
    destruct d as [td od]. cbn [result trace fst snd] in Hd.
    destruct Hd as [-> Htd].
    destruct (IH (i + 1)%Z ltac:(lia) ltac:(lia)) as [Hr He].
    destruct (extract_members parent_dir total (i + 1) (before ++ m :: after))
      as [tr or]. cbn [result trace fst snd] in Hr, He. subst or.
    cbn [bind emit ret result trace fst snd app map extracted]. split; [reflexivity |].
    now rewrite extracted_app, Htd, He.
Qed.

(** X7. The extraction stops at the first member that cannot be
    extracted: the members before it have been extracted, in the order of
    the archive, the failing one has been attempted, none of the members
    after it is touched, and the error of that member is the one that
    leaves the extraction. *)
Theorem extraction_stops_at_first_failure (w : World) (k : archive_kind)
    (filename parent_dir : string)
    (before : list member) (m : member) (after : list member) (e : exn) :
  archive w = Members (before ++ m :: after) ->
  Forall (fun x => extract_reply x = None) before ->
  extract_reply m = Some e ->
  float_overflows (Z.of_nat (List.length (before ++ m :: after))) = false ->
  result (extract_archive (R := unit) w k filename parent_dir) = Raised e
  /\ extracted (trace (extract_archive (R := unit) w k filename parent_dir))
     = map member_name (before ++ [m]).
Proof.
  intros Ha Hb Hm Ho. rewrite extract_archive_trace, Ha.
  cbn [result trace fst snd extracted].
  apply extract_members_first_failure; try assumption; lia.
Qed.

Lemma extraction_stops_at_first_failure_witness :
  archive corrupt_archive_world
  = Members ([ Member "flutter/" None ]
             ++ Member "flutter/bin/flutter"
                  (Some (Exn OSError "[Errno 28] No space left on device"))
             :: [ Member "flutter/version" None ])
  /\ extracted (trace (extract_archive (R := unit) corrupt_archive_world TarXz
                         "flutter_3.38.5_archive.tar.xz" "/home/dev/development"))
     = [ "flutter/"; "flutter/bin/flutter" ].
Proof.
  split; [reflexivity |].
  refine (proj2 (extraction_stops_at_first_failure corrupt_archive_world TarXz
                   "flutter_3.38.5_archive.tar.xz" "/home/dev/development"
                   [ Member "flutter/" None ]
                   (Member "flutter/bin/flutter"
                      (Some (Exn OSError "[Errno 28] No space left on device")))
                   [ Member "flutter/version" None ] _ eq_refl _ eq_refl _)).
  - repeat constructor.
  - vm_compute. reflexivity.
Defined.

(** ** The error of [os.makedirs] *)

Lemma calls_harmless (q p : event -> bool) (t : list event) :
  (forall e, q e = true -> p e = false) ->
  never (other_than q) t -> never p t.
Proof.
  intros H. apply never_weaken. intros e He. apply H.
  unfold other_than in He. now destruct (q e).
Qed.

Lemma not_in_calls (q : event -> bool) (t : list event) (e : event) :
  never (other_than q) t -> q e = false -> ~ In e t.
Proof.
  intros Ht He Hin. unfold never in Ht. rewrite Forall_forall in Ht.
  specialize (Ht _ Hin). unfold other_than in Ht. rewrite He in Ht.
  discriminate Ht.
Qed.

Lemma extraction_step_raises (w : World)
    (current_os install_path filename : string) (e : exn) :
  result (extraction_step w current_os install_path filename) = Raised e ->
  parent_exists w = false
  /\ (exists err, makedirs_reply w = Some err /\ e = exn_of_os err)
  /\ trace (extraction_step w current_os install_path filename)
     = [ EExists (dirname current_os install_path);
         EMakedirs (dirname current_os install_path) ].
Proof.
  destruct (parent_exists w) eqn:Hpe.
  - intro H. exfalso.
    destruct (extraction_outcomes_aux w current_os install_path filename
                (or_introl Hpe)) as [_ Hn]. now apply (Hn e).
  - destruct (makedirs_reply w) as [err |] eqn:Hmk.
    + unfold extraction_step, os_result. rewrite Hpe, Hmk.
      cbn [negb bind emit raise result trace fst snd app].
      intro H. injection H as <-. split; [reflexivity |].
      split; [now exists err | reflexivity].
    + intro H. exfalso.
      destruct (extraction_outcomes_aux w current_os install_path filename
                  (or_intror Hmk)) as [_ Hn]. now apply (Hn e).
Qed.

Lemma download_step_finished (w : World) (download_url filename : string) :
  result (download_step w download_url filename) = Normal tt ->
  exists head,
    trace (download_step w download_url filename)
    = (head ++ [download_finished_line])%list.
Proof.
  intro H. pose proof (download_step_outcome w download_url filename) as Ho.
  rewrite H in Ho. rewrite (download_step_done w download_url filename Ho).
  eexists (_ :: _ :: _)%list. reflexivity.
Qed.

(** ** The removal of the old installation *)



Lemma plan_events_flat (p : list step) :
  Forall passes p -> plan_events p = flat_map step_events p.
Proof.
  induction 1 as [| s p Hs _ IH]; [reflexivity |].
  cbn [plan_events flat_map]. unfold passes in Hs. now rewrite Hs, IH.
Qed.


(** X10. The removal stops at its first step that ends with an error:
    the steps before it are carried out, the calls of the failing step
    are its last ones, no later path is attempted, and a path whose
    deletion failed is not deleted.  When the error is an [OSError] the
    step prints "Could not remove old directory: " with it and the advice
    about open files, and returns from the run; the [TypeError] of the
    handler's [os.open(path)] is printed by nobody and leaves the step as
    an exception. *)
Theorem removal_stops_at_first_error (w : World) (install_path : string)
    (content : list tree * attempt)
    (before : list step) (s : step) (after : list step) (e : exn) :
  install_dir w = Some content ->
  removal_plan w install_path content = (before ++ s :: after)%list ->
  Forall passes before ->
  step_error s = Some e ->
  clean_old_install w (get_os w) install_path
  = ((EExists install_path :: removing_line
      :: flat_map step_events before ++ step_events s
      ++ (if is_OSError e then removal_error_lines e else []))%list,
     if is_OSError e then Returned tt else Raised e)
  /\ (forall y, In (Remove y) before ->
        In (removed y) (flat_map step_events before))
  /\ (forall x, s = Remove x -> ~ In (removed x) (step_events s)).
Proof.
  intros Hd Hp Hb Hs.
  destruct (plan_first_error before s after e Hb Hs) as (Ht & He).
  assert (E : removal w install_path content
              = ((flat_map step_events before ++ step_events s)%list, Raised e)).
  { rewrite removal_spec, Hp, Ht, He. now rewrite (plan_events_flat _ Hb). }
  split; [| split].
  - destruct (is_OSError e) eqn:Hos.
    + rewrite (clean_old_install_failed w install_path content e Hd);
        [| now rewrite E | exact Hos].
      rewrite E. cbn [trace fst]. now rewrite <- app_assoc.
    + rewrite (clean_old_install_raised w install_path content e Hd);
        [| now rewrite E | exact Hos].
      rewrite E. cbn [trace fst]. now rewrite app_nil_r.
  - intros y Hy. rewrite <- (plan_events_flat _ Hb). now apply plan_removes.
  - intros x ->. now apply (step_fails x e).
Qed.

Lemma removal_stops_at_first_error_witness :
  install_dir busy_world = Some busy_install
  /\ clean_old_install busy_world "Linux" "/home/dev/development/flutter"
     = (([ EExists "/home/dev/development/flutter";
          removing_line;
          EUnlink "/home/dev/development/flutter/version" true;
          EUnlink "/home/dev/development/flutter/bin/dart" false;
          EAccess "/home/dev/development/flutter/bin/dart" ]
        ++ removal_error_lines
             (exn_of_os (OsError EACCES "[WinError 32] The process cannot access the file because it is being used by another process")))%list,
        Returned tt).
Proof.
  split; [reflexivity |].
  refine (eq_trans
            (proj1 (removal_stops_at_first_error busy_world
                      "/home/dev/development/flutter" busy_install
                      [ Remove (Target "/home/dev/development/flutter/version"
                                  false deleted_at_once) ]
                      (Remove (Target "/home/dev/development/flutter/bin/dart"
                                 false in_use))
                      [ Remove (Target "/home/dev/development/flutter/bin/flutter"
                                  false deleted_at_once);
                        Remove (Target "/home/dev/development/flutter/bin" true
                                  deleted_at_once);
                        Remove (Target "/home/dev/development/flutter" true
                                  deleted_at_once) ]
                      _ eq_refl _ _ _)) _).
  - vm_compute. reflexivity.
  - repeat constructor.
  - vm_compute. reflexivity.
  - vm_compute. reflexivity.
Defined.

(** ** The run as a whole *)

(** Either the run returns before the installation steps, or it goes
    through them: then the system is supported, the release was resolved,
    and the probe did not find the latest version. *)
Lemma run_anatomy (w : World) :
  (exists t, install_flutter w = (t, Returned tt)
             /\ never (other_than early_call) t
             /\ (count metadata_request t <= 1)%nat
             /\ (count probe_run t <= 1)%nat)
  \/ (exists head install_path download_url latest_version,
        dict_get (PATHS w) (get_os w) = Some install_path
        /\ result (fetch_metadata (R := unit) w (get_os w))
           = Normal (download_url, latest_version)
        /\ ~ up_to_date w latest_version
        /\ install_flutter w
           = ((head ++ trace (install_steps w (get_os w) install_path download_url
                                latest_version))%list,
              result (install_steps w (get_os w) install_path download_url
                        latest_version))
        /\ never (other_than early_call) head
        /\ count metadata_request head = 1%nat
        /\ count probe_run head = 1%nat).
Proof.
  destruct (dict_get (PATHS w) (get_os w)) as [install_path |] eqn:Hos.
  2:{ left. rewrite (run_unsupported w Hos). eexists. split; [reflexivity |].
      split; [repeat constructor |]. split; cbn; lia. }
  destruct (METADATA_URLS_supported w _ _ Hos) as (murl & Hurl).
  destruct (fetch_metadata_shape w (get_os w) murl Hurl) as (o & tail & E & Ho).
  destruct o as [[download_url latest_version] | r | e]; [| contradiction |].
  - destruct Ho as (-> & _).
    destruct (probe_shape w) as ([v |] & Er & Htok).
    + specialize (Htok v eq_refl).
      destruct (version_eq v latest_version) eqn:Heq.
      * left. apply version_eq_iff in Heq.
        rewrite (run_already_latest w install_path download_url latest_version _
                   Hos E v Er Htok Heq).
        eexists. split; [reflexivity |].
        split; [repeat constructor |]. split; cbn; lia.
      * right. assert (Hne : latest_version <> JStr v).
        { intro Hc. apply version_eq_iff in Hc. congruence. }
        rewrite (run_upgrade w install_path download_url latest_version _
                   Hos E v Er Htok Hne).
        eexists (preamble w _ ++ [_; _])%list, install_path, download_url,
          latest_version.
        split; [reflexivity |]. split; [now rewrite E |].
        split.
        { intros (v' & Hv' & Hl). rewrite Er in Hv'. cbn in Hv'. congruence. }
        split; [now rewrite <- app_assoc |].
        split; [repeat constructor |]. split; reflexivity.
    + right.
      rewrite (run_fresh_install w install_path download_url latest_version _
                 Hos E Er).
      eexists (preamble w _ ++ [_])%list, install_path, download_url,
        latest_version.
      split; [reflexivity |]. split; [now rewrite E |].
      split.
      { intros (v' & Hv' & Hl). rewrite Er in Hv'. discriminate. }
      split; [now rewrite <- app_assoc |].
      split; [repeat constructor |]. split; reflexivity.
  - left. subst tail. rewrite (run_fetch_failed w install_path _ e Hos E).
    eexists. split; [reflexivity |].
    split; [repeat constructor |]. split; cbn; lia.
Qed.

Lemma count_app (p : event -> bool) (t u : list event) :
  count p (t ++ u) = (count p t + count p u)%nat.
Proof. unfold count. now rewrite filter_app, length_app. Qed.

Lemma count_never (p : event -> bool) (t : list event) :
  never p t -> count p t = 0%nat.
Proof.
  unfold count. induction 1 as [| e t He _ IH]; [reflexivity |].
  cbn [filter]. now rewrite He.
Qed.

Lemma count_within (q p : event -> bool) (t : list event) :
  (forall e, q e = true -> p e = false) ->
  never (other_than q) t -> count p t = 0%nat.
Proof. intros H Ht. apply count_never. now apply (calls_harmless q). Qed.

Lemma count_steps (w : World) (install_path download_url : string)
    (latest_version : json) (p : event -> bool) :
  (forall line, p (EPrint line) = false) ->
  (count p (trace (install_steps w (get_os w) install_path download_url
                     latest_version))
   <= count p (trace (download_step w download_url
                        (archive_name w latest_version)))
      + count p (trace (clean_old_install w (get_os w) install_path))
      + count p (trace (extraction_step w (get_os w) install_path
                          (archive_name w latest_version)))
      + count p (trace (path_handling (R := unit) w (get_os w) install_path)))%nat.
Proof.
  intro Hp. rewrite install_steps_phases. cbn [trace fst].
  assert (Hc : forall e t, count p (EPrint e :: t) = count p t).
  { intros e t. unfold count. cbn [filter]. now rewrite Hp. }
  destruct (result (download_step _ _ _)); rewrite count_app;
    [| cbn; lia | cbn; lia].
  unfold extracting_line. rewrite Hc.
  destruct (result (clean_old_install _ _ _)); rewrite count_app;
    [| cbn; lia | cbn; lia].
  destruct (result (extraction_step _ _ _ _)); rewrite count_app; cbn; lia.
Qed.

Lemma download_step_count (w : World) (download_url filename : string) :
  count download (trace (download_step w download_url filename)) = 1%nat.
Proof.
  unfold download_step, urlretrieve, print_step, print_success, print_error, print.
  pose proof (@retrieve_only_bar unit (transfer w download_url filename)) as H.
  apply (count_within bar_output download) in H;
    [| intros e He; destruct e; try discriminate He; reflexivity].
  destruct (retrieve (transfer w download_url filename) download_reporthook)
    as [t [[] | [] | e]]; cbn [trace fst] in H;
    cbn [bind emit try_except select any_exception return_ trace fst app];
    change (EPrint ?a :: EUrlretrieve ?u ?f :: ?l)
      with ([EPrint a; EUrlretrieve u f] ++ l)%list;
    rewrite ?count_app, H; reflexivity.
Qed.

Lemma extract_members_only (parent_dir : string) (total i : Z) (ms : list member) :
  never (other_than member_call)
    (trace (extract_members (R := unit) parent_dir total i ms)).
Proof.
  revert i. induction ms as [| m ms IH]; intro i; cbn [extract_members];
    [constructor |].
  apply never_bind; [apply never_emit; reflexivity | intros _].
  apply never_bind; [destruct (extract_reply m); constructor | intros _].
  apply never_bind; [| intros _; apply IH].
  destruct (_ || _)%bool; [| constructor].
  apply bar_output_within; try reflexivity. apply draw_progress_bar_only_bar.
Qed.

Lemma extraction_step_counts (w : World)
    (current_os install_path filename : string) :
  (count makes_directories
     (trace (extraction_step w current_os install_path filename)) <= 1)%nat
  /\ (count opens_archive
        (trace (extraction_step w current_os install_path filename)) <= 1)%nat
  /\ (count removes_archive
        (trace (extraction_step w current_os install_path filename)) <= 1)%nat.
Proof.
  assert (Hm : forall p k parent_dir,
            (forall e, member_call e = true -> p e = false) ->
            (count p (trace (extract_archive (R := unit) w k filename parent_dir))
             <= if p (EOpenArchive k filename) then 1 else 0)%nat).
  { intros p k parent_dir Hp. rewrite extract_archive_trace.
    destruct (archive w) as [e | ms]; cbn [trace fst].
    - unfold count. cbn [filter]. destruct (p _); cbn; lia.
    - change (EOpenArchive k filename :: ?l)
        with ([EOpenArchive k filename] ++ l)%list.
      rewrite count_app,
        (count_within member_call p _ Hp (extract_members_only _ _ _ _)).
      unfold count. cbn [filter app]. destruct (p _); cbn; lia. }
  destruct (parent_exists w) eqn:Hpe; [| destruct (makedirs_reply w) eqn:Hmk].
  1,3: (rewrite (proj1 (extraction_outcomes_aux w current_os install_path filename
                          ltac:(first [left; exact Hpe | right; exact Hmk])));
        cbn [trace fst]; unfold parent_calls, cleanup_calls, extraction_report;
        rewrite Hpe; rewrite !count_app;
        change (?r :: EExists filename :: ?l)
          with ([r; EExists filename] ++ l)%list;
        rewrite !count_app;
        pose proof (Hm makes_directories (archive_format filename)
                      (dirname current_os install_path)
                      ltac:(intros e He; destruct e; try discriminate He;
                            reflexivity)) as H1;
        pose proof (Hm opens_archive (archive_format filename)
                      (dirname current_os install_path)
                      ltac:(intros e He; destruct e; try discriminate He;
                            reflexivity)) as H2;
        pose proof (Hm removes_archive (archive_format filename)
                      (dirname current_os install_path)
                      ltac:(intros e He; destruct e; try discriminate He;
                            reflexivity)) as H3;
        cbn [makes_directories opens_archive removes_archive] in H1, H2, H3;
        set (ex := extract_archive w (archive_format filename) filename
                     (dirname current_os install_path)) in *;
        clearbody ex; destruct (result ex);
        destruct (archive_exists w); cbn; lia).
  unfold extraction_step, os_result. rewrite Hpe, Hmk. cbn. lia.
Qed.

(** X11. Nothing is attempted twice: a run makes at most one metadata
    request, runs the version command at most once, starts at most one
    download, creates the parent directory at most once, opens the
    archive at most once and removes it at most once. *)
Theorem no_call_is_repeated (w : World) :
  (count metadata_request (trace (install_flutter w)) <= 1)%nat
  /\ (count probe_run (trace (install_flutter w)) <= 1)%nat
  /\ (count download (trace (install_flutter w)) <= 1)%nat
  /\ (count makes_directories (trace (install_flutter w)) <= 1)%nat
  /\ (count opens_archive (trace (install_flutter w)) <= 1)%nat
  /\ (count removes_archive (trace (install_flutter w)) <= 1)%nat.
Proof.
  destruct (run_anatomy w) as [(t & E & Ht & Hm & Hp)
    | (head & install_path & download_url & latest_version & _ & _ & _ & E
       & Hhead & Hm & Hp)]; rewrite E; cbn [trace fst].
  - assert (H0 : forall p, (forall e, early_call e = true -> p e = false) ->
                           count p t = 0%nat)
      by (intros p H; now apply (count_within early_call)).
    split; [exact Hm |]. split; [exact Hp |].
    repeat split; rewrite H0; try lia;
      intros e He; destruct e; try discriminate He; reflexivity.
  - pose proof (download_step_count w download_url (archive_name w latest_version))
      as Hd.
    pose proof (extraction_step_counts w (get_os w) install_path
                  (archive_name w latest_version)) as (Hx1 & Hx2 & Hx3).
    assert (H : forall p,
              (forall line, p (EPrint line) = false) ->
              (count p (head ++ trace (install_steps w (get_os w) install_path
                                         download_url latest_version))
               <= count p head
                  + count p (trace (download_step w download_url
                                      (archive_name w latest_version)))
                  + count p (trace (clean_old_install w (get_os w) install_path))
                  + count p (trace (extraction_step w (get_os w) install_path
                                      (archive_name w latest_version)))
                  + count p (trace (path_handling (R := unit) w (get_os w)
                                      install_path)))%nat).
    { intros p Hprint. rewrite count_app.
      pose proof (count_steps w install_path download_url latest_version p
                    Hprint). lia. }
    assert (Hz : forall p q t', never (other_than q) t' ->
                   (forall e, q e = true -> p e = false) -> count p t' = 0%nat)
      by (intros p q t' Hn Hq; now apply (count_within q)).
    pose proof (download_step_calls w download_url (archive_name w latest_version))
      as Cd.
    pose proof (clean_old_install_calls w (get_os w) install_path) as Cc.
    pose proof (extraction_step_calls w (get_os w) install_path
                  (archive_name w latest_version)) as Cx.
    pose proof (path_handling_calls w (get_os w) install_path) as Cp.
    repeat split.
    + rewrite (H metadata_request) by reflexivity.
      rewrite Hm, (Hz _ _ _ Cd), (Hz _ _ _ Cc), (Hz _ _ _ Cx), (Hz _ _ _ Cp);
        try lia; intros e He; destruct e; try discriminate He; reflexivity.
    + rewrite (H probe_run) by reflexivity.
      rewrite Hp, (Hz _ _ _ Cd), (Hz _ _ _ Cc), (Hz _ _ _ Cx), (Hz _ _ _ Cp);
        try lia; intros e He; destruct e; try discriminate He; reflexivity.
    + rewrite (H download) by reflexivity.
      rewrite Hd, (Hz _ _ _ Hhead), (Hz _ _ _ Cc), (Hz _ _ _ Cx), (Hz _ _ _ Cp);
        try lia; intros e He; destruct e; try discriminate He; reflexivity.
    + rewrite (H makes_directories) by reflexivity.
      rewrite (Hz _ _ _ Hhead), (Hz _ _ _ Cd), (Hz _ _ _ Cc), (Hz _ _ _ Cp);
        try lia; intros e He; destruct e; try discriminate He; reflexivity.
    + rewrite (H opens_archive) by reflexivity.
      rewrite (Hz _ _ _ Hhead), (Hz _ _ _ Cd), (Hz _ _ _ Cc), (Hz _ _ _ Cp);
        try lia; intros e He; destruct e; try discriminate He; reflexivity.
    + rewrite (H removes_archive) by reflexivity.
      rewrite (Hz _ _ _ Hhead), (Hz _ _ _ Cd), (Hz _ _ _ Cc), (Hz _ _ _ Cp);
        try lia; intros e He; destruct e; try discriminate He; reflexivity.
Qed.

(** ** An error that is not caught *)

Lemma extraction_step_makedirs_fails (w : World)
    (current_os install_path filename : string) (err : os_error) :
  parent_exists w = false ->
  makedirs_reply w = Some err ->
  extraction_step w current_os install_path filename
  = ([ EExists (dirname current_os install_path);
       EMakedirs (dirname current_os install_path) ],
     Raised (exn_of_os err)).
Proof.
  intros Hpe Hmk. unfold extraction_step, os_result. rewrite Hpe, Hmk.
  reflexivity.
Qed.

Lemma extraction_step_no_makedirs (w : World)
    (current_os install_path filename : string) :
  parent_exists w = true ->
  never makes_directories
    (trace (extraction_step w current_os install_path filename)).
Proof.
  intro Hpe.
  rewrite (proj1 (extraction_outcomes_aux w current_os install_path filename
                    (or_introl Hpe))).
  cbn [trace fst]. unfold parent_calls, cleanup_calls. rewrite Hpe.
  apply never_app; [repeat constructor |].
  apply never_app.
  - rewrite extract_archive_trace.
    destruct (archive w); cbn [trace fst];
      (constructor; [reflexivity |]); [constructor |].
    apply (calls_harmless member_call); [| apply extract_members_only].
    intros e He; destruct e; try discriminate He; reflexivity.
  - constructor; [unfold extraction_report; destruct (result _); reflexivity |].
    constructor; [reflexivity |].
    destruct (archive_exists w); repeat constructor.
Qed.

(** X8. The call of [os.makedirs] is outside every [try]: a run that
    reaches it while it fails ends with the error of that call, which
    nothing catches.  The run reaches the call only when the parent of
    the installation directory is missing; the call is then the last
    one of the run, just after the test of the parent directory: the
    download has finished, and the downloaded archive is neither
    opened nor extracted nor removed. *)
Theorem makedirs_error_is_not_caught (w : World) (parent_dir : string)
    (err : os_error) :
  In (EMakedirs parent_dir) (trace (install_flutter w)) ->
  makedirs_reply w = Some err ->
  result (install_flutter w) = Raised (exn_of_os err)
  /\ parent_exists w = false
  /\ (exists install_path,
        dict_get (PATHS w) (get_os w) = Some install_path
        /\ parent_dir = dirname (get_os w) install_path)
  /\ (exists head,
        trace (install_flutter w)
        = (head ++ [ EExists parent_dir; EMakedirs parent_dir ])%list
        /\ In download_finished_line head
        /\ never makes_directories head
        /\ never opens_archive head
        /\ never extraction head
        /\ never removes_archive head).
Proof.
  intros Hin Hmk.
  destruct (run_anatomy w) as [(t & E & Ht & _)
    | (head & install_path & download_url & latest_version & Hos & _ & _ & E
       & Hhead & _)];
    rewrite E in *; cbn [trace result fst snd] in *.
  { exfalso. exact (not_in_calls early_call t (EMakedirs parent_dir) Ht eq_refl Hin). }
  clear E. rewrite install_steps_phases in *.
  cbn [trace result fst snd] in *.
  pose proof (download_step_calls w download_url (archive_name w latest_version))
    as Hdc.
  pose proof (clean_old_install_calls w (get_os w) install_path) as Hcc.
  apply in_app_or in Hin. destruct Hin as [Hin | Hin];
    [exfalso; exact (not_in_calls early_call head (EMakedirs parent_dir) Hhead eq_refl Hin) |].
  apply in_app_or in Hin. destruct Hin as [Hin | Hin];
    [exfalso; exact (not_in_calls download_call _ (EMakedirs parent_dir) Hdc eq_refl Hin) |].
  destruct (result (download_step w download_url (archive_name w latest_version)))
    as [[] | [] | x] eqn:Hd; [| destruct Hin ..].
  destruct (download_step_finished w download_url _ Hd) as (hd & Ehd).
  destruct Hin as [Hin | Hin]; [discriminate Hin |].
  apply in_app_or in Hin. destruct Hin as [Hin | Hin];
    [exfalso; exact (not_in_calls removal_call _ (EMakedirs parent_dir) Hcc eq_refl Hin) |].
  destruct (result (clean_old_install w (get_os w) install_path))
    as [[] | [] | x] eqn:Hc; [| destruct Hin ..].
  destruct (parent_exists w) eqn:Hpe.
  { exfalso. apply in_app_or in Hin. destruct Hin as [Hin | Hin].
    - pose proof (extraction_step_no_makedirs w (get_os w) install_path
                    (archive_name w latest_version) Hpe) as Hn.
      unfold never in Hn. rewrite Forall_forall in Hn.
      specialize (Hn _ Hin). discriminate Hn.
    - destruct (result (extraction_step _ _ _ _)); [| destruct Hin ..].
      exact (not_in_calls advice_call _ (EMakedirs parent_dir)
               (path_handling_calls w (get_os w) install_path) eq_refl Hin). }
  rewrite (extraction_step_makedirs_fails w _ _ _ err Hpe Hmk) in *.
  cbn [trace result fst snd app] in *.
  assert (Hp : parent_dir = dirname (get_os w) install_path).
  { destruct Hin as [Hin | [Hin | []]]; [discriminate Hin |].
    now injection Hin. }
  subst parent_dir.
  split; [reflexivity |]. split; [reflexivity |].
  split; [now exists install_path |].
  exists (head ++ trace (download_step w download_url
                           (archive_name w latest_version))
          ++ extracting_line install_path
          :: trace (clean_old_install w (get_os w) install_path))%list.
  assert (Hn : forall p : event -> bool,
            (forall line, p (EPrint line) = false) ->
            (forall x, early_call x = true -> p x = false) ->
            (forall x, download_call x = true -> p x = false) ->
            (forall x, removal_call x = true -> p x = false) ->
            never p (head ++ trace (download_step w download_url
                                      (archive_name w latest_version))
                     ++ extracting_line install_path
                     :: trace (clean_old_install w (get_os w) install_path))%list).
  { intros p Hp He Hdl Hrm. apply never_app.
    - now apply (calls_harmless early_call).
    - apply never_app; [now apply (calls_harmless download_call) |].
      constructor; [apply Hp |]. now apply (calls_harmless removal_call). }
  split.
  { rewrite <- ?app_assoc. cbn [app]. rewrite <- ?app_assoc. reflexivity. }
  split.
  { apply in_or_app. right. apply in_or_app. left. rewrite Ehd.
    apply in_or_app. right. now left. }
  split; [| split; [| split]]; apply Hn; try reflexivity;
    intros x Hx'; destruct x; try discriminate Hx'; reflexivity.
Qed.

Lemma makedirs_error_is_not_caught_witness :
  result (install_flutter no_parent_world)
  = Raised (Exn PermissionError
              "[Errno 13] Permission denied: '/home/dev/development'")
  /\ exists head,
       trace (install_flutter no_parent_world)
       = (head ++ [ EExists "/home/dev/development";
                    EMakedirs "/home/dev/development" ])%list
       /\ In download_finished_line head
       /\ never removes_archive head.
Proof.
  assert (Hin : In (EMakedirs "/home/dev/development")
                  (trace (install_flutter no_parent_world))).
  { vm_compute. repeat (first [left; reflexivity | right]). }
  destruct (makedirs_error_is_not_caught no_parent_world _ _ Hin eq_refl)
    as (Hr & _ & _ & head & Ht & Hd & _ & _ & _ & Hrm).
  split; [exact Hr |]. exists head.
  split; [exact Ht |]. split; [exact Hd | exact Hrm].
Defined.

Lemma never_split (p : event -> bool) (t u : list event) :
  never p (t ++ u)%list -> never p t /\ never p u.
Proof. unfold never. apply Forall_app. Qed.

(** X12. The order of a run: either it makes no destructive call at
    all, or it has printed "Download finished." before its first
    destructive call; and after that line nothing goes to the network
    any more. *)
Theorem destructive_calls_follow_download (w : World) :
  never destructive (trace (install_flutter w))
  \/ exists head tail,
       trace (install_flutter w) = (head ++ download_finished_line :: tail)%list
       /\ never destructive head
       /\ never network tail.
Proof.
  destruct (run_anatomy w) as [(t & E & Ht & _)
    | (head & install_path & download_url & latest_version & _ & _ & _ & E
       & Hhead & _)]; rewrite E; cbn [trace fst].
  { left. apply (calls_harmless early_call); [| exact Ht].
    intros e He; destruct e; try discriminate He; reflexivity. }
  rewrite install_steps_phases. cbn [trace fst].
  pose proof (download_step_calls w download_url (archive_name w latest_version))
    as Cd.
  assert (Hh : never destructive head).
  { apply (calls_harmless early_call); [| exact Hhead].
    intros e He; destruct e; try discriminate He; reflexivity. }
  assert (Hd : never destructive
                 (trace (download_step w download_url
                           (archive_name w latest_version)))).
  { apply (calls_harmless download_call); [| exact Cd].
    intros e He; destruct e; try discriminate He; reflexivity. }
  destruct (result (download_step w download_url (archive_name w latest_version)))
    as [[] | r | e] eqn:Hr.
  2,3: left; rewrite app_nil_r; now apply never_app.
  right. destruct (download_step_finished w download_url _ Hr) as (hd & Ehd).
  rewrite Ehd in Hd |- *. apply never_split in Hd. destruct Hd as [Hd _].
  eexists (head ++ hd)%list, _. split.
  { rewrite <- !app_assoc. cbn [app]. reflexivity. }
  split; [now apply never_app |].
  constructor; [reflexivity |].
  apply never_app.
  { apply (calls_harmless removal_call);
      [| apply clean_old_install_calls].
    intros e He; destruct e; try discriminate He; reflexivity. }
  destruct (result (clean_old_install w (get_os w) install_path));
    try constructor.
  apply never_app.
  { apply (calls_harmless extraction_call);
      [| apply extraction_step_calls].
    intros e He; destruct e; try discriminate He; reflexivity. }
  destruct (result (extraction_step w (get_os w) install_path
                      (archive_name w latest_version))); try constructor.
  apply (calls_harmless advice_call); [| apply path_handling_calls].
  intros e He; destruct e; try discriminate He; reflexivity.
Qed.

(** ** A completed run *)







(** ** The decision to install *)

(** X14. Once the release is resolved, the run downloads the archive
    exactly when the probe did not report the very string of the latest
    version: also when no version was found, and also when the installed
    version is another one, be it older or newer.  An installed version
    that differs is announced by "Version mismatch. Upgrading ...". *)
Theorem download_decision (w : World) (install_path download_url : string)
    (latest_version : json) :
  dict_get (PATHS w) (get_os w) = Some install_path ->
  result (fetch_metadata (R := unit) w (get_os w))
  = Normal (download_url, latest_version) ->
  (In (EUrlretrieve download_url (archive_name w latest_version))
      (trace (install_flutter w))
   <-> ~ up_to_date w latest_version)
  /\ (up_to_date w latest_version ->
      never download (trace (install_flutter w))
      /\ result (install_flutter w) = Returned tt)
  /\ (forall v,
        result (get_installed_version (R := unit) w) = Normal (Some v) ->
        latest_version <> JStr v ->
        In (EPrint (warning_line ("Version mismatch. Upgrading " ++ v ++ " -> "
                                  ++ py_str w latest_version ++ "...")))
           (trace (install_flutter w))).
Proof.
  intros Hos Hf.
  destruct (METADATA_URLS_supported w _ _ Hos) as (murl & Hurl).
  destruct (fetch_metadata_shape w (get_os w) murl Hurl) as (o & tail & E & Ho).
  rewrite E in Hf. cbn [result snd] in Hf. subst o. destruct Ho as (-> & _).
  assert (Hsteps : In (EUrlretrieve download_url (archive_name w latest_version))
                     (trace (install_steps w (get_os w) install_path download_url
                               latest_version))).
  { destruct (install_steps_start w install_path download_url latest_version)
      as (rest & ->). right. now left. }
  destruct (probe_shape w) as ([v |] & Er & Htok).
  - specialize (Htok v eq_refl).
    destruct (version_eq v latest_version) eqn:Heq.
    + apply version_eq_iff in Heq.
      assert (Hup : up_to_date w latest_version).
      { exists v. rewrite Er. now split. }
      rewrite (run_already_latest w install_path download_url latest_version _
                 Hos E v Er Htok Heq).
      cbn [trace result fst snd].
      assert (Hn : never download
                     (preamble w [EUrlopen murl;
                                  EPrint (latest_version_line w latest_version)]
                      ++ EPrint ("   Local Version:         " ++ Colors.BOLD ++ v
                                 ++ Colors.RESET)
                      :: already_latest_lines)%list)
        by repeat constructor.
      split; [| split].
      * split; [| intro Hc; now contradiction Hc].
        intro Hin. unfold never in Hn. rewrite Forall_forall in Hn.
        specialize (Hn _ Hin). discriminate Hn.
      * intros _. now split.
      * intros v' Hv' Hne. rewrite Er in Hv'. cbn in Hv'. congruence.
    + assert (Hne : latest_version <> JStr v).
      { intro Hc. apply version_eq_iff in Hc. congruence. }
      assert (Hup : ~ up_to_date w latest_version).
      { intros (v' & Hv' & Hl). rewrite Er in Hv'. cbn in Hv'. congruence. }
      rewrite (run_upgrade w install_path download_url latest_version _
                 Hos E v Er Htok Hne).
      cbn [trace fst]. split; [| split].
      * split; [intros _; exact Hup |]. intros _.
        apply in_or_app. right. right. right. exact Hsteps.
      * intro Hc. now contradiction Hup.
      * intros v' Hv' _. rewrite Er in Hv'. cbn in Hv'.
        injection Hv' as <-. apply in_or_app. right. right. now left.
  - assert (Hup : ~ up_to_date w latest_version).
    { intros (v' & Hv' & Hl). rewrite Er in Hv'. discriminate. }
    rewrite (run_fresh_install w install_path download_url latest_version _
               Hos E Er).
    cbn [trace fst]. split; [| split].
    + split; [intros _; exact Hup |]. intros _.
      apply in_or_app. right. right. exact Hsteps.
    + intro Hc. now contradiction Hup.
    + intros v' Hv'. rewrite Er in Hv'. discriminate.
Qed.

Lemma download_decision_witness :
  dict_get (PATHS newer_world) (get_os newer_world)
  = Some "/home/dev/development/flutter"
  /\ result (fetch_metadata (R := unit) newer_world (get_os newer_world))
     = Normal ("https://storage.googleapis.com/flutter_infra_release/releases/stable/sdk_3.38.5.tar.xz",
               JStr "3.38.5")
  /\ In (EPrint (warning_line ("Version mismatch. Upgrading " ++ "3.40.0" ++ " -> "
                               ++ py_str newer_world (JStr "3.38.5") ++ "...")))
        (trace (install_flutter newer_world)).
Proof.
  assert (H1 : dict_get (PATHS newer_world) (get_os newer_world)
               = Some "/home/dev/development/flutter") by reflexivity.
  assert (H2 : result (fetch_metadata (R := unit) newer_world (get_os newer_world))
               = Normal ("https://storage.googleapis.com/flutter_infra_release/releases/stable/sdk_3.38.5.tar.xz",
                         JStr "3.38.5")) by (vm_compute; reflexivity).
  split; [exact H1 |]. split; [exact H2 |].
  refine (proj2 (proj2 (download_decision newer_world _ _ _ H1 H2)) "3.40.0" _ _).
  - vm_compute. reflexivity.
  - discriminate.
Defined.

(** ** The format of the archive *)

Lemma length_app (a b : string) :
  String.length (a ++ b) = (String.length a + String.length b)%nat.
Proof. induction a as [| c a IH]; cbn; [reflexivity | now rewrite IH]. Qed.

Lemma substring_whole (b : string) : substring 0 (String.length b) b = b.
Proof. induction b as [| c b IH]; cbn; [reflexivity | now rewrite IH]. Qed.

Lemma substring_skip (a b : string) (n : nat) :
  substring (String.length a) n (a ++ b) = substring 0 n b.
Proof. induction a as [| c a IH]; cbn; [reflexivity | exact IH]. Qed.

Lemma endswith_app (suffix a b : string) :
  String.length b = String.length suffix ->
  Text.endswith suffix (a ++ b) = String.eqb b suffix.
Proof.
  intro H. unfold Text.endswith. rewrite length_app, <- H.
  replace (String.length a + String.length b - String.length b)%nat
    with (String.length a) by lia.
  rewrite substring_skip, substring_whole.
  destruct (Nat.leb_spec (String.length b) (String.length a + String.length b));
    [reflexivity | lia].
Qed.

Lemma archive_format_of_name (w : World) (latest_version : json) :
  archive_format (archive_name w latest_version) = system_format w.
Proof.
  unfold archive_format, archive_name, system_format.
  destruct (String.eqb (get_os w) "Windows").
  - replace ("flutter_" ++ py_str w latest_version ++ "_archive" ++ ".zip")
      with (("flutter_" ++ py_str w latest_version ++ "_archive") ++ ".zip")
      by (repeat (rewrite !append_assoc; simpl); reflexivity).
    now rewrite endswith_app.
  - replace ("flutter_" ++ py_str w latest_version ++ "_archive" ++ ".tar.xz")
      with (("flutter_" ++ py_str w latest_version ++ "_archive.ta") ++ "r.xz")
      by (repeat (rewrite !append_assoc; simpl); reflexivity).
    now rewrite endswith_app.
Qed.

Lemma extraction_step_opens (w : World)
    (current_os install_path filename : string) (k : archive_kind) (f : string) :
  In (EOpenArchive k f)
     (trace (extraction_step w current_os install_path filename)) ->
  k = archive_format filename /\ f = filename.
Proof.
  assert (Hp : parent_exists w = true \/ makedirs_reply w = None
               \/ trace (extraction_step w current_os install_path filename)
                  = [ EExists (dirname current_os install_path);
                      EMakedirs (dirname current_os install_path) ]).
  { destruct (parent_exists w) eqn:Hpe; [now left | right].
    destruct (makedirs_reply w) as [err |] eqn:Hmk; [right | now left].
    unfold extraction_step, os_result. now rewrite Hpe, Hmk. }
  assert (Hshape : parent_exists w = true \/ makedirs_reply w = None ->
            In (EOpenArchive k f)
               (trace (extraction_step w current_os install_path filename)) ->
            k = archive_format filename /\ f = filename).
  { intros Hq. rewrite (proj1 (extraction_outcomes_aux w current_os install_path
                                 filename Hq)).
    cbn [trace fst]. intro Hin.
    apply in_app_or in Hin. destruct Hin as [Hin | Hin].
    { exfalso. unfold parent_calls in Hin.
      destruct (parent_exists w); cbn in Hin;
        repeat (destruct Hin as [Hin | Hin]; [discriminate Hin |]);
        contradiction. }
    apply in_app_or in Hin. destruct Hin as [Hin | Hin].
    - rewrite extract_archive_trace in Hin.
      destruct (archive w) as [e | ms]; cbn [trace fst] in Hin.
      + destruct Hin as [Hin | []]. injection Hin as <- <-. now split.
      + destruct Hin as [Hin | Hin]; [injection Hin as <- <-; now split |].
        exfalso. revert Hin.
        now apply (not_in_calls member_call _ _ (extract_members_only _ _ _ _)).
    - exfalso. destruct Hin as [Hin | Hin].
      + unfold extraction_report in Hin.
        destruct (result _); discriminate Hin.
      + unfold cleanup_calls in Hin.
        destruct (archive_exists w); cbn in Hin;
          repeat (destruct Hin as [Hin | Hin]; [discriminate Hin |]);
          contradiction. }
  destruct Hp as [Hp | [Hp | Hp]]; [now apply Hshape; left
                                   | now apply Hshape; right |].
  rewrite Hp. cbn. intros [Hin | [Hin | []]]; discriminate Hin.
Qed.

(** X15. The archive the run opens is the file it has downloaded, and
    the format it is read in follows the system alone: a zip archive on
    "Windows" and an xz-compressed tar archive on every other system,
    whatever text the release gives as its version. *)
Theorem archive_is_opened_in_system_format (w : World)
    (k : archive_kind) (f : string) :
  In (EOpenArchive k f) (trace (install_flutter w)) ->
  k = system_format w
  /\ exists download_url latest_version,
       result (fetch_metadata (R := unit) w (get_os w))
       = Normal (download_url, latest_version)
       /\ f = archive_name w latest_version
       /\ In (EUrlretrieve download_url f) (trace (install_flutter w)).
Proof.
  destruct (run_anatomy w) as [(t & E & Ht & _)
    | (head & install_path & download_url & latest_version & _ & Hf & _ & E
       & Hhead & _)]; rewrite E; cbn [trace fst]; intro Hin.
  { exfalso. revert Hin. now apply (not_in_calls early_call). }
  assert (Hsteps : In (EUrlretrieve download_url (archive_name w latest_version))
                     (trace (install_steps w (get_os w) install_path download_url
                               latest_version))).
  { destruct (install_steps_start w install_path download_url latest_version)
      as (rest & ->). right. now left. }
  assert (Hx : In (EOpenArchive k f)
                 (trace (extraction_step w (get_os w) install_path
                           (archive_name w latest_version)))).
  { apply in_app_or in Hin. destruct Hin as [Hin | Hin].
    { exfalso. revert Hin. now apply (not_in_calls early_call). }
    rewrite install_steps_phases in Hin. cbn [trace fst] in Hin.
    apply in_app_or in Hin. destruct Hin as [Hin | Hin].
    { exfalso. revert Hin.
      now apply (not_in_calls download_call _ _ (download_step_calls _ _ _)). }
    destruct (result (download_step _ _ _)); [| contradiction ..].
    destruct Hin as [Hin | Hin]; [discriminate Hin |].
    apply in_app_or in Hin. destruct Hin as [Hin | Hin].
    { exfalso. revert Hin.
      now apply (not_in_calls removal_call _ _ (clean_old_install_calls _ _ _)). }
    destruct (result (clean_old_install _ _ _)); [| contradiction ..].
    apply in_app_or in Hin. destruct Hin as [Hin | Hin]; [exact Hin |].
    exfalso. destruct (result (extraction_step _ _ _ _)); [| contradiction ..].
    revert Hin.
    now apply (not_in_calls advice_call _ _ (path_handling_calls _ _ _)). }
  apply extraction_step_opens in Hx. destruct Hx as (-> & ->).
  split; [apply archive_format_of_name |].
  exists download_url, latest_version. split; [exact Hf |].
  split; [reflexivity |]. apply in_or_app. now right.
Qed.

Lemma archive_is_opened_in_system_format_witness :
  In (EOpenArchive TarXz "flutter_3.38.5_archive.tar.xz")
     (trace (install_flutter upgrade_world))
  /\ TarXz = system_format upgrade_world.
Proof.
  assert (H : In (EOpenArchive TarXz "flutter_3.38.5_archive.tar.xz")
                (trace (install_flutter upgrade_world))).
  { vm_compute. repeat (first [left; reflexivity | right]). }
  split; [exact H |].
  exact (proj1 (archive_is_opened_in_system_format upgrade_world _ _ H)).
Defined.

(** ** A release without its entries *)

(** X16. When the release designated by the stable hash lacks its
    [archive] entry, or has it but lacks its [version] entry, the
    resolver fails with the [KeyError] of that entry: the run prints
    "Failed to fetch metadata: " followed by the quoted name of the
    entry and returns, having made the metadata request and nothing
    else. *)
Theorem missing_release_entry (w : World) (install_path murl : string)
    (data stable : json) (before : list json) (release : json)
    (after : list json) (key : string) :
  dict_get (PATHS w) (get_os w) = Some install_path ->
  dict_get METADATA_URLS (get_os w) = Some murl ->
  metadata w murl = Document data ->
  stable_hash data = Some stable ->
  releases data = Some (before ++ release :: after)%list ->
  hash_is stable release ->
  (forall item, In item before -> other_hash stable item) ->
  missing_entry release = Some key ->
  install_flutter w
  = ((banner_lines
      ++ [ EPrint ("Detected System: " ++ Colors.BOLD ++ get_os w ++ Colors.RESET);
           EPrint (step_line "🔍" "Checking for latest stable release...");
           EUrlopen murl;
           EPrint (error_line ("Failed to fetch metadata: '" ++ key ++ "'")) ])%list,
     Returned tt).
Proof.
  intros Hos Hurl Hdata Hst Hrel Hrelease Hbefore Hmiss.
  assert (E : @fetch_metadata unit w (get_os w)
              = ([EUrlopen murl], Raised (Exn KeyError ("'" ++ key ++ "'")))).
  { unfold stable_hash in Hst. unfold releases in Hrel.
    destruct (field data "current_release") as [cr |] eqn:Hcr; [| discriminate].
    destruct (field data "releases") as [rel |] eqn:Hr; [| discriminate].
    destruct rel; try discriminate. injection Hrel as ->.
    unfold fetch_metadata.
    rewrite (lookup_Some _ _ _ Hurl). cbn [bind emit]. rewrite Hdata.
    cbn [bind ret app].
    rewrite (getitem_Some _ _ _ Hcr). cbn [bind app].
    rewrite (getitem_Some _ _ _ Hst). cbn [bind app].
    rewrite (getitem_Some _ _ _ Hr). cbn [bind app iterate ret].
    rewrite (first_match_found stable release before after Hrelease Hbefore).
    cbn [bind app]. rewrite (found_release_truthy stable release Hrelease).
    cbn [negb].
    destruct Hrelease as (x & Hx & _).
    destruct release as [| | | | | | d]; try discriminate Hx.
    unfold missing_entry in Hmiss. cbn [field] in Hmiss.
    cbn [getitem]. unfold lookup.
    destruct (dict_get d "archive") as [a |] eqn:Ha.
    - destruct (dict_get d "version") as [v |] eqn:Hv; [discriminate |].
      injection Hmiss as <-. reflexivity.
    - injection Hmiss as <-. reflexivity. }
  rewrite (run_fetch_failed w install_path _ _ Hos E). reflexivity.
Qed.

Lemma missing_release_entry_witness :
  missing_entry (JDict [ ("hash", JStr "abc123"); ("version", JStr "3.38.5") ])
  = Some "archive"
  /\ install_flutter incomplete_world
     = ((banner_lines
         ++ [ EPrint ("Detected System: " ++ Colors.BOLD ++ "Linux" ++ Colors.RESET);
              EPrint (step_line "🔍" "Checking for latest stable release...");
              EUrlopen "https://storage.googleapis.com/flutter_infra_release/releases/releases_linux.json";
              EPrint (error_line "Failed to fetch metadata: 'archive'") ])%list,
        Returned tt).
Proof.
  split; [reflexivity |].
  refine (missing_release_entry incomplete_world "/home/dev/development/flutter"
            "https://storage.googleapis.com/flutter_infra_release/releases/releases_linux.json"
            incomplete_document (JStr "abc123")
            [ JDict [ ("hash", JStr "000000");
                      ("version", JStr "3.30.0");
                      ("archive", JStr "stable/sdk_3.30.0.tar.xz") ] ]
            (JDict [ ("hash", JStr "abc123"); ("version", JStr "3.38.5") ])
            [] "archive" eq_refl eq_refl eq_refl eq_refl eq_refl _ _ eq_refl).
  - exists (JStr "abc123"). split; reflexivity.
  - intros item [<- | []]. exists (JStr "000000"). split; reflexivity.
Defined.

(** ** Calls that depend on a test *)

Lemma never_run (w : World) (p : event -> bool) :
  (forall e, early_call e = true -> p e = false) ->
  (forall download_url filename,
     never p (trace (download_step w download_url filename))) ->
  (forall install_path,
     never p (trace (clean_old_install w (get_os w) install_path))) ->
  (forall install_path filename,
     never p (trace (extraction_step w (get_os w) install_path filename))) ->
  (forall install_path,
     never p (trace (path_handling (R := unit) w (get_os w) install_path))) ->
  never p (trace (install_flutter w)).
Proof.
  intros He Hd Hc Hx Hp.
  destruct (run_anatomy w) as [(t & E & Ht & _)
    | (head & install_path & download_url & latest_version & _ & _ & _ & E
       & Hhead & _)]; rewrite E; cbn [trace fst].
  { now apply (calls_harmless early_call). }
  apply never_app; [now apply (calls_harmless early_call) |].
  rewrite install_steps_phases. cbn [trace fst].
  apply never_app; [apply Hd |].
  destruct (result (download_step _ _ _)); try constructor.
  { apply He. reflexivity. }
  apply never_app; [apply Hc |].
  destruct (result (clean_old_install _ _ _)); try constructor.
  apply never_app; [apply Hx |].
  destruct (result (extraction_step _ _ _ _)); try constructor.
  apply Hp.
Qed.

(** X17. The calls that the script guards by a test are made only when
    the test says so: without an old installation directory nothing is
    deleted and no permission is tested or changed; when the parent
    directory exists no directory is created; when the archive file is
    not there it is not removed. *)
Theorem guarded_calls (w : World) :
  (install_dir w = None ->
   never deletion (trace (install_flutter w))
   /\ never handler_call (trace (install_flutter w)))
  /\ (parent_exists w = true ->
      never makes_directories (trace (install_flutter w)))
  /\ (archive_exists w = false ->
      never removes_archive (trace (install_flutter w))).
Proof.
  assert (Hq : forall (q p : event -> bool),
            (forall e, q e = true -> p e = false) ->
            forall t, never (other_than q) t -> never p t)
    by (intros q p H t; now apply calls_harmless).
  assert (Hex : forall p install_path filename,
            (forall e, member_call e = true -> p e = false) ->
            (forall line, p (EPrint line) = false) ->
            (forall path, p (EExists path) = false) ->
            (forall k f, p (EOpenArchive k f) = false) ->
            (parent_exists w = false ->
             p (EMakedirs (dirname (get_os w) install_path)) = false) ->
            (archive_exists w = true -> p (ERemove filename) = false) ->
            never p (trace (extraction_step w (get_os w) install_path filename))).
  { intros p install_path filename Hm Hprint Hexists Hopen Hmk Hrm.
    destruct (parent_exists w) eqn:Hpe;
      [| destruct (makedirs_reply w) as [err |] eqn:Hre].
    1,3: (rewrite (proj1 (extraction_outcomes_aux w (get_os w) install_path
                            filename
                            ltac:(first [left; exact Hpe | right; exact Hre])));
          cbn [trace fst]; unfold parent_calls, cleanup_calls; rewrite Hpe;
          apply never_app;
          [ repeat constructor; auto
          | apply never_app;
            [ rewrite extract_archive_trace;
              destruct (archive w); cbn [trace fst];
              (constructor; [apply Hopen |]); [constructor |];
              apply (Hq member_call p Hm), extract_members_only
            | constructor;
              [ unfold extraction_report; destruct (result _); apply Hprint |];
              constructor; [apply Hexists |];
              destruct (archive_exists w); repeat constructor; auto ] ]).
    unfold extraction_step, os_result. rewrite Hpe, Hre. cbn.
    repeat constructor; auto. }
  split; [| split].
  - intro Hd.
    assert (Hc : forall install_path,
              clean_old_install w (get_os w) install_path
              = ([EExists install_path], Normal tt)).
    { intro install_path. unfold clean_old_install. now rewrite Hd. }
    split; apply never_run;
      try (intros e He; destruct e; try discriminate He; reflexivity);
      try (intros; rewrite Hc; repeat constructor);
      try (intros; apply Hex; try reflexivity;
           intros e He; destruct e; try discriminate He; reflexivity).
    + intros. apply (Hq download_call); [| apply download_step_calls].
      intros e He; destruct e; try discriminate He; reflexivity.
    + intros. apply (Hq advice_call); [| apply path_handling_calls].
      intros e He; destruct e; try discriminate He; reflexivity.
    + intros. apply (Hq download_call); [| apply download_step_calls].
      intros e He; destruct e; try discriminate He; reflexivity.
    + intros. apply (Hq advice_call); [| apply path_handling_calls].
      intros e He; destruct e; try discriminate He; reflexivity.
  - intro Hpe. apply never_run.
    + intros e He; destruct e; try discriminate He; reflexivity.
    + intros. apply (Hq download_call); [| apply download_step_calls].
      intros e He; destruct e; try discriminate He; reflexivity.
    + intros. apply (Hq removal_call); [| apply clean_old_install_calls].
      intros e He; destruct e; try discriminate He; reflexivity.
    + intros. apply Hex; try reflexivity.
      * intros e He; destruct e; try discriminate He; reflexivity.
      * intro Hc. congruence.
    + intros. apply (Hq advice_call); [| apply path_handling_calls].
      intros e He; destruct e; try discriminate He; reflexivity.
  - intro Hae. apply never_run.
    + intros e He; destruct e; try discriminate He; reflexivity.
    + intros. apply (Hq download_call); [| apply download_step_calls].
      intros e He; destruct e; try discriminate He; reflexivity.
    + intros. apply (Hq removal_call); [| apply clean_old_install_calls].
      intros e He; destruct e; try discriminate He; reflexivity.
    + intros. apply Hex; try reflexivity.
      * intros e He; destruct e; try discriminate He; reflexivity.
      * intro Hc. congruence.
    + intros. apply (Hq advice_call); [| apply path_handling_calls].
      intros e He; destruct e; try discriminate He; reflexivity.
Qed.
